(** * The segment scan engine of [be/src/olap/rowset/segment_reader.cpp]

    A shallow embedding of [doris::SegmentReader]: index loading with the
    shared cache, row-group pruning, the block cursor and the vectorized
    batch loader, followed by the properties of the design document that
    can be settled on it.

    Conventions.
    - C++ integers are [Z]; where the source computes in a fixed width the
      wrap-around is written out ([wrap32], [wrap64], [int64_of]).
    - A member function becomes a function from the reader (and the shared
      cache it points to) to a new reader.  Members that none of the modelled
      functions assigns live in [ReaderSetup]; the others in [SegmentReader].
    - What C++ leaves undefined or what ends the process (an access outside an
      array, a null dereference, an uncaught [std::out_of_range],
      [LOG(FATAL)]) is the outcome [Crash]; everything else is [Done].
    - Classes whose code lives in other files of the repository (column
      readers, index readers, conditions, the file stream, the allocator) are
      the interface [Collaborators]. *)

From stdpp Require Import base tactics option list numbers gmap strings.

Local Open Scope Z_scope.

(** ** Fixed-width arithmetic *)

Definition wrap32 (z : Z) : Z := z mod 2 ^ 32.
Definition wrap64 (z : Z) : Z := z mod 2 ^ 64.
(** Conversion to [int64_t] (two's complement). *)
Definition int64_of (z : Z) : Z := (z + 2 ^ 63) mod 2 ^ 64 - 2 ^ 63.

(** ** Outcomes *)

Inductive fault : Type :=
  | OutOfBounds
  | NullDereference
  | OutOfRangeException
  | FatalLog.

Inductive exec (A : Type) : Type :=
  | Done (a : A)
  | Crash (f : fault).
Arguments Done {A} a.
Arguments Crash {A} f.

(** Sequencing: a crash ends the computation. *)
Definition exec_then {A B : Type} (m : exec A) (k : A -> exec B) : exec B :=
  match m with
  | Done a => k a
  | Crash f => Crash f
  end.

Notation "'let*' x := c1 'in' c2" := (exec_then c1 (fun x => c2))
  (at level 10, x name, c1 at level 200, c2 at level 200, only parsing).
Notation "'let*' ' pat := c1 'in' c2" :=
  (exec_then c1 (fun x => match x with pat => c2 end))
  (at level 10, pat pattern, c1 at level 200, c2 at level 200, only parsing).

(** [OLAPStatus]: the codes this file returns or inspects; any other code a
    collaborator hands back is [OLAP_ERR_OTHER]. *)
Inductive OLAPStatus : Type :=
  | OLAP_SUCCESS
  | OLAP_ERR_FILE_FORMAT_ERROR
  | OLAP_ERR_MALLOC_ERROR
  | OLAP_ERR_INPUT_PARAMETER_ERROR
  | OLAP_ERR_COLUMN_STREAM_EOF
  | OLAP_ERR_DATA_EOF
  | OLAP_ERR_COLUMN_SEEK_ERROR
  | OLAP_ERR_OTHER (code : Z).

#[global] Instance OLAPStatus_eq_dec : EqDecision OLAPStatus.
Proof. solve_decision. Defined.

(** What one iteration of a loop does next: go on with the following element
    or leave the function with a status. *)
Inductive flow (S : Type) : Type :=
  | Next (s : S)
  | Return (res : OLAPStatus) (s : S).
Arguments Next {S} s.
Arguments Return {S} res s.

(** Go on with [k] after an iteration that did not [return]. *)
Definition flow_then {S : Type} (m : exec (flow S)) (k : S -> exec (flow S))
  : exec (flow S) :=
  let* r := m in
  match r with
  | Next s' => k s'
  | Return res s' => Done (Return res s')
  end.

(** ** Constants *)

Definition MIN_FILTER_BLOCK_NUM : Z := 10.

(** Modelled from the spec: the enumeration [DelCondSatisfied] (declared in
    olap_common.h, which is not part of the sources at hand).  The two
    [memset] calls of [_init_include_blocks] write the bytes 0 and 1, and the
    design document calls the results [Excluded] and [Include]; the remaining
    value is [RequiresRowFilter]. *)
Definition DEL_SATISFIED : Z := 0.
Definition DEL_NOT_SATISFIED : Z := 1.
Definition DEL_PARTIAL_SATISFIED : Z := 2.

(** The names the design document uses for the three dispositions. *)
Definition Excluded : Z := DEL_SATISFIED.
Definition Include : Z := DEL_NOT_SATISFIED.
Definition RequiresRowFilter : Z := DEL_PARTIAL_SATISFIED.

(** ** Header messages *)

Definition ColumnId : Type := Z.

Inductive StreamKind : Type :=
  | ROW_INDEX
  | BLOOM_FILTER
  | DATA_KIND (tag : Z).

#[global] Instance StreamKind_eq_dec : EqDecision StreamKind.
Proof. solve_decision. Defined.

#[global] Instance StreamKind_countable : Countable StreamKind.
Proof.
  refine (inj_countable'
    (fun k => match k with
              | ROW_INDEX => inl false
              | BLOOM_FILTER => inl true
              | DATA_KIND t => inr t
              end)
    (fun s => match s with
              | inl false => ROW_INDEX
              | inl true => BLOOM_FILTER
              | inr t => DATA_KIND t
              end) _).
  by intros [].
Defined.

(** The message type lives in a module of its own so that its accessor
    [length] does not hide the length of lists. *)
Module StreamInfoMessage.
Record t : Type := {
  kind : StreamKind;
  column_unique_id : ColumnId;
  length : Z
}.
End StreamInfoMessage.

Record ColumnDataHeaderMessage : Type := {
  number_of_rows : Z;
  num_rows_per_block : Z;
  stream_buffer_size : Z;
  bf_hash_function_num : Z;
  bf_bit_num : Z;
  stream_info : list StreamInfoMessage.t
}.

(** ** Collaborators *)

Definition Buffer : Type := list Byte.byte.

Definition StreamName : Type := (ColumnId * StreamKind)%type.

(** A [ReadOnlyFileStream] over the byte range it was constructed for. *)
Record ReadOnlyFileStream : Type := {
  rs_offset : Z;
  rs_length : Z
}.

Inductive FieldAggregationMethod : Type :=
  | OLAP_FIELD_AGGREGATION_NONE
  | OLAP_FIELD_AGGREGATION_OTHER (code : Z).

(** The requests made through [new (std::nothrow)]. *)
Inductive alloc_request : Type :=
  | NewIncludeBlocks (block_count : Z)
  | NewStreamBuffer (stream_length : Z)
  | NewStreamIndexReader
  | NewBloomFilterIndexReader
  | NewReadOnlyFileStream.

(** Modelled from the spec: the cache key (the macros
    [OLAP_CACHE_STRING_TO_BUF] and [OLAP_CACHE_NUMERIC_TO_BUF] are not part of
    the sources at hand): the key is built from the file path, the column
    unique id and the stream kind. *)
Definition CacheKey : Type := (string * ColumnId * StreamKind)%type.

(** The classes this file drives but does not define. *)
Class Collaborators : Type := {
  ColumnReader : Type;
  WrapperField : Type;
  BloomFilter : Type;
  PositionEntryReader : Type;
  CondColumn : Type;
  (* PositionEntryReader::column_statistic().pair() *)
  column_statistic_pair : PositionEntryReader -> WrapperField * WrapperField;
  (* CondColumn::eval on a zone map, ::del_eval, ::eval on a bloom filter *)
  cond_eval : CondColumn -> WrapperField * WrapperField -> bool;
  cond_del_eval : CondColumn -> WrapperField * WrapperField -> Z;
  cond_eval_bf : CondColumn -> BloomFilter -> bool;
  (* new (std::nothrow): true when the allocation succeeds *)
  nothrow_new : alloc_request -> bool;
  (* the index stream of _load_index: init(), then reset + read_all *)
  index_stream_init : OLAPStatus;
  read_all : Z -> Z -> OLAPStatus * Buffer;
  (* StreamIndexReader::init(buffer, length, type, _, null_supported) *)
  StreamIndexReader_init :
    Buffer -> Z -> Z -> bool -> OLAPStatus * list PositionEntryReader;
  (* BloomFilterIndexReader::init(buffer, length, _, hash_function_num, bit_num) *)
  BloomFilterIndexReader_init :
    Buffer -> Z -> Z -> Z -> OLAPStatus * list BloomFilter;
  (* Cache::insert: true when a handle is returned *)
  lru_insert_ok : CacheKey -> Z -> bool;
  (* static_cast<int64_t>(ceil(static_cast<double>(a) / b)) *)
  ceil_double_div : Z -> Z -> Z;
  (* a data stream over (offset, length): init() and get_buffer_size() *)
  data_stream_init : Z -> Z -> OLAPStatus;
  data_stream_buffer_size : Z -> Z -> Z;
  (* ColumnReader::create for a table column, ::init, ::get_buffer_size,
     ::seek, ::next_vector *)
  ColumnReader_create : ColumnId -> option ColumnReader;
  reader_init :
    ColumnReader -> gmap StreamName ReadOnlyFileStream -> Z ->
    OLAPStatus * ColumnReader;
  reader_buffer_size : ColumnReader -> Z;
  reader_seek : ColumnReader -> PositionEntryReader -> OLAPStatus * ColumnReader;
  reader_next_vector : ColumnReader -> Z -> OLAPStatus * ColumnReader
}.

Section Engine.
Context {collab : Collaborators}.

(** ** Index readers *)

(** A parsed zone-map stream.  [sir_is_using_cache] is the flag handed to
    [init]: when it is false the reader owns [sir_buffer]. *)
Record StreamIndexReader : Type := {
  sir_buffer : Buffer;
  sir_is_using_cache : bool;
  sir_entries : list PositionEntryReader
}.

Definition entry_count (r : StreamIndexReader) : Z :=
  Z.of_nat (List.length (sir_entries r)).

Record BloomFilterIndexReader : Type := {
  bfr_buffer : Buffer;
  bfr_is_using_cache : bool;
  bfr_entries : list BloomFilter
}.

Definition bf_entry_count (r : BloomFilterIndexReader) : Z :=
  Z.of_nat (List.length (bfr_entries r)).

(** [entry(j)]: outside the parsed entries the source reads past its array. *)
Definition at_index {A : Type} (l : list A) (j : Z) : exec A :=
  if decide (0 <= j) then
    match l !! Z.to_nat j with
    | Some a => Done a
    | None => Crash OutOfBounds
    end
  else Crash OutOfBounds.

Definition entry (r : StreamIndexReader) (j : Z) : exec PositionEntryReader :=
  at_index (sir_entries r) j.

Definition bf_entry (r : BloomFilterIndexReader) (j : Z) : exec BloomFilter :=
  at_index (bfr_entries r) j.

(** ** Conditions and delete conditions *)

(** [Conditions::columns()] is a [std::map] from table column id to
    [CondColumn*]; the list holds its pairs in iteration order. *)
Record Conditions : Type := {
  columns : list (ColumnId * CondColumn)
}.

(** [columns().at(i)] throws [std::out_of_range] for a missing key. *)
Fixpoint columns_at (cols : list (ColumnId * CondColumn)) (i : ColumnId)
  : exec CondColumn :=
  match cols with
  | [] => Crash OutOfRangeException
  | (k, c) :: rest => if decide (k = i) then Done c else columns_at rest i
  end.

Record DeleteConditions : Type := {
  filter_version : Z;
  del_cond : Conditions
}.

(** [DeleteHandler]: [get_delete_conditions()] in registration order;
    [empty()] is the emptiness of that vector. *)
Record DeleteHandler : Type := {
  get_delete_conditions : list DeleteConditions
}.

Definition delete_handler_empty (h : DeleteHandler) : bool :=
  match get_delete_conditions h with
  | [] => true
  | _ :: _ => false
  end.

(** ** The shared cache *)

(** Modelled from the spec: the shared LRU cache (olap/lru_cache.h is not part
    of the sources at hand): [lookup(key) -> handle?],
    [insert(key, buffer, size, destructor) -> handle?] and
    [value(handle) -> buffer].  Eviction is out of scope, so an inserted
    buffer stays. *)
Record CacheHandle : Type := {
  handle_key : CacheKey;
  handle_value : Buffer
}.

Definition Cache_lookup (c : gmap CacheKey Buffer) (key : CacheKey)
  : option CacheHandle :=
  match c !! key with
  | Some b => Some {| handle_key := key; handle_value := b |}
  | None => None
  end.

Definition Cache_insert (c : gmap CacheKey Buffer) (key : CacheKey)
  (value : Buffer) (charge : Z) : option CacheHandle * gmap CacheKey Buffer :=
  if lru_insert_ok key charge
  then (Some {| handle_key := key; handle_value := value |}, <[key := value]> c)
  else (None, c).

Definition Cache_value (h : CacheHandle) : Buffer := handle_value h.

(** ** The reader *)

(** The counters of [OlapReaderStatistics] this file updates. *)
Record OlapReaderStatistics : Type := {
  rows_del_filtered : Z;
  rows_stats_filtered : Z;
  blocks_load : Z;
  raw_rows_read : Z
}.

Definition set_rows_del_filtered (v : Z) (s : OlapReaderStatistics)
  : OlapReaderStatistics :=
  {| rows_del_filtered := v; rows_stats_filtered := rows_stats_filtered s;
     blocks_load := blocks_load s; raw_rows_read := raw_rows_read s |}.

Definition set_rows_stats_filtered (v : Z) (s : OlapReaderStatistics)
  : OlapReaderStatistics :=
  {| rows_del_filtered := rows_del_filtered s; rows_stats_filtered := v;
     blocks_load := blocks_load s; raw_rows_read := raw_rows_read s |}.

Definition set_blocks_load (v : Z) (s : OlapReaderStatistics)
  : OlapReaderStatistics :=
  {| rows_del_filtered := rows_del_filtered s;
     rows_stats_filtered := rows_stats_filtered s;
     blocks_load := v; raw_rows_read := raw_rows_read s |}.

Definition set_raw_rows_read (v : Z) (s : OlapReaderStatistics)
  : OlapReaderStatistics :=
  {| rows_del_filtered := rows_del_filtered s;
     rows_stats_filtered := rows_stats_filtered s;
     blocks_load := blocks_load s; raw_rows_read := v |}.

(** Members fixed by the constructor and by [_load_segment_file],
    [_set_segment_info] and [_pick_columns]; the functions below only read
    them.  [version_first] is [_segment_group->version().first],
    [num_columns] is [_segment_group->get_tablet_schema().num_columns()],
    [_file_header] is what [_header_message()] returns. *)
Record ReaderSetup : Type := {
  _file_name : string;
  version_first : Z;
  num_columns : Z;
  _get_aggregation_by_index : ColumnId -> FieldAggregationMethod;
  _get_field_type_by_index : ColumnId -> Z;
  _get_included_row_index_stream_num : Z;
  _used_columns : list ColumnId;
  _load_bf_columns : list ColumnId;
  _conditions : option Conditions;
  _delete_handler : DeleteHandler;
  _delete_status : Z;
  _file_header : ColumnDataHeaderMessage;
  _header_length : Z;
  _num_rows_in_block : Z;
  _null_supported : bool;
  _include_columns : gset ColumnId;
  _include_bf_columns : gset ColumnId;
  _tablet_id_to_unique_id_map : gmap ColumnId ColumnId;
  _unique_id_to_tablet_id_map : gmap ColumnId ColumnId;
  _unique_id_to_segment_id_map : gmap ColumnId ColumnId
}.

(** The members the modelled functions assign.  [_include_blocks] is [None]
    for the null pointer; [_lru_cache] is the content of the cache the
    pointer of that name refers to. *)
Record SegmentReader : Type := {
  _eof : bool;
  _end_block : Z;
  _current_block_id : Z;
  _next_block_id : Z;
  _block_count : Z;
  _column_readers : list (option ColumnReader);
  _column_indices : list (option StreamIndexReader);
  _indices : gmap ColumnId StreamIndexReader;
  _streams : gmap StreamName ReadOnlyFileStream;
  _bloom_filters : gmap ColumnId BloomFilterIndexReader;
  _include_blocks : option (list Z);
  _remain_block : Z;
  _need_to_seek_block : bool;
  _without_filter : bool;
  _is_data_loaded : bool;
  _buffer_size : Z;
  _cache_handle : list (option CacheHandle);
  _lru_cache : gmap CacheKey Buffer;
  _stats : OlapReaderStatistics
}.

Definition set_eof (v : bool) (st : SegmentReader) : SegmentReader :=
  {| _eof := v; _end_block := _end_block st;
     _current_block_id := _current_block_id st;
     _next_block_id := _next_block_id st; _block_count := _block_count st;
     _column_readers := _column_readers st;
     _column_indices := _column_indices st; _indices := _indices st;
     _streams := _streams st; _bloom_filters := _bloom_filters st;
     _include_blocks := _include_blocks st; _remain_block := _remain_block st;
     _need_to_seek_block := _need_to_seek_block st;
     _without_filter := _without_filter st;
     _is_data_loaded := _is_data_loaded st; _buffer_size := _buffer_size st;
     _cache_handle := _cache_handle st; _lru_cache := _lru_cache st;
     _stats := _stats st |}.

Definition set_end_block (v : Z) (st : SegmentReader) : SegmentReader :=
  {| _eof := _eof st; _end_block := v;
     _current_block_id := _current_block_id st;
     _next_block_id := _next_block_id st; _block_count := _block_count st;
     _column_readers := _column_readers st;
     _column_indices := _column_indices st; _indices := _indices st;
     _streams := _streams st; _bloom_filters := _bloom_filters st;
     _include_blocks := _include_blocks st; _remain_block := _remain_block st;
     _need_to_seek_block := _need_to_seek_block st;
     _without_filter := _without_filter st;
     _is_data_loaded := _is_data_loaded st; _buffer_size := _buffer_size st;
     _cache_handle := _cache_handle st; _lru_cache := _lru_cache st;
     _stats := _stats st |}.

Definition set_current_block_id (v : Z) (st : SegmentReader) : SegmentReader :=
  {| _eof := _eof st; _end_block := _end_block st; _current_block_id := v;
     _next_block_id := _next_block_id st; _block_count := _block_count st;
     _column_readers := _column_readers st;
     _column_indices := _column_indices st; _indices := _indices st;
     _streams := _streams st; _bloom_filters := _bloom_filters st;
     _include_blocks := _include_blocks st; _remain_block := _remain_block st;
     _need_to_seek_block := _need_to_seek_block st;
     _without_filter := _without_filter st;
     _is_data_loaded := _is_data_loaded st; _buffer_size := _buffer_size st;
     _cache_handle := _cache_handle st; _lru_cache := _lru_cache st;
     _stats := _stats st |}.

Definition set_next_block_id (v : Z) (st : SegmentReader) : SegmentReader :=
  {| _eof := _eof st; _end_block := _end_block st;
     _current_block_id := _current_block_id st; _next_block_id := v;
     _block_count := _block_count st; _column_readers := _column_readers st;
     _column_indices := _column_indices st; _indices := _indices st;
     _streams := _streams st; _bloom_filters := _bloom_filters st;
     _include_blocks := _include_blocks st; _remain_block := _remain_block st;
     _need_to_seek_block := _need_to_seek_block st;
     _without_filter := _without_filter st;
     _is_data_loaded := _is_data_loaded st; _buffer_size := _buffer_size st;
     _cache_handle := _cache_handle st; _lru_cache := _lru_cache st;
     _stats := _stats st |}.

Definition set_block_count (v : Z) (st : SegmentReader) : SegmentReader :=
  {| _eof := _eof st; _end_block := _end_block st;
     _current_block_id := _current_block_id st;
     _next_block_id := _next_block_id st; _block_count := v;
     _column_readers := _column_readers st;
     _column_indices := _column_indices st; _indices := _indices st;
     _streams := _streams st; _bloom_filters := _bloom_filters st;
     _include_blocks := _include_blocks st; _remain_block := _remain_block st;
     _need_to_seek_block := _need_to_seek_block st;
     _without_filter := _without_filter st;
     _is_data_loaded := _is_data_loaded st; _buffer_size := _buffer_size st;
     _cache_handle := _cache_handle st; _lru_cache := _lru_cache st;
     _stats := _stats st |}.

Definition set_indices (v : gmap ColumnId StreamIndexReader) (st : SegmentReader)
  : SegmentReader :=
  {| _eof := _eof st; _end_block := _end_block st;
     _current_block_id := _current_block_id st;
     _next_block_id := _next_block_id st; _block_count := _block_count st;
     _column_readers := _column_readers st;
     _column_indices := _column_indices st; _indices := v;
     _streams := _streams st; _bloom_filters := _bloom_filters st;
     _include_blocks := _include_blocks st; _remain_block := _remain_block st;
     _need_to_seek_block := _need_to_seek_block st;
     _without_filter := _without_filter st;
     _is_data_loaded := _is_data_loaded st; _buffer_size := _buffer_size st;
     _cache_handle := _cache_handle st; _lru_cache := _lru_cache st;
     _stats := _stats st |}.

Definition set_streams (v : gmap StreamName ReadOnlyFileStream) (st : SegmentReader)
  : SegmentReader :=
  {| _eof := _eof st; _end_block := _end_block st;
     _current_block_id := _current_block_id st;
     _next_block_id := _next_block_id st; _block_count := _block_count st;
     _column_readers := _column_readers st;
     _column_indices := _column_indices st; _indices := _indices st;
     _streams := v; _bloom_filters := _bloom_filters st;
     _include_blocks := _include_blocks st; _remain_block := _remain_block st;
     _need_to_seek_block := _need_to_seek_block st;
     _without_filter := _without_filter st;
     _is_data_loaded := _is_data_loaded st; _buffer_size := _buffer_size st;
     _cache_handle := _cache_handle st; _lru_cache := _lru_cache st;
     _stats := _stats st |}.

Definition set_bloom_filters (v : gmap ColumnId BloomFilterIndexReader) (st : SegmentReader)
  : SegmentReader :=
  {| _eof := _eof st; _end_block := _end_block st;
     _current_block_id := _current_block_id st;
     _next_block_id := _next_block_id st; _block_count := _block_count st;
     _column_readers := _column_readers st;
     _column_indices := _column_indices st; _indices := _indices st;
     _streams := _streams st; _bloom_filters := v;
     _include_blocks := _include_blocks st; _remain_block := _remain_block st;
     _need_to_seek_block := _need_to_seek_block st;
     _without_filter := _without_filter st;
     _is_data_loaded := _is_data_loaded st; _buffer_size := _buffer_size st;
     _cache_handle := _cache_handle st; _lru_cache := _lru_cache st;
     _stats := _stats st |}.

Definition set_remain_block (v : Z) (st : SegmentReader) : SegmentReader :=
  {| _eof := _eof st; _end_block := _end_block st;
     _current_block_id := _current_block_id st;
     _next_block_id := _next_block_id st; _block_count := _block_count st;
     _column_readers := _column_readers st;
     _column_indices := _column_indices st; _indices := _indices st;
     _streams := _streams st; _bloom_filters := _bloom_filters st;
     _include_blocks := _include_blocks st; _remain_block := v;
     _need_to_seek_block := _need_to_seek_block st;
     _without_filter := _without_filter st;
     _is_data_loaded := _is_data_loaded st; _buffer_size := _buffer_size st;
     _cache_handle := _cache_handle st; _lru_cache := _lru_cache st;
     _stats := _stats st |}.

Definition set_need_to_seek_block (v : bool) (st : SegmentReader)
  : SegmentReader :=
  {| _eof := _eof st; _end_block := _end_block st;
     _current_block_id := _current_block_id st;
     _next_block_id := _next_block_id st; _block_count := _block_count st;
     _column_readers := _column_readers st;
     _column_indices := _column_indices st; _indices := _indices st;
     _streams := _streams st; _bloom_filters := _bloom_filters st;
     _include_blocks := _include_blocks st; _remain_block := _remain_block st;
     _need_to_seek_block := v; _without_filter := _without_filter st;
     _is_data_loaded := _is_data_loaded st; _buffer_size := _buffer_size st;
     _cache_handle := _cache_handle st; _lru_cache := _lru_cache st;
     _stats := _stats st |}.

Definition set_without_filter (v : bool) (st : SegmentReader) : SegmentReader :=
  {| _eof := _eof st; _end_block := _end_block st;
     _current_block_id := _current_block_id st;
     _next_block_id := _next_block_id st; _block_count := _block_count st;
     _column_readers := _column_readers st;
     _column_indices := _column_indices st; _indices := _indices st;
     _streams := _streams st; _bloom_filters := _bloom_filters st;
     _include_blocks := _include_blocks st; _remain_block := _remain_block st;
     _need_to_seek_block := _need_to_seek_block st; _without_filter := v;
     _is_data_loaded := _is_data_loaded st; _buffer_size := _buffer_size st;
     _cache_handle := _cache_handle st; _lru_cache := _lru_cache st;
     _stats := _stats st |}.

Definition set_is_data_loaded (v : bool) (st : SegmentReader) : SegmentReader :=
  {| _eof := _eof st; _end_block := _end_block st;
     _current_block_id := _current_block_id st;
     _next_block_id := _next_block_id st; _block_count := _block_count st;
     _column_readers := _column_readers st;
     _column_indices := _column_indices st; _indices := _indices st;
     _streams := _streams st; _bloom_filters := _bloom_filters st;
     _include_blocks := _include_blocks st; _remain_block := _remain_block st;
     _need_to_seek_block := _need_to_seek_block st;
     _without_filter := _without_filter st; _is_data_loaded := v;
     _buffer_size := _buffer_size st; _cache_handle := _cache_handle st;
     _lru_cache := _lru_cache st; _stats := _stats st |}.

Definition set_buffer_size (v : Z) (st : SegmentReader) : SegmentReader :=
  {| _eof := _eof st; _end_block := _end_block st;
     _current_block_id := _current_block_id st;
     _next_block_id := _next_block_id st; _block_count := _block_count st;
     _column_readers := _column_readers st;
     _column_indices := _column_indices st; _indices := _indices st;
     _streams := _streams st; _bloom_filters := _bloom_filters st;
     _include_blocks := _include_blocks st; _remain_block := _remain_block st;
     _need_to_seek_block := _need_to_seek_block st;
     _without_filter := _without_filter st;
     _is_data_loaded := _is_data_loaded st; _buffer_size := v;
     _cache_handle := _cache_handle st; _lru_cache := _lru_cache st;
     _stats := _stats st |}.

Definition set_lru_cache (v : gmap CacheKey Buffer) (st : SegmentReader)
  : SegmentReader :=
  {| _eof := _eof st; _end_block := _end_block st;
     _current_block_id := _current_block_id st;
     _next_block_id := _next_block_id st; _block_count := _block_count st;
     _column_readers := _column_readers st;
     _column_indices := _column_indices st; _indices := _indices st;
     _streams := _streams st; _bloom_filters := _bloom_filters st;
     _include_blocks := _include_blocks st; _remain_block := _remain_block st;
     _need_to_seek_block := _need_to_seek_block st;
     _without_filter := _without_filter st;
     _is_data_loaded := _is_data_loaded st; _buffer_size := _buffer_size st;
     _cache_handle := _cache_handle st; _lru_cache := v;
     _stats := _stats st |}.

Definition set_stats (v : OlapReaderStatistics) (st : SegmentReader)
  : SegmentReader :=
  {| _eof := _eof st; _end_block := _end_block st;
     _current_block_id := _current_block_id st;
     _next_block_id := _next_block_id st; _block_count := _block_count st;
     _column_readers := _column_readers st;
     _column_indices := _column_indices st; _indices := _indices st;
     _streams := _streams st; _bloom_filters := _bloom_filters st;
     _include_blocks := _include_blocks st; _remain_block := _remain_block st;
     _need_to_seek_block := _need_to_seek_block st;
     _without_filter := _without_filter st;
     _is_data_loaded := _is_data_loaded st; _buffer_size := _buffer_size st;
     _cache_handle := _cache_handle st; _lru_cache := _lru_cache st;
     _stats := v |}.

Definition set_column_readers (v : list (option ColumnReader)) (st : SegmentReader)
  : SegmentReader :=
  {| _eof := _eof st; _end_block := _end_block st;
     _current_block_id := _current_block_id st;
     _next_block_id := _next_block_id st; _block_count := _block_count st;
     _column_readers := v; _column_indices := _column_indices st;
     _indices := _indices st; _streams := _streams st;
     _bloom_filters := _bloom_filters st;
     _include_blocks := _include_blocks st; _remain_block := _remain_block st;
     _need_to_seek_block := _need_to_seek_block st;
     _without_filter := _without_filter st;
     _is_data_loaded := _is_data_loaded st; _buffer_size := _buffer_size st;
     _cache_handle := _cache_handle st; _lru_cache := _lru_cache st;
     _stats := _stats st |}.

Definition set_column_indices (v : list (option StreamIndexReader)) (st : SegmentReader)
  : SegmentReader :=
  {| _eof := _eof st; _end_block := _end_block st;
     _current_block_id := _current_block_id st;
     _next_block_id := _next_block_id st; _block_count := _block_count st;
     _column_readers := _column_readers st; _column_indices := v;
     _indices := _indices st; _streams := _streams st;
     _bloom_filters := _bloom_filters st;
     _include_blocks := _include_blocks st; _remain_block := _remain_block st;
     _need_to_seek_block := _need_to_seek_block st;
     _without_filter := _without_filter st;
     _is_data_loaded := _is_data_loaded st; _buffer_size := _buffer_size st;
     _cache_handle := _cache_handle st; _lru_cache := _lru_cache st;
     _stats := _stats st |}.

Definition set_include_blocks (v : option (list Z)) (st : SegmentReader)
  : SegmentReader :=
  {| _eof := _eof st; _end_block := _end_block st;
     _current_block_id := _current_block_id st;
     _next_block_id := _next_block_id st; _block_count := _block_count st;
     _column_readers := _column_readers st;
     _column_indices := _column_indices st; _indices := _indices st;
     _streams := _streams st; _bloom_filters := _bloom_filters st;
     _include_blocks := v; _remain_block := _remain_block st;
     _need_to_seek_block := _need_to_seek_block st;
     _without_filter := _without_filter st;
     _is_data_loaded := _is_data_loaded st; _buffer_size := _buffer_size st;
     _cache_handle := _cache_handle st; _lru_cache := _lru_cache st;
     _stats := _stats st |}.

Definition set_cache_handle (v : list (option CacheHandle)) (st : SegmentReader)
  : SegmentReader :=
  {| _eof := _eof st; _end_block := _end_block st;
     _current_block_id := _current_block_id st;
     _next_block_id := _next_block_id st; _block_count := _block_count st;
     _column_readers := _column_readers st;
     _column_indices := _column_indices st; _indices := _indices st;
     _streams := _streams st; _bloom_filters := _bloom_filters st;
     _include_blocks := _include_blocks st; _remain_block := _remain_block st;
     _need_to_seek_block := _need_to_seek_block st;
     _without_filter := _without_filter st;
     _is_data_loaded := _is_data_loaded st; _buffer_size := _buffer_size st;
     _cache_handle := v; _lru_cache := _lru_cache st; _stats := _stats st |}.

(** ** Loops and raw accesses *)

(** A range-for over a container: the body runs on each element in turn,
    threading the state; a crash ends the loop. *)
Fixpoint foldM {A S : Type} (body : A -> S -> exec S) (l : list A) (s : S)
  : exec S :=
  match l with
  | [] => Done s
  | a :: rest => let* s' := body a s in foldM body rest s'
  end.

(** [for (int64_t j = first_block; j <= last_block; ++j)] visits these. *)
Definition block_range (first_block last_block : Z) : list Z :=
  seqZ first_block (last_block - first_block + 1).

(** Dereferencing a pointer that may be null. *)
Definition deref {A : Type} (p : option A) : exec A :=
  match p with
  | Some a => Done a
  | None => Crash NullDereference
  end.

(** Reading [m[k]] on a [std::map] of column ids: a missing key reads as the
    value-initialised 0 (the entry [operator[]] creates is never told apart
    from a missing one by the functions below). *)
Definition map_index (m : gmap ColumnId ColumnId) (k : ColumnId) : ColumnId :=
  default 0 (m !! k).

(** [memset(arr + offset, value, n)]. *)
Definition memset (arr : list Z) (offset value n : Z) : exec (list Z) :=
  if decide (0 <= offset /\ 0 <= n /\ offset + n <= Z.of_nat (List.length arr))
  then Done (take (Z.to_nat offset) arr ++ replicate (Z.to_nat n) value
             ++ drop (Z.to_nat (offset + n)) arr)
  else Crash OutOfBounds.

(** [_include_blocks[j]] read and written. *)
Definition include_blocks_get (st : SegmentReader) (j : Z) : exec Z :=
  let* arr := deref (_include_blocks st) in at_index arr j.

Definition include_blocks_set (st : SegmentReader) (j v : Z)
  : exec SegmentReader :=
  let* arr := deref (_include_blocks st) in
  if decide (0 <= j < Z.of_nat (List.length arr))
  then Done (set_include_blocks (Some (<[Z.to_nat j := v]> arr)) st)
  else Crash OutOfBounds.

(** [--_remain_block].  The member is declared in segment_reader.h, which is
    not part of the sources at hand; it is assigned from [uint32_t]
    arithmetic and compared with a [uint32_t] constant, and is taken to be a
    [uint32_t]. *)
Definition dec_remain_block (st : SegmentReader) : SegmentReader :=
  set_remain_block (wrap32 (_remain_block st - 1)) st.

(** The rows of block [j]: a full block, or the remainder for the last one. *)
Definition rows_of_block (setup : ReaderSetup) (st : SegmentReader) (j : Z) : Z :=
  if decide (j < _block_count st - 1) then _num_rows_in_block setup
  else number_of_rows (_file_header setup) - j * _num_rows_in_block setup.

Definition add_rows_del_filtered (setup : ReaderSetup) (j : Z)
  (st : SegmentReader) : SegmentReader :=
  set_stats (set_rows_del_filtered
               (int64_of (rows_del_filtered (_stats st) + rows_of_block setup st j))
               (_stats st)) st.

Definition add_rows_stats_filtered (setup : ReaderSetup) (j : Z)
  (st : SegmentReader) : SegmentReader :=
  set_stats (set_rows_stats_filtered
               (int64_of (rows_stats_filtered (_stats st) + rows_of_block setup st j))
               (_stats st)) st.

(** ** Row-group pruning *)

(** The loop over the columns of one delete condition for block [j] (lines
    384-402): the result is [(del_partial_satisfied, del_not_satisfied)]. *)
Fixpoint del_eval_columns (setup : ReaderSetup) (st : SegmentReader)
  (cols : list (ColumnId * CondColumn)) (j : Z) (del_partial_satisfied : bool)
  : exec (bool * bool) :=
  match cols with
  | [] => Done (del_partial_satisfied, false)
  | (table_column_id, cond) :: rest =>
      let unique_column_id :=
        map_index (_tablet_id_to_unique_id_map setup) table_column_id in
      if decide (_unique_id_to_segment_id_map setup !! unique_column_id = None)
      then del_eval_columns setup st rest j del_partial_satisfied
      else
        let* index_reader := deref (_indices st !! unique_column_id) in
        let* e := entry index_reader j in
        let del_ret := cond_del_eval cond (column_statistic_pair e) in
        if decide (del_ret = DEL_SATISFIED)
        then del_eval_columns setup st rest j del_partial_satisfied
        else if decide (del_ret = DEL_PARTIAL_SATISFIED)
        then del_eval_columns setup st rest j true
        else Done (del_partial_satisfied, true)
  end.

(** One iteration of the block loop of [_pick_delete_row_groups] (lines
    379-425). *)
Definition _pick_delete_block (setup : ReaderSetup)
  (delete_condition : DeleteConditions) (j : Z) (st : SegmentReader)
  : exec SegmentReader :=
  let* v := include_blocks_get st j in
  if decide (v = DEL_SATISFIED) then Done st
  else
    let cols := columns (del_cond delete_condition) in
    let* '(del_partial_satisfied, del_not_satisfied) :=
      del_eval_columns setup st cols j false in
    if del_not_satisfied || bool_decide (List.length cols = 0%nat)
    then
      if decide (v = DEL_PARTIAL_SATISFIED) then Done st
      else include_blocks_set st j DEL_NOT_SATISFIED
    else if del_partial_satisfied
    then include_blocks_set st j DEL_PARTIAL_SATISFIED
    else
      let* st1 := include_blocks_set st j DEL_SATISFIED in
      Done (add_rows_del_filtered setup j (dec_remain_block st1)).

(** One iteration of the loop over the delete conditions (lines 373-427). *)
Definition _pick_delete_condition (setup : ReaderSetup)
  (first_block last_block : Z) (delete_condition : DeleteConditions)
  (st : SegmentReader) : exec SegmentReader :=
  if decide (filter_version delete_condition <= version_first setup)
  then Done st
  else foldM (_pick_delete_block setup delete_condition)
             (block_range first_block last_block) st.

Definition _pick_delete_row_groups (setup : ReaderSetup) (st : SegmentReader)
  (first_block last_block : Z) : exec (OLAPStatus * SegmentReader) :=
  if delete_handler_empty (_delete_handler setup) then Done (OLAP_SUCCESS, st)
  else if decide (DEL_NOT_SATISFIED = _delete_status setup)
  then Done (OLAP_SUCCESS, st)
  else
    let* st1 := foldM (_pick_delete_condition setup first_block last_block)
                (get_delete_conditions (_delete_handler setup)) st in
    Done (OLAP_SUCCESS, st1).

Definition _init_include_blocks (setup : ReaderSetup) (st : SegmentReader)
  (first_block last_block : Z) : exec (OLAPStatus * SegmentReader) :=
  let allocated :=
    match _include_blocks st with
    | Some arr => Some arr
    | None =>
        if nothrow_new (NewIncludeBlocks (_block_count st))
        then Some (replicate (Z.to_nat (_block_count st)) 0)
        else None
    end in
  match allocated with
  | None => Done (OLAP_ERR_MALLOC_ERROR, st)
  | Some arr =>
      let* arr1 := memset arr 0 0 (_block_count st) in
      let* arr2 := memset arr1 first_block 1 (_remain_block st) in
      Done (OLAP_SUCCESS, set_include_blocks (Some arr2) st)
  end.

(** One iteration of the block loop of the zone-map phase (lines 484-498). *)
Definition _pick_zone_map_block (setup : ReaderSetup) (cond : CondColumn)
  (index_reader : option StreamIndexReader) (j : Z) (st : SegmentReader)
  : exec SegmentReader :=
  let* v := include_blocks_get st j in
  if decide (v = DEL_SATISFIED) then Done st
  else
    let* r := deref index_reader in
    let* e := entry r j in
    if cond_eval cond (column_statistic_pair e) then Done st
    else
      let* st1 := include_blocks_set st j DEL_SATISFIED in
      Done (add_rows_stats_filtered setup j (dec_remain_block st1)).

(** One iteration of the loop over [_conditions->columns()] (lines 470-500). *)
Definition _pick_zone_map_column (setup : ReaderSetup)
  (first_block last_block : Z) (i : ColumnId * CondColumn)
  (st : SegmentReader) : exec SegmentReader :=
  match _get_aggregation_by_index setup i.1 with
  | OLAP_FIELD_AGGREGATION_NONE =>
      let table_column_id := i.1 in
      let unique_column_id :=
        map_index (_tablet_id_to_unique_id_map setup) table_column_id in
      if decide (_unique_id_to_segment_id_map setup !! unique_column_id = None)
      then Done st
      else
        let index_reader := _indices st !! unique_column_id in
        foldM (_pick_zone_map_block setup i.2 index_reader)
              (block_range first_block last_block) st
  | OLAP_FIELD_AGGREGATION_OTHER _ => Done st
  end.

(** The zone-map phase: the loop of lines 470-500. *)
Definition zone_map_phase (setup : ReaderSetup) (conds : Conditions)
  (first_block last_block : Z) (st : SegmentReader) : exec SegmentReader :=
  foldM (_pick_zone_map_column setup first_block last_block) (columns conds) st.

(** One iteration of the block loop of the bloom-filter phase (lines
    523-536). *)
Definition _pick_bloom_filter_block (setup : ReaderSetup) (conds : Conditions)
  (i : ColumnId) (bf_reader : option BloomFilterIndexReader) (j : Z)
  (st : SegmentReader) : exec SegmentReader :=
  let* v := include_blocks_get st j in
  if decide (v = DEL_SATISFIED) then Done st
  else
    let* cond := columns_at (columns conds) i in
    let* r := deref bf_reader in
    let* e := bf_entry r j in
    if cond_eval_bf cond e then Done st
    else
      let* st1 := include_blocks_set st j DEL_SATISFIED in
      Done (add_rows_stats_filtered setup j (dec_remain_block st1)).

(** One iteration of the loop over [_load_bf_columns] (lines 509-538). *)
Definition _pick_bloom_filter_column (setup : ReaderSetup) (conds : Conditions)
  (first_block last_block : Z) (i : ColumnId) (st : SegmentReader)
  : exec SegmentReader :=
  match _get_aggregation_by_index setup i with
  | OLAP_FIELD_AGGREGATION_NONE =>
      let table_column_id := i in
      let unique_column_id :=
        map_index (_tablet_id_to_unique_id_map setup) table_column_id in
      if decide (_unique_id_to_segment_id_map setup !! unique_column_id = None)
      then Done st
      else
        let bf_reader := _bloom_filters st !! unique_column_id in
        foldM (_pick_bloom_filter_block setup conds i bf_reader)
              (block_range first_block last_block) st
  | OLAP_FIELD_AGGREGATION_OTHER _ => Done st
  end.

(** The bloom-filter phase: the loop of lines 509-538. *)
Definition bloom_filter_phase (setup : ReaderSetup) (conds : Conditions)
  (first_block last_block : Z) (st : SegmentReader) : exec SegmentReader :=
  foldM (_pick_bloom_filter_column setup conds first_block last_block)
        (_load_bf_columns setup) st.

(** The [return] statement through which [_pick_row_groups] leaves, kept with
    the status it returns there. *)
Inductive pick_return : Type :=
  | ReturnInvalidRange            (* line 453 *)
  | ReturnInitFailed (res : OLAPStatus)  (* line 458 *)
  | ReturnNoConditions            (* line 464 *)
  | ReturnBloomIgnored            (* line 506 *)
  | ReturnFinished.               (* line 542 *)

Definition pick_status (r : pick_return) : OLAPStatus :=
  match r with
  | ReturnInvalidRange => OLAP_ERR_INPUT_PARAMETER_ERROR
  | ReturnInitFailed res => res
  | ReturnNoConditions | ReturnBloomIgnored | ReturnFinished => OLAP_SUCCESS
  end.

(** Lines 461-542 of [_pick_row_groups]: the three phases, run on the
    initialised array. *)
Definition _pick_row_groups_phases (setup : ReaderSetup) (st0 : SegmentReader)
  (first_block last_block : Z) : exec (pick_return * SegmentReader) :=
  let* '(_, st1) := _pick_delete_row_groups setup st0 first_block last_block in
  match _conditions setup with
  | None => Done (ReturnNoConditions, st1)
  | Some conds =>
      if decide (List.length (columns conds) = 0%nat)
      then Done (ReturnNoConditions, st1)
      else
        let* st2 := zone_map_phase setup conds first_block last_block st1 in
        if decide (_remain_block st2 < MIN_FILTER_BLOCK_NUM)
        then Done (ReturnBloomIgnored, st2)
        else
          let* st3 := bloom_filter_phase setup conds first_block last_block st2 in
          Done (ReturnFinished, st3)
  end.

Definition _pick_row_groups (setup : ReaderSetup) (st : SegmentReader)
  (first_block last_block : Z) : exec (pick_return * SegmentReader) :=
  if decide (first_block > last_block) then Done (ReturnInvalidRange, st)
  else
    let* '(res, st0) := _init_include_blocks setup st first_block last_block in
    if decide (OLAP_SUCCESS ≠ res) then Done (ReturnInitFailed res, st0)
    else _pick_row_groups_phases setup st0 first_block last_block.

(** ** Stream location and index loading *)

(** A range-for whose body may [return]. *)
Fixpoint for_each {A S : Type} (body : A -> S -> exec (flow S)) (l : list A)
  (s : S) : exec (flow S) :=
  match l with
  | [] => Done (Next s)
  | a :: rest => flow_then (body a s) (for_each body rest)
  end.

(** The loop header shared by [_load_index] and [_read_all_data_streams]:
    [for (stream_index = 0; stream_index < stream_info_size();
          ++stream_index, stream_offset += stream_length)]
    where the body starts with [stream_length = message.length()].  The
    increment runs after [continue] as well.  [cast] is the conversion to the
    type of [stream_offset] ([uint64_t] in the first function, [int64_t] in
    the second). *)
Fixpoint for_each_stream {S : Type} (cast : Z -> Z)
  (body : Z -> StreamInfoMessage.t -> S -> exec (flow S))
  (infos : list StreamInfoMessage.t) (stream_offset : Z) (s : S)
  : exec (flow S) :=
  match infos with
  | [] => Done (Next s)
  | message :: rest =>
      flow_then (body stream_offset message s)
        (for_each_stream cast body rest
           (cast (stream_offset + StreamInfoMessage.length message)))
  end.

(** [v[i] = a] on a [std::vector]. *)
Definition vector_set {A : Type} (v : list A) (i : Z) (a : A) : exec (list A) :=
  if decide (0 <= i < Z.of_nat (List.length v))
  then Done (<[Z.to_nat i := a]> v)
  else Crash OutOfBounds.

(** Modelled from the spec: [_is_column_included] and
    [_is_bf_column_included] (inline members of segment_reader.h, which is not
    part of the sources at hand): membership in the projected set and in the
    bloom-filter set. *)
Definition _is_column_included (setup : ReaderSetup) (unique_column_id : ColumnId)
  : bool := bool_decide (unique_column_id ∈ _include_columns setup).

Definition _is_bf_column_included (setup : ReaderSetup)
  (unique_column_id : ColumnId) : bool :=
  bool_decide (unique_column_id ∈ _include_bf_columns setup).

Definition _construct_index_stream_key (file_name : string)
  (unique_column_id : ColumnId) (k : StreamKind) : CacheKey :=
  (file_name, unique_column_id, k).

(** The locals of [_load_index] that live across iterations. *)
Record load_index_locals : Type := {
  is_using_cache : bool;
  cache_handle_index : Z
}.

(** How far one iteration of [_load_index] gets before the block-count check:
    it skips the descriptor, leaves with an error, or has parsed and recorded
    an index structure. *)
Inductive parse_result : Type :=
  | Skipped (s : load_index_locals * SegmentReader)
  | Failed (res : OLAPStatus) (s : load_index_locals * SegmentReader)
  | Parsed (s : load_index_locals * SegmentReader).

(** Lines 651-689: build the reader over [stream_buffer], record it and take
    its entry count as [_block_count]. *)
Definition _load_index_parse (setup : ReaderSetup)
  (message : StreamInfoMessage.t) (type : Z) (stream_buffer : Buffer)
  (loc : load_index_locals) (st : SegmentReader) : parse_result :=
  let stream_length := StreamInfoMessage.length message in
  let unique_column_id := StreamInfoMessage.column_unique_id message in
  if decide (StreamInfoMessage.kind message = ROW_INDEX) then
    if negb (nothrow_new NewStreamIndexReader)
    then Failed OLAP_ERR_MALLOC_ERROR (loc, st)
    else
      let '(res, entries) :=
        StreamIndexReader_init stream_buffer stream_length type
                               (_null_supported setup) in
      if decide (OLAP_SUCCESS ≠ res) then Failed res (loc, st)
      else
        let index_message :=
          {| sir_buffer := stream_buffer;
             sir_is_using_cache := is_using_cache loc;
             sir_entries := entries |} in
        let st1 := set_indices (<[unique_column_id := index_message]> (_indices st)) st in
        Parsed (loc, set_block_count (entry_count index_message) st1)
  else
    if negb (nothrow_new NewBloomFilterIndexReader)
    then Failed OLAP_ERR_MALLOC_ERROR (loc, st)
    else
      let '(res, entries) :=
        BloomFilterIndexReader_init stream_buffer stream_length
          (bf_hash_function_num (_file_header setup))
          (bf_bit_num (_file_header setup)) in
      if decide (res ≠ OLAP_SUCCESS) then Failed res (loc, st)
      else
        let bf_message :=
          {| bfr_buffer := stream_buffer;
             bfr_is_using_cache := is_using_cache loc;
             bfr_entries := entries |} in
        let st1 :=
          set_bloom_filters (<[unique_column_id := bf_message]> (_bloom_filters st)) st in
        Parsed (loc, set_block_count (bf_entry_count bf_message) st1).

(** Lines 590-689 of the loop body: decide whether the descriptor is needed,
    get its bytes from the cache or from the file, parse them. *)
Definition _load_index_fetch (setup : ReaderSetup) (stream_offset : Z)
  (message : StreamInfoMessage.t) (s : load_index_locals * SegmentReader)
  : exec parse_result :=
  let '(loc, st) := s in
  let stream_length := StreamInfoMessage.length message in
  let unique_column_id := StreamInfoMessage.column_unique_id message in
  if decide (_unique_id_to_segment_id_map setup !! unique_column_id = None)
  then Done (Skipped s)
  else if negb ((_is_column_included setup unique_column_id
                 && bool_decide (StreamInfoMessage.kind message = ROW_INDEX))
                || (_is_bf_column_included setup unique_column_id
                    && bool_decide (StreamInfoMessage.kind message = BLOOM_FILTER)))
  then Done (Skipped s)
  else
    let table_column_id :=
      map_index (_unique_id_to_tablet_id_map setup) unique_column_id in
    let type := _get_field_type_by_index setup table_column_id in
    let key := _construct_index_stream_key (_file_name setup) unique_column_id
                 (StreamInfoMessage.kind message) in
    let looked_up := Cache_lookup (_lru_cache st) key in
    let* handles :=
      vector_set (_cache_handle st) (cache_handle_index loc) looked_up in
    let st := set_cache_handle handles st in
    let next_index (l : load_index_locals) :=
      {| is_using_cache := is_using_cache l;
         cache_handle_index := cache_handle_index l + 1 |} in
    match looked_up with
    | Some handle =>
        (* 1. found in the cache *)
        let loc := {| is_using_cache := true;
                      cache_handle_index := cache_handle_index loc |} in
        let stream_buffer := Cache_value handle in
        Done (_load_index_parse setup message type stream_buffer (next_index loc) st)
    | None =>
        (* 2. not in the cache: read the stream *)
        if negb (nothrow_new (NewStreamBuffer stream_length))
        then Done (Failed OLAP_ERR_MALLOC_ERROR (loc, st))
        else
          let '(res, stream_buffer) := read_all stream_offset stream_length in
          if decide (OLAP_SUCCESS ≠ res)
          then Done (Failed OLAP_ERR_FILE_FORMAT_ERROR (loc, st))
          else if is_using_cache loc then
            let '(inserted, cache) :=
              Cache_insert (_lru_cache st) key stream_buffer stream_length in
            let* handles :=
              vector_set (_cache_handle st) (cache_handle_index loc) inserted in
            let st := set_lru_cache cache (set_cache_handle handles st) in
            match inserted with
            | None => Crash FatalLog
            | Some _ =>
                Done (_load_index_parse setup message type stream_buffer
                        (next_index loc) st)
            end
          else
            Done (_load_index_parse setup message type stream_buffer
                    (next_index loc) st)
    end.

(** Lines 691-702: the block-count check that ends the loop body. *)
Definition _load_index_check (expected_blocks : Z)
  (s : load_index_locals * SegmentReader)
  : flow (load_index_locals * SegmentReader) :=
  if decide (_block_count s.2 ≠ expected_blocks)
  then Return OLAP_ERR_FILE_FORMAT_ERROR s
  else Next s.

(** The loop body of [_load_index]. *)
Definition _load_index_stream (setup : ReaderSetup) (expected_blocks : Z)
  (stream_offset : Z) (message : StreamInfoMessage.t)
  (s : load_index_locals * SegmentReader)
  : exec (flow (load_index_locals * SegmentReader)) :=
  let* r := _load_index_fetch setup stream_offset message s in
  match r with
  | Skipped s' => Done (Next s')
  | Failed res s' => Done (Return res s')
  | Parsed s' => Done (_load_index_check expected_blocks s')
  end.

Definition expected_blocks_of (setup : ReaderSetup) : Z :=
  ceil_double_div (number_of_rows (_file_header setup))
                  (num_rows_per_block (_file_header setup)).

(** The reader and locals with which the loop of [_load_index] starts (lines
    566-581, once the index stream is initialised). *)
Definition _load_index_start (setup : ReaderSetup) (using_cache : bool)
  (st : SegmentReader) : load_index_locals * SegmentReader :=
  let handle_num := _get_included_row_index_stream_num setup in
  let st1 :=
    set_cache_handle (resize (Z.to_nat handle_num) None (_cache_handle st)) st in
  ({| is_using_cache := using_cache; cache_handle_index := 0 |},
   set_bloom_filters ∅ (set_indices ∅ st1)).

Definition _load_index (setup : ReaderSetup) (using_cache : bool)
  (st : SegmentReader) : exec (OLAPStatus * SegmentReader) :=
  let handle_num := _get_included_row_index_stream_num setup in
  let st1 :=
    set_cache_handle (resize (Z.to_nat handle_num) None (_cache_handle st)) st in
  if decide (OLAP_SUCCESS ≠ index_stream_init)
  then Done (index_stream_init, st1)
  else
    let* r := for_each_stream wrap64
                (_load_index_stream setup (expected_blocks_of setup))
                (stream_info (_file_header setup)) (_header_length setup)
                (_load_index_start setup using_cache st) in
    match r with
    | Next s => Done (OLAP_SUCCESS, s.2)
    | Return res s => Done (res, s.2)
    end.

(** The loop body of [_read_all_data_streams]; [*buffer_size] is
    [_buffer_size]. *)
Definition _read_all_data_stream (setup : ReaderSetup) (stream_offset : Z)
  (message : StreamInfoMessage.t) (st : SegmentReader)
  : exec (flow SegmentReader) :=
  let stream_length := StreamInfoMessage.length message in
  let unique_column_id := StreamInfoMessage.column_unique_id message in
  if decide (_unique_id_to_segment_id_map setup !! unique_column_id = None)
  then Done (Next st)
  else if bool_decide (unique_column_id ∉ _include_columns setup)
          && bool_decide (unique_column_id ∉ _include_bf_columns setup)
  then Done (Next st)
  else if bool_decide (StreamInfoMessage.kind message = ROW_INDEX)
          || bool_decide (StreamInfoMessage.kind message = BLOOM_FILTER)
  then Done (Next st)
  else
    let name : StreamName := (unique_column_id, StreamInfoMessage.kind message) in
    if negb (nothrow_new NewReadOnlyFileStream)
    then Done (Return OLAP_ERR_MALLOC_ERROR st)
    else
      let stream := {| rs_offset := stream_offset; rs_length := stream_length |} in
      let res := data_stream_init stream_offset stream_length in
      if decide (OLAP_SUCCESS ≠ res) then Done (Return res st)
      else
        let st1 :=
          set_buffer_size
            (wrap64 (_buffer_size st
                     + data_stream_buffer_size stream_offset stream_length)) st in
        Done (Next (set_streams (<[name := stream]> (_streams st1)) st1)).

Definition _read_all_data_streams (setup : ReaderSetup) (st : SegmentReader)
  : exec (OLAPStatus * SegmentReader) :=
  let* r := for_each_stream int64_of (_read_all_data_stream setup)
              (stream_info (_file_header setup)) (_header_length setup) st in
  match r with
  | Next st' => Done (OLAP_SUCCESS, st')
  | Return res st' => Done (res, st')
  end.

(** ** Data readers *)

Definition _reset_readers (st : SegmentReader) : OLAPStatus * SegmentReader :=
  (OLAP_SUCCESS, set_eof false (set_column_readers [] (set_streams ∅ st))).

(** The loop body of [_create_reader]. *)
Definition _create_reader_column (setup : ReaderSetup)
  (table_column_id : ColumnId) (st : SegmentReader)
  : exec (flow SegmentReader) :=
  let unique_column_id :=
    map_index (_tablet_id_to_unique_id_map setup) table_column_id in
  match ColumnReader_create table_column_id with
  | None => Done (Return OLAP_ERR_MALLOC_ERROR st)
  | Some reader =>
      let '(res, reader) :=
        reader_init reader (_streams st) (_num_rows_in_block setup) in
      if decide (res ≠ OLAP_SUCCESS) then Done (Return res st)
      else
        let st1 :=
          set_buffer_size (wrap64 (_buffer_size st + reader_buffer_size reader)) st in
        let* readers :=
          vector_set (_column_readers st1) table_column_id (Some reader) in
        let st2 := set_column_readers readers st1 in
        match _indices st2 !! unique_column_id with
        | Some index =>
            let* indices :=
              vector_set (_column_indices st2) table_column_id (Some index) in
            Done (Next (set_column_indices indices st2))
        | None => Done (Next st2)
        end
  end.

Definition _create_reader (setup : ReaderSetup) (st : SegmentReader)
  : exec (OLAPStatus * SegmentReader) :=
  let n := Z.to_nat (num_columns setup) in
  let st1 :=
    set_column_indices (resize n None (_column_indices st))
      (set_column_readers (resize n None (_column_readers st)) st) in
  let* r := for_each (_create_reader_column setup) (_used_columns setup) st1 in
  match r with
  | Next st' => Done (OLAP_SUCCESS, st')
  | Return res st' => Done (res, st')
  end.

(** ** The block cursor *)

(** The [while] loop of [_seek_to_block].  [fuel] bounds the iterations; the
    caller passes the number of blocks from [block_id] to [end_block], which
    the loop cannot exceed. *)
Fixpoint skip_excluded (fuel : nat) (arr : list Z) (end_block block_id : Z)
  : exec Z :=
  match fuel with
  | O => Done block_id
  | S fuel' =>
      if decide (block_id <= end_block) then
        let* v := at_index arr block_id in
        if decide (v = DEL_SATISFIED)
        then skip_excluded fuel' arr end_block (block_id + 1)
        else Done block_id
      else Done block_id
  end.

Definition _seek_to_block (st : SegmentReader) (block_id : Z)
  (without_filter : bool) : exec SegmentReader :=
  let* block_id1 :=
    match _include_blocks st with
    | Some arr =>
        if negb without_filter
        then skip_excluded (Z.to_nat (_end_block st - block_id + 1)) arr
                           (_end_block st) block_id
        else Done block_id
    | None => Done block_id
    end in
  let st1 := if decide (block_id1 > _end_block st) then set_eof true st else st in
  Done (set_next_block_id block_id1 st1).

(** What a call wrote through [next_block_id] and [eof]. *)
Inductive block_out : Type :=
  | OutNothing
  | OutEof (eof : bool)
  | OutNextEof (next_block_id : Z) (eof : bool).

Definition seek_to_block (setup : ReaderSetup) (st : SegmentReader)
  (first_block last_block : Z) (without_filter : bool)
  : exec (OLAPStatus * block_out * SegmentReader) :=
  let* loaded :=
    if negb (_is_data_loaded st) then
      let st1 := (_reset_readers st).2 in
      let* '(res, st2) := _read_all_data_streams setup st1 in
      if decide (res ≠ OLAP_SUCCESS) then Done (res, st2)
      else
        let* '(res, st3) := _create_reader setup st2 in
        if decide (res ≠ OLAP_SUCCESS) then Done (res, st3)
        else Done (OLAP_SUCCESS, set_is_data_loaded true st3)
    else Done (OLAP_SUCCESS, st) in
  let '(res, st) := loaded in
  if decide (res ≠ OLAP_SUCCESS) then Done (res, OutNothing, st)
  else
    (* If seek to block position, all stat will reset to initial *)
    let st := set_eof false st in
    let st :=
      set_end_block (if decide (last_block >= _block_count st)
                     then _block_count st - 1 else last_block) st in
    let st := set_without_filter without_filter st in
    let st := set_include_blocks None st in
    let* picked :=
      if negb without_filter then
        let st1 := set_remain_block (wrap32 (last_block - first_block + 1)) st in
        let* '(r, st2) := _pick_row_groups setup st1 first_block last_block in
        Done (pick_status r, st2)
      else Done (OLAP_SUCCESS, st) in
    let '(res, st) := picked in
    if decide (OLAP_SUCCESS ≠ res) then Done (res, OutNothing, st)
    else
      let* st := _seek_to_block st first_block without_filter in
      let out := OutNextEof (wrap32 (_next_block_id st)) (_eof st) in
      Done (OLAP_SUCCESS, out, set_need_to_seek_block true st).

(** The part of a [VectorizedRowBatch] this file touches: [columns()],
    [limit()], and what [set_size] and [set_block_status] store. *)
Record VectorizedRowBatch : Type := {
  batch_columns : list ColumnId;
  limit : Z;
  batch_size : Z;
  block_status : Z
}.

Definition set_size (v : Z) (b : VectorizedRowBatch) : VectorizedRowBatch :=
  {| batch_columns := batch_columns b; limit := limit b; batch_size := v;
     block_status := block_status b |}.

Definition set_block_status (v : Z) (b : VectorizedRowBatch) : VectorizedRowBatch :=
  {| batch_columns := batch_columns b; limit := limit b;
     batch_size := batch_size b; block_status := v |}.

(** The loop of [_seek_to_block_directly] (lines 793-817). *)
Fixpoint seek_columns (block_id : Z) (cids : list ColumnId) (st : SegmentReader)
  : exec (OLAPStatus * SegmentReader) :=
  match cids with
  | [] => Done (OLAP_SUCCESS, st)
  | cid :: rest =>
      let* index := at_index (_column_indices st) cid in
      match index with
      | None => seek_columns block_id rest st
      | Some index_reader =>
          let* position := entry index_reader block_id in
          let* reader_ptr := at_index (_column_readers st) cid in
          let* reader := deref reader_ptr in
          let '(res, reader1) := reader_seek reader position in
          let* readers := vector_set (_column_readers st) cid (Some reader1) in
          let st1 := set_column_readers readers st in
          if decide (OLAP_SUCCESS ≠ res) then
            if decide (OLAP_ERR_COLUMN_STREAM_EOF = res)
            then Done (OLAP_ERR_DATA_EOF, st1)
            else Done (OLAP_ERR_COLUMN_SEEK_ERROR, st1)
          else seek_columns block_id rest st1
      end
  end.

Definition _seek_to_block_directly (st : SegmentReader) (block_id : Z)
  (cids : list ColumnId) : exec (OLAPStatus * SegmentReader) :=
  if negb (_need_to_seek_block st) && bool_decide (block_id = _current_block_id st)
  then Done (OLAP_SUCCESS, st)
  else
    let* '(res, st1) := seek_columns block_id cids st in
    if decide (res ≠ OLAP_SUCCESS) then Done (res, st1)
    else
      Done (OLAP_SUCCESS,
            set_need_to_seek_block false (set_current_block_id block_id st1)).

(** The loop of [_load_to_vectorized_row_batch] (lines 861-869). *)
Fixpoint next_vectors (size : Z) (cids : list ColumnId) (st : SegmentReader)
  : exec (OLAPStatus * SegmentReader) :=
  match cids with
  | [] => Done (OLAP_SUCCESS, st)
  | cid :: rest =>
      let* reader_ptr := at_index (_column_readers st) cid in
      let* reader := deref reader_ptr in
      let '(res, reader1) := reader_next_vector reader size in
      let* readers := vector_set (_column_readers st) cid (Some reader1) in
      let st1 := set_column_readers readers st in
      if decide (res ≠ OLAP_SUCCESS) then Done (res, st1)
      else next_vectors size rest st1
  end.

Definition _load_to_vectorized_row_batch (setup : ReaderSetup)
  (st : SegmentReader) (batch : VectorizedRowBatch) (size : Z)
  : exec (OLAPStatus * VectorizedRowBatch * SegmentReader) :=
  let* '(res, st1) := next_vectors size (batch_columns batch) st in
  if decide (res ≠ OLAP_SUCCESS) then Done (res, batch, st1)
  else
    let batch1 := set_size size batch in
    let* status :=
      match _include_blocks st1 with
      | Some arr => at_index arr (_current_block_id st1)
      | None => Done DEL_PARTIAL_SATISFIED
      end in
    let batch2 := set_block_status status batch1 in
    (* If size is just _num_rows_in_block, after read, we point to next block
       start, so we increase _current_block_id *)
    let st2 :=
      if decide (size = _num_rows_in_block setup)
      then set_current_block_id (_current_block_id st1 + 1) st1
      else set_need_to_seek_block true st1 in
    let stats := _stats st2 in
    let stats1 := set_blocks_load (int64_of (blocks_load stats + 1)) stats in
    let stats2 := set_raw_rows_read (int64_of (raw_rows_read stats1 + size)) stats1 in
    Done (OLAP_SUCCESS, batch2, set_stats stats2 st2).

(** The rows [get_block] asks for (lines 295-300). *)
Definition num_rows_load (setup : ReaderSetup) (st : SegmentReader)
  (batch : VectorizedRowBatch) : Z :=
  if decide (_current_block_id st = _block_count st - 1) then
    let num_rows_left :=
      int64_of (number_of_rows (_file_header setup)
                - _num_rows_in_block setup * _current_block_id st) in
    Z.min (limit batch) num_rows_left
  else limit batch.

Definition get_block (setup : ReaderSetup) (st : SegmentReader)
  (batch : VectorizedRowBatch)
  : exec (OLAPStatus * block_out * VectorizedRowBatch * SegmentReader) :=
  if _eof st then Done (OLAP_SUCCESS, OutEof true, batch, st)
  else
    (* lazy seek: the status that comes back is not looked at *)
    let* '(_, st1) :=
      _seek_to_block_directly st (_next_block_id st) (batch_columns batch) in
    let* '(res, batch1, st2) :=
      _load_to_vectorized_row_batch setup st1 batch
        (wrap64 (num_rows_load setup st1 batch)) in
    if decide (res ≠ OLAP_SUCCESS) then Done (res, OutNothing, batch1, st2)
    else
      let* st3 := _seek_to_block st2 (_next_block_id st2 + 1) (_without_filter st2) in
      Done (OLAP_SUCCESS, OutNextEof (wrap32 (_next_block_id st3)) (_eof st3),
            batch1, st3).

(** ** Vocabulary of the properties *)

(** The disposition recorded for block [k], if the array exists and has such
    a block. *)
Definition block_disposition (st : SegmentReader) (k : Z) : option Z :=
  match _include_blocks st with
  | Some arr => if decide (0 <= k) then arr !! Z.to_nat k else None
  | None => None
  end.

(** The blocks of the array that are not [Excluded]. *)
Definition count_remaining (arr : list Z) : Z :=
  Z.of_nat (List.length (filter (fun v => v ≠ DEL_SATISFIED) arr)).

(** What one visit of block [j] may do: it rewrites entry [j] of the array
    from [v] to [v'], never away from [Excluded]; it decrements the counter
    (as a [uint32_t]) exactly when the entry becomes [Excluded]; the index
    readers and the block count stay. *)
Definition block_update (j : Z) (st st' : SegmentReader) : Prop :=
  exists arr v v',
    _include_blocks st = Some arr /\ 0 <= j /\ arr !! Z.to_nat j = Some v
    /\ _include_blocks st' = Some (<[Z.to_nat j := v']> arr)
    /\ (v = DEL_SATISFIED -> v' = DEL_SATISFIED)
    /\ _remain_block st'
       = (if decide (v ≠ DEL_SATISFIED /\ v' = DEL_SATISFIED)
          then wrap32 (_remain_block st - 1) else _remain_block st)
    /\ _indices st' = _indices st
    /\ _bloom_filters st' = _bloom_filters st
    /\ _block_count st' = _block_count st.

(** The counter agrees with the array: it is the number of blocks that are
    not [Excluded], and fits its type. *)
Definition counter_consistent (st : SegmentReader) : Prop :=
  exists arr,
    _include_blocks st = Some arr
    /\ 0 <= _remain_block st < 2 ^ 32
    /\ _remain_block st = count_remaining arr.

(** Block [j] becomes [Excluded] between [st] and [st']. *)
Definition enters_excluded (j : Z) (st st' : SegmentReader) : Prop :=
  block_disposition st j ≠ Some Excluded
  /\ block_disposition st' j = Some Excluded.

(** One evaluation of one block: a delete condition, a zone map or a bloom
    filter applied to block [j]. *)
Inductive evaluation (setup : ReaderSetup)
  : Z -> SegmentReader -> SegmentReader -> Prop :=
  | delete_evaluation (dc : DeleteConditions) (j : Z) (st st' : SegmentReader) :
      _pick_delete_block setup dc j st = Done st' ->
      evaluation setup j st st'
  | zone_map_evaluation (cond : CondColumn) (r : option StreamIndexReader)
      (j : Z) (st st' : SegmentReader) :
      _pick_zone_map_block setup cond r j st = Done st' ->
      evaluation setup j st st'
  | bloom_filter_evaluation (conds : Conditions) (i : ColumnId)
      (r : option BloomFilterIndexReader) (j : Z) (st st' : SegmentReader) :
      _pick_bloom_filter_block setup conds i r j st = Done st' ->
      evaluation setup j st st'.

(** The states a run passes through once the array is initialised: [st0] and
    whatever a sequence of evaluations makes of it. *)
Inductive reached (setup : ReaderSetup) (st0 : SegmentReader)
  : SegmentReader -> Prop :=
  | reached_start : reached setup st0 st0
  | reached_step (j : Z) (st st' : SegmentReader) :
      reached setup st0 st -> evaluation setup j st st' ->
      reached setup st0 st'.

(** Any later step of the pruning: one evaluation, one whole delete condition,
    or one whole phase. *)
Inductive later_step (setup : ReaderSetup) (first_block last_block : Z)
  : SegmentReader -> SegmentReader -> Prop :=
  | later_evaluation (j : Z) (st st' : SegmentReader) :
      evaluation setup j st st' ->
      later_step setup first_block last_block st st'
  | later_delete_condition (dc : DeleteConditions) (st st' : SegmentReader) :
      _pick_delete_condition setup first_block last_block dc st = Done st' ->
      later_step setup first_block last_block st st'
  | later_delete_phase (res : OLAPStatus) (st st' : SegmentReader) :
      _pick_delete_row_groups setup st first_block last_block = Done (res, st') ->
      later_step setup first_block last_block st st'
  | later_zone_map_phase (conds : Conditions) (st st' : SegmentReader) :
      zone_map_phase setup conds first_block last_block st = Done st' ->
      later_step setup first_block last_block st st'
  | later_bloom_filter_phase (conds : Conditions) (st st' : SegmentReader) :
      bloom_filter_phase setup conds first_block last_block st = Done st' ->
      later_step setup first_block last_block st st'
  | later_phases (r : pick_return) (st st' : SegmentReader) :
      _pick_row_groups_phases setup st first_block last_block = Done (r, st') ->
      later_step setup first_block last_block st st'.

(** The array [_init_include_blocks] is about to fill exists or can be
    allocated: [seek_to_block] always leaves the null pointer behind, and an
    array kept from before has one byte per block. *)
Definition array_available (st : SegmentReader) : Prop :=
  match _include_blocks st with
  | None => nothrow_new (NewIncludeBlocks (_block_count st)) = true
  | Some arr => Z.of_nat (List.length arr) = _block_count st
  end.

(** The array after initialisation: [Include] on the range, [Excluded]
    elsewhere. *)
Definition initial_blocks (bc first_block last_block : Z) : list Z :=
  replicate (Z.to_nat first_block) 0
  ++ replicate (Z.to_nat (last_block - first_block + 1)) 1
  ++ replicate (Z.to_nat (bc - first_block - (last_block - first_block + 1))) 0.

#[global] Instance enters_excluded_dec (j : Z) (st st' : SegmentReader) :
  Decision (enters_excluded j st st').
Proof. unfold enters_excluded. apply _. Defined.

(** What a delete condition without columns makes of a disposition [v] of
    block [k] when it visits the blocks [l]: [Excluded] and
    [RequiresRowFilter] stay, anything else is [Include]. *)
Definition zero_column_result (l : list Z) (k v : Z) : Z :=
  if decide (k ∈ l /\ v ≠ Excluded /\ v ≠ RequiresRowFilter) then Include else v.

(** There are user predicates: [_conditions] is not null and has columns. *)
Definition has_conditions (setup : ReaderSetup) : Prop :=
  match _conditions setup with
  | Some conds => columns conds ≠ []
  | None => False
  end.

(** The reader after the delete-condition phase and, when there are user
    predicates, the zone-map phase: where the remaining blocks are measured
    against [MIN_FILTER_BLOCK_NUM]. *)
Definition before_bloom_filter (setup : ReaderSetup) (st0 : SegmentReader)
  (first_block last_block : Z) : exec SegmentReader :=
  let* '(_, st1) := _pick_delete_row_groups setup st0 first_block last_block in
  match _conditions setup with
  | None => Done st1
  | Some conds =>
      if decide (List.length (columns conds) = 0%nat) then Done st1
      else zone_map_phase setup conds first_block last_block st1
  end.

(** The value of [stream_offset] once the loop header has stepped over
    [infos], starting from [stream_offset]. *)
Fixpoint offset_after (cast : Z -> Z) (stream_offset : Z)
  (infos : list StreamInfoMessage.t) : Z :=
  match infos with
  | [] => stream_offset
  | message :: rest =>
      offset_after cast (cast (stream_offset + StreamInfoMessage.length message)) rest
  end.

Definition lengths_sum (infos : list StreamInfoMessage.t) : Z :=
  foldr (fun message acc => StreamInfoMessage.length message + acc) 0 infos.


(** The loop of [_load_index]. *)
Definition _load_index_loop (setup : ReaderSetup)
  : list StreamInfoMessage.t -> Z -> load_index_locals * SegmentReader ->
    exec (flow (load_index_locals * SegmentReader)) :=
  for_each_stream wrap64 (_load_index_stream setup (expected_blocks_of setup)).


(** The index structure an iteration of [_load_index] has just recorded for
    [message] has [n] entries. *)
Definition recorded_entry_count (message : StreamInfoMessage.t)
  (st : SegmentReader) (n : Z) : Prop :=
  if decide (StreamInfoMessage.kind message = ROW_INDEX)
  then exists r, _indices st !! StreamInfoMessage.column_unique_id message = Some r
                 /\ entry_count r = n
  else exists r, _bloom_filters st !! StreamInfoMessage.column_unique_id message = Some r
                 /\ bf_entry_count r = n.





(** The state an iteration ends in, whichever way it ends. *)
Definition flow_state {S : Type} (f : flow S) : S :=
  match f with
  | Next s => s
  | Return _ s => s
  end.




(** The zone map of a table column is loaded and has an entry for every block
    up to [last_block], if the segment has the column. *)
Definition zone_map_loaded (setup : ReaderSetup) (st : SegmentReader)
  (last_block : Z) (table_column_id : ColumnId) : Prop :=
  let unique_column_id :=
    map_index (_tablet_id_to_unique_id_map setup) table_column_id in
  _unique_id_to_segment_id_map setup !! unique_column_id ≠ None ->
  exists r, _indices st !! unique_column_id = Some r
            /\ last_block < entry_count r.

(** The same for the bloom filter of a column of [_load_bf_columns], which
    must also have a predicate among the conditions. *)
Definition bloom_filter_loaded (setup : ReaderSetup) (st : SegmentReader)
  (last_block : Z) (conds : Conditions) (table_column_id : ColumnId) : Prop :=
  let unique_column_id :=
    map_index (_tablet_id_to_unique_id_map setup) table_column_id in
  _unique_id_to_segment_id_map setup !! unique_column_id ≠ None ->
  (exists cond, columns_at (columns conds) table_column_id = Done cond)
  /\ exists r, _bloom_filters st !! unique_column_id = Some r
               /\ last_block < bf_entry_count r.

(** Every index structure the pruning of the blocks up to [last_block] reads
    is loaded. *)
Definition pruning_ready (setup : ReaderSetup) (st : SegmentReader)
  (last_block : Z) : Prop :=
  (forall dc col,
     dc ∈ get_delete_conditions (_delete_handler setup) ->
     col ∈ columns (del_cond dc) ->
     zone_map_loaded setup st last_block col.1)
  /\ (forall conds,
        _conditions setup = Some conds ->
        (forall col, col ∈ columns conds ->
                     zone_map_loaded setup st last_block col.1)
        /\ (forall i, i ∈ _load_bf_columns setup ->
                      bloom_filter_loaded setup st last_block conds i)).

(** The array is there and covers the blocks up to [last_block], and the
    index structures are those of [st0]. *)
Definition pruning_state (st0 : SegmentReader) (last_block : Z)
  (st : SegmentReader) : Prop :=
  (exists arr, _include_blocks st = Some arr
               /\ last_block < Z.of_nat (List.length arr))
  /\ _indices st = _indices st0
  /\ _bloom_filters st = _bloom_filters st0.
(** Whether the zone-map reader of a column has been told that its buffer
    belongs to the cache, and the key of the cache handle kept at a position
    of [_cache_handle]. *)
Definition index_uses_cache (st : SegmentReader) (unique_id : ColumnId)
  : option bool :=
  match _indices st !! unique_id with
  | Some reader => Some (sir_is_using_cache reader)
  | None => None
  end.

Definition kept_handle_key (st : SegmentReader) (position : nat)
  : option CacheKey :=
  match _cache_handle st !! position with
  | Some (Some handle) => Some (handle_key handle)
  | _ => None
  end.

End Engine.

(** * A small segment to compute on

    Concrete collaborators and readers on which the functions above can be
    run: zone-map streams store one (min, max) byte pair per block, bloom
    filter streams one byte per block, a predicate is a closed interval, and a
    column reader counts the rows it has handed out. *)

Definition byte_value (b : Byte.byte) : Z := Z.of_N (Byte.to_N b).

Fixpoint sample_zone_entries (buf : Buffer) : list (Z * Z) :=
  match buf with
  | a :: b :: rest => (byte_value a, byte_value b) :: sample_zone_entries rest
  | _ => []
  end.

Definition sample_overlaps (c stat : Z * Z) : bool :=
  bool_decide (c.1 <= stat.2 /\ stat.1 <= c.2).

Definition sample_covers (c stat : Z * Z) : bool :=
  bool_decide (c.1 <= stat.1 /\ stat.2 <= c.2).

Definition sample_del_eval (c stat : Z * Z) : Z :=
  if sample_covers c stat then DEL_SATISFIED
  else if sample_overlaps c stat then DEL_PARTIAL_SATISFIED
  else DEL_NOT_SATISFIED.

(** The file: every read succeeds and yields [len] bytes of value 1. *)
Definition sample_file (offset len : Z) : OLAPStatus * Buffer :=
  (OLAP_SUCCESS, replicate (Z.to_nat len) Byte.x01).

(** A file that can only be read at the three places of the example of
    section 8 of the design document. *)
Definition example_file (offset len : Z) : OLAPStatus * Buffer :=
  if bool_decide ((offset, len) ∈ [(500, 100); (600, 200); (800, 150)])
  then (OLAP_SUCCESS, replicate (Z.to_nat len) Byte.x01)
  else (OLAP_ERR_OTHER 1, []).

Definition sample_collaborators (file : Z -> Z -> OLAPStatus * Buffer)
  (seek_status : OLAPStatus) : Collaborators :=
  {| ColumnReader := Z;
     WrapperField := Z;
     BloomFilter := Z;
     PositionEntryReader := Z * Z;
     CondColumn := Z * Z;
     column_statistic_pair := fun e => e;
     cond_eval := sample_overlaps;
     cond_del_eval := sample_del_eval;
     cond_eval_bf := fun c v => bool_decide (c.1 <= v <= c.2);
     nothrow_new := fun _ => true;
     index_stream_init := OLAP_SUCCESS;
     read_all := file;
     StreamIndexReader_init := fun buf _ _ _ => (OLAP_SUCCESS, sample_zone_entries buf);
     BloomFilterIndexReader_init := fun buf _ _ _ => (OLAP_SUCCESS, byte_value <$> buf);
     lru_insert_ok := fun _ _ => true;
     ceil_double_div := fun a b => (a + b - 1) `div` b;
     data_stream_init := fun _ _ => OLAP_SUCCESS;
     data_stream_buffer_size := fun _ len => len;
     ColumnReader_create := fun _ => Some 0;
     reader_init := fun r _ _ => (OLAP_SUCCESS, r);
     reader_buffer_size := fun _ => 0;
     reader_seek := fun r _ => (seek_status, r);
     reader_next_vector := fun r n => (OLAP_SUCCESS, r + n) |}.

(** Collaborators that never fail, and ones whose column seeks fail. *)
Definition healthy : Collaborators := sample_collaborators sample_file OLAP_SUCCESS.

Definition failing_seek : Collaborators :=
  sample_collaborators sample_file (OLAP_ERR_OTHER 7).

Definition example_collaborators : Collaborators :=
  sample_collaborators example_file OLAP_SUCCESS.

Section Samples.
Context {collab : Collaborators}.

(** A reader setup for a table with the columns 0 and 1, both present in the
    segment under their own ids and both projected. *)
Definition sample_setup (conditions : option Conditions)
  (delete_handler : DeleteHandler) (load_bf_columns : list ColumnId)
  (header : ColumnDataHeaderMessage) : ReaderSetup :=
  {| _file_name := "segment_0.dat";
     version_first := 1;
     num_columns := 2;
     _get_aggregation_by_index := fun _ => OLAP_FIELD_AGGREGATION_NONE;
     _get_field_type_by_index := fun _ => 0;
     _get_included_row_index_stream_num := 2;
     _used_columns := [0; 1];
     _load_bf_columns := load_bf_columns;
     _conditions := conditions;
     _delete_handler := delete_handler;
     _delete_status := DEL_PARTIAL_SATISFIED;
     _file_header := header;
     _header_length := 500;
     _num_rows_in_block := num_rows_per_block header;
     _null_supported := false;
     _include_columns := {[0; 1]};
     _include_bf_columns := list_to_set load_bf_columns;
     _tablet_id_to_unique_id_map := {[0 := 0; 1 := 1]};
     _unique_id_to_tablet_id_map := {[0 := 0; 1 := 1]};
     _unique_id_to_segment_id_map := {[0 := 0; 1 := 1]} |}.

Definition sample_header (rows rows_per_block : Z)
  (streams : list StreamInfoMessage.t) : ColumnDataHeaderMessage :=
  {| number_of_rows := rows;
     num_rows_per_block := rows_per_block;
     stream_buffer_size := 4096;
     bf_hash_function_num := 1;
     bf_bit_num := 8;
     stream_info := streams |}.

(** A reader whose index is loaded: [block_count] blocks, the given zone maps
    and bloom filters, an empty cache, no data streams yet. *)
Definition sample_reader (block_count : Z)
  (indices : gmap ColumnId StreamIndexReader)
  (bloom_filters : gmap ColumnId BloomFilterIndexReader) : SegmentReader :=
  {| _eof := false;
     _end_block := -1;
     _current_block_id := 0;
     _next_block_id := 0;
     _block_count := block_count;
     _column_readers := [];
     _column_indices := [];
     _indices := indices;
     _streams := ∅;
     _bloom_filters := bloom_filters;
     _include_blocks := None;
     _remain_block := 0;
     _need_to_seek_block := true;
     _without_filter := false;
     _is_data_loaded := false;
     _buffer_size := 0;
     _cache_handle := [];
     _lru_cache := ∅;
     _stats := {| rows_del_filtered := 0; rows_stats_filtered := 0;
                  blocks_load := 0; raw_rows_read := 0 |} |}.

Definition sample_batch (rows : Z) : VectorizedRowBatch :=
  {| batch_columns := [0]; limit := rows; batch_size := 0; block_status := 0 |}.

End Samples.

(** ** Readers and setups over the sample collaborators *)

Definition zone_map (entries : list (Z * Z)) : StreamIndexReader (collab := healthy) :=
  Build_StreamIndexReader (collab := healthy) [] false entries.

Definition bloom_filter (entries : list Z)
  : BloomFilterIndexReader (collab := healthy) :=
  Build_BloomFilterIndexReader (collab := healthy) [] false entries.

(** The delete condition "column 0 lies in [lo, hi]", registered at
    [version]. *)
Definition delete_between (version lo hi : Z) : DeleteConditions (collab := healthy) :=
  Build_DeleteConditions (collab := healthy) version
    (Build_Conditions (collab := healthy) [(0, (lo, hi))]).

(** A delete condition without columns. *)
Definition delete_nothing (version : Z) : DeleteConditions (collab := healthy) :=
  Build_DeleteConditions (collab := healthy) version
    (Build_Conditions (collab := healthy) []).

Definition no_deletes : DeleteHandler (collab := healthy) :=
  Build_DeleteHandler (collab := healthy) [].

(** Four blocks of 1024 rows whose zone maps for column 0 are [0..9],
    [10..19], [20..29] and [30..39]. *)
Definition four_blocks : SegmentReader (collab := healthy) :=
  set_remain_block 4
    (sample_reader 4 {[ 0 := zone_map [(0, 9); (10, 19); (20, 29); (30, 39)] ]} ∅).

(** The scenario of section 8 of the design document: one delete condition
    that covers block 2 and overlaps block 3, followed by one that matches
    nothing. *)
Definition scenario_setup : ReaderSetup (collab := healthy) :=
  sample_setup None
    (Build_DeleteHandler (collab := healthy)
       [delete_between 5 20 35; delete_between 6 100 200])
    [] (sample_header 4096 1024 []).

(** The same segment with a single delete condition that has no columns. *)
Definition zero_column_setup : ReaderSetup (collab := healthy) :=
  sample_setup None
    (Build_DeleteHandler (collab := healthy) [delete_nothing 5])
    [] (sample_header 4096 1024 []).

(** Twelve blocks, all with the zone map [0..9] for column 0; the bloom
    filter of column 0 knows the value 5 in the even blocks and 1 in the odd
    ones. *)
Definition twelve_blocks : SegmentReader (collab := healthy) :=
  set_remain_block 12
    (sample_reader 12
       {[ 0 := zone_map (replicate 12 (0, 9)) ]}
       {[ 0 := bloom_filter [5; 1; 5; 1; 5; 1; 5; 1; 5; 1; 5; 1] ]}).

(** Column 0 has a bloom filter to consult but there is no user predicate. *)
Definition no_predicate_setup : ReaderSetup (collab := healthy) :=
  sample_setup None no_deletes [0] (sample_header 12288 1024 []).

(** The user predicate "column 0 equals 5". *)
Definition equals_5_setup : ReaderSetup (collab := healthy) :=
  sample_setup (Some (Build_Conditions (collab := healthy) [(0, (5, 5))]))
    no_deletes [0] (sample_header 12288 1024 []).

Definition stream (k : StreamKind) (column len : Z) : StreamInfoMessage.t :=
  {| StreamInfoMessage.kind := k;
     StreamInfoMessage.column_unique_id := column;
     StreamInfoMessage.length := len |}.

(** The descriptor list of the example of section 8: lengths 100, 200 and
    150 after a header of 500 bytes. *)
Definition example_streams : list StreamInfoMessage.t :=
  [stream BLOOM_FILTER 0 100; stream ROW_INDEX 1 200; stream (DATA_KIND 2) 0 150].

Definition example_setup (collab : Collaborators) : ReaderSetup (collab := collab) :=
  sample_setup None (Build_DeleteHandler (collab := collab) []) [0]
    (sample_header 100 1 example_streams).

(** Two zone-map streams of 4 and 6 bytes, that is of 2 and 3 entries, in a
    segment whose header announces 2 blocks. *)
Definition mismatch_setup : ReaderSetup (collab := healthy) :=
  sample_setup None no_deletes []
    (sample_header 2 1 [stream ROW_INDEX 0 4; stream ROW_INDEX 1 6]).

(** Two zone-map streams of 2 entries each. *)
Definition two_index_setup : ReaderSetup (collab := healthy) :=
  sample_setup None no_deletes []
    (sample_header 2 1 [stream ROW_INDEX 0 4; stream ROW_INDEX 1 4]).

Definition unloaded : SegmentReader (collab := healthy) := sample_reader 0 ∅ ∅.

(** The shared cache already holds the zone map of column 0. *)
Definition column_0_cached : SegmentReader (collab := healthy) :=
  set_lru_cache
    {[ ("segment_0.dat", 0, ROW_INDEX) := replicate 4 Byte.x01 ]} unloaded.

(** 2500 rows in blocks of 1024: three blocks, the last one of 452 rows. *)
Definition scan_setup (collab : Collaborators) : ReaderSetup (collab := collab) :=
  sample_setup None (Build_DeleteHandler (collab := collab) []) []
    (sample_header 2500 1024 []).

(** A reader of that segment with its data loaded: one column reader and the
    zone map of column 0. *)
Definition scan_reader (collab : Collaborators)
  (reader : ColumnReader) (index : StreamIndexReader) : SegmentReader :=
  set_is_data_loaded true
    (set_column_indices [Some index]
       (set_column_readers [Some reader] (sample_reader 3 {[ 0 := index ]} ∅))).

Definition healthy_scan_reader : SegmentReader (collab := healthy) :=
  scan_reader healthy 0 (zone_map [(0, 9); (10, 19); (20, 29)]).

Definition failing_scan_reader : SegmentReader (collab := failing_seek) :=
  scan_reader failing_seek 0
    (Build_StreamIndexReader (collab := failing_seek) [] false
       [(0, 9); (10, 19); (20, 29)]).

(** The result of a run that returned, [otherwise] when it crashed. *)
Definition done_or {A : Type} (run : exec A) (otherwise : A) : A :=
  match run with
  | Done a => a
  | Crash _ => otherwise
  end.

Definition returned {A : Type} (run : exec A) : Prop :=
  match run with
  | Done _ => True
  | Crash _ => False
  end.

(** The scenario after the initialisation, after its first and after its
    second delete condition, and at the end of [_pick_row_groups]. *)
Definition scenario_initialised : SegmentReader (collab := healthy) :=
  set_include_blocks (Some [1; 1; 1; 1]) four_blocks.

Definition scenario_after_first : SegmentReader (collab := healthy) :=
  done_or (_pick_delete_condition scenario_setup 0 3 (delete_between 5 20 35)
             scenario_initialised) scenario_initialised.

Definition scenario_after_second : SegmentReader (collab := healthy) :=
  done_or (_pick_delete_condition scenario_setup 0 3 (delete_between 6 100 200)
             scenario_after_first) scenario_after_first.

Definition scenario_picked : pick_return * SegmentReader (collab := healthy) :=
  done_or (_pick_row_groups scenario_setup four_blocks 0 3)
    (ReturnInvalidRange, four_blocks).

Definition zero_column_picked : pick_return * SegmentReader (collab := healthy) :=
  done_or (_pick_row_groups zero_column_setup four_blocks 0 3)
    (ReturnInvalidRange, four_blocks).

Definition twelve_initialised : SegmentReader (collab := healthy) :=
  set_include_blocks (Some (replicate 12 Include)) twelve_blocks.

Definition no_predicate_picked : pick_return * SegmentReader (collab := healthy) :=
  done_or (_pick_row_groups no_predicate_setup twelve_blocks 0 11)
    (ReturnInvalidRange, twelve_blocks).

Definition no_predicate_before_bloom : SegmentReader (collab := healthy) :=
  done_or (before_bloom_filter no_predicate_setup twelve_initialised 0 11)
    twelve_blocks.

Definition equals_5_picked : pick_return * SegmentReader (collab := healthy) :=
  done_or (_pick_row_groups equals_5_setup twelve_blocks 0 11)
    (ReturnInvalidRange, twelve_blocks).

(** The example of section 8 loaded from the file that can only be read at
    the right places. *)
Definition example_index_loaded
  : OLAPStatus * SegmentReader (collab := example_collaborators) :=
  done_or (_load_index (example_setup example_collaborators) false
             (sample_reader 0 ∅ ∅))
    (OLAP_ERR_OTHER 0, sample_reader 0 ∅ ∅).

Definition example_data_loaded
  : OLAPStatus * SegmentReader (collab := example_collaborators) :=
  done_or (_read_all_data_streams (example_setup example_collaborators)
             (sample_reader 0 ∅ ∅))
    (OLAP_ERR_OTHER 0, sample_reader 0 ∅ ∅).

(** The states of [_load_index] on [mismatch_setup]: at the start, after the
    first stream is parsed, after the second is. *)
Definition mismatch_start : load_index_locals * SegmentReader (collab := healthy) :=
  _load_index_start mismatch_setup false unloaded.

Definition parsed_or {collab : Collaborators} (r : exec parse_result)
  (otherwise : load_index_locals * SegmentReader)
  : load_index_locals * SegmentReader :=
  match r with
  | Done (Parsed s) => s
  | _ => otherwise
  end.

Definition parsed {collab : Collaborators} (r : exec parse_result) : Prop :=
  match r with
  | Done (Parsed _) => True
  | _ => False
  end.

Definition mismatch_first_parsed
  : load_index_locals * SegmentReader (collab := healthy) :=
  parsed_or (_load_index_fetch mismatch_setup 500 (stream ROW_INDEX 0 4) mismatch_start)
    mismatch_start.

Definition mismatch_second_parsed
  : load_index_locals * SegmentReader (collab := healthy) :=
  parsed_or (_load_index_fetch mismatch_setup 504 (stream ROW_INDEX 1 6)
               mismatch_first_parsed) mismatch_first_parsed.

(** [_load_index] with caching disabled, on an empty cache and on a cache
    that holds the zone map of column 0. *)
Definition uncached_loaded : OLAPStatus * SegmentReader (collab := healthy) :=
  done_or (_load_index two_index_setup false unloaded) (OLAP_ERR_OTHER 0, unloaded).

Definition cached_loaded : OLAPStatus * SegmentReader (collab := healthy) :=
  done_or (_load_index two_index_setup false column_0_cached)
    (OLAP_ERR_OTHER 0, unloaded).

(** The reader whose column seeks fail, after an unfiltered [seek_to_block]
    over its three blocks, and the [get_block] that follows. *)
Definition failing_sought
  : OLAPStatus * block_out * SegmentReader (collab := failing_seek) :=
  done_or (seek_to_block (scan_setup failing_seek) failing_scan_reader 0 2 true)
    (OLAP_ERR_OTHER 0, OutNothing, failing_scan_reader).

Definition failing_block
  : OLAPStatus * block_out * VectorizedRowBatch
    * SegmentReader (collab := failing_seek) :=
  done_or (get_block (scan_setup failing_seek) failing_sought.2 (sample_batch 1024))
    (OLAP_ERR_OTHER 0, OutNothing, sample_batch 1024, failing_scan_reader).


(** * More of the reader *)

Section Scans.
Context {collab : Collaborators}.

(** ** A filtered scan as a caller drives it

    [seek_to_block] with filtering on, then [get_block] until [eof].  Each
    visit records the block the reader had announced ([_next_block_id]), and
    the size and block status the batch came back with. *)
Inductive visit_result : Type :=
  | VisitDone (visits : list (Z * Z * Z)) (st : SegmentReader)
  | VisitFailed (res : OLAPStatus) (st : SegmentReader)
  | VisitOutOfFuel.

Fixpoint visit_blocks (fuel : nat) (setup : ReaderSetup) (st : SegmentReader)
  (batch : VectorizedRowBatch) : exec visit_result :=
  if _eof st then Done (VisitDone [] st)
  else
    match fuel with
    | O => Done VisitOutOfFuel
    | S fuel' =>
        let block_id := _next_block_id st in
        let* '(res, _, batch1, st1) := get_block setup st batch in
        if decide (res ≠ OLAP_SUCCESS) then Done (VisitFailed res st1)
        else
          let* r := visit_blocks fuel' setup st1 batch1 in
          match r with
          | VisitDone visits st2 =>
              Done (VisitDone
                      ((block_id, batch_size batch1, block_status batch1) :: visits)
                      st2)
          | other => Done other
          end
    end.

Definition filtered_scan (setup : ReaderSetup) (st : SegmentReader)
  (first_block last_block : Z) (batch : VectorizedRowBatch)
  : exec visit_result :=
  let* '(res, _, st1) := seek_to_block setup st first_block last_block false in
  if decide (res ≠ OLAP_SUCCESS) then Done (VisitFailed res st1)
  else visit_blocks (Z.to_nat (last_block - first_block + 1)) setup st1 batch.

(** The blocks of [first_block..last_block] that [arr] does not exclude, with
    their dispositions. *)
Definition remaining_blocks (arr : list Z) (first_block last_block : Z)
  : list (Z * Z) :=
  omap (fun k => match arr !! Z.to_nat k with
                 | Some v => if decide (v = Excluded) then None else Some (k, v)
                 | None => None
                 end)
       (block_range first_block last_block).

(** What [_pick_row_groups] may change of a reader: the disposition array,
    the counter and the statistics. *)
Definition pruning_frame (st st' : SegmentReader) : Prop :=
  st' = set_stats (_stats st')
          (set_remain_block (_remain_block st')
             (set_include_blocks (_include_blocks st') st)).

(** The cursor of a filtered scan that is about to read block [k]: the
    disposition array is [arr], the scan ends at block [e], [eof] is raised
    exactly when [k] is past [e], and otherwise block [k] is not
    [Excluded]. *)
Definition filter_cursor (arr : list Z) (e k : Z) (st : SegmentReader) : Prop :=
  _include_blocks st = Some arr
  /\ _end_block st = e
  /\ e < Z.of_nat (List.length arr)
  /\ _without_filter st = false
  /\ _next_block_id st = k
  /\ 0 <= k
  /\ (_eof st = true <-> k > e)
  /\ (k <= e -> exists v, arr !! Z.to_nat k = Some v /\ v ≠ Excluded).

End Scans.

Section PruningVocabulary.
Context {collab : Collaborators}.

(** ** What the pruning computes *)

(** The three dispositions, and their order [Include] < [RequiresRowFilter]
    < [Excluded]. *)
Definition valid_disposition (v : Z) : Prop :=
  v = Include \/ v = RequiresRowFilter \/ v = Excluded.

Definition disposition_rank (v : Z) : Z :=
  if decide (v = Excluded) then 2
  else if decide (v = RequiresRowFilter) then 1
  else 0.

(** What the columns of a delete condition say about block [k], on the same
    scale: 0 when a column is not satisfied or the condition has no columns,
    1 when some column is partially satisfied and none is not, 2 when every
    column is satisfied (lines 384-425). *)
Definition delete_outcome (setup : ReaderSetup) (st : SegmentReader)
  (dc : DeleteConditions) (k : Z) : Z :=
  match del_eval_columns setup st (columns (del_cond dc)) k false with
  | Done (del_partial_satisfied, del_not_satisfied) =>
      if del_not_satisfied
         || bool_decide (List.length (columns (del_cond dc)) = 0%nat)
      then 0
      else if del_partial_satisfied then 1 else 2
  | Crash _ => 0
  end.

(** The delete phase is not skipped as a whole (lines 364-371). *)
Definition delete_phase_active (setup : ReaderSetup) : bool :=
  negb (delete_handler_empty (_delete_handler setup))
  && negb (bool_decide (DEL_NOT_SATISFIED = _delete_status setup)).

(** The delete conditions newer than the segment (line 374). *)
Definition applicable_conditions (setup : ReaderSetup) : list DeleteConditions :=
  filter (fun dc => filter_version dc > version_first setup)
         (get_delete_conditions (_delete_handler setup)).

Definition delete_phase_outcome (setup : ReaderSetup) (st : SegmentReader)
  (k : Z) : Z :=
  foldr (fun dc acc => Z.max (delete_outcome setup st dc k) acc) 0
        (applicable_conditions setup).

(** The zone map of block [k] fails the predicate of a column of the
    conditions that the zone-map phase evaluates (lines 470-488). *)
Definition zone_map_rejects_block (cond : CondColumn)
  (index_reader : option StreamIndexReader) (k : Z) : bool :=
  match index_reader with
  | Some r =>
      match entry r k with
      | Done e => negb (cond_eval cond (column_statistic_pair e))
      | Crash _ => false
      end
  | None => false
  end.

Definition zone_map_rejects_column (setup : ReaderSetup) (st : SegmentReader)
  (k : Z) (col : ColumnId * CondColumn) : bool :=
  match _get_aggregation_by_index setup col.1 with
  | OLAP_FIELD_AGGREGATION_NONE =>
      let unique_column_id :=
        map_index (_tablet_id_to_unique_id_map setup) col.1 in
      if decide (_unique_id_to_segment_id_map setup !! unique_column_id = None)
      then false
      else zone_map_rejects_block col.2 (_indices st !! unique_column_id) k
  | OLAP_FIELD_AGGREGATION_OTHER _ => false
  end.

Definition zone_map_rejects (setup : ReaderSetup) (st : SegmentReader)
  (conds : Conditions) (k : Z) : bool :=
  existsb (zone_map_rejects_column setup st k) (columns conds).

(** The bloom filter of block [k] fails the predicate of a column of
    [_load_bf_columns] that the bloom-filter phase evaluates (lines
    509-527). *)
Definition bloom_filter_rejects_block (conds : Conditions) (i : ColumnId)
  (bf_reader : option BloomFilterIndexReader) (k : Z) : bool :=
  match columns_at (columns conds) i, bf_reader with
  | Done cond, Some r =>
      match bf_entry r k with
      | Done e => negb (cond_eval_bf cond e)
      | Crash _ => false
      end
  | _, _ => false
  end.

Definition bloom_filter_rejects_column (setup : ReaderSetup)
  (st : SegmentReader) (conds : Conditions) (k : Z) (i : ColumnId) : bool :=
  match _get_aggregation_by_index setup i with
  | OLAP_FIELD_AGGREGATION_NONE =>
      let unique_column_id := map_index (_tablet_id_to_unique_id_map setup) i in
      if decide (_unique_id_to_segment_id_map setup !! unique_column_id = None)
      then false
      else bloom_filter_rejects_block conds i
             (_bloom_filters st !! unique_column_id) k
  | OLAP_FIELD_AGGREGATION_OTHER _ => false
  end.

Definition bloom_filter_rejects (setup : ReaderSetup) (st : SegmentReader)
  (conds : Conditions) (k : Z) : bool :=
  existsb (bloom_filter_rejects_column setup st conds k) (_load_bf_columns setup).

(** The index structures are those of [st0]. *)
Definition same_indices (st0 st : SegmentReader) : Prop :=
  _indices st = _indices st0 /\ _bloom_filters st = _bloom_filters st0.

End PruningVocabulary.

Section RowAccounting.
Context {collab : Collaborators}.

(** ** Rows and statistics *)

(** The rows of the blocks of [arr] that are not [Excluded], where [arr]
    starts at block [k] and block [j] has [rows j] rows. *)
Fixpoint rows_in (rows : Z -> Z) (arr : list Z) (k : Z) : Z :=
  match arr with
  | [] => 0
  | v :: rest =>
      (if decide (v = Excluded) then 0 else rows k) + rows_in rows rest (k + 1)
  end.

Definition rows_remaining (setup : ReaderSetup) (st : SegmentReader) : Z :=
  match _include_blocks st with
  | Some arr => rows_in (rows_of_block setup st) arr 0
  | None => 0
  end.

(** The rows the pruning has counted as filtered. *)
Definition rows_filtered (st : SegmentReader) : Z :=
  rows_del_filtered (_stats st) + rows_stats_filtered (_stats st).

End RowAccounting.

Section LoaderVocabulary.
Context {collab : Collaborators}.

(** ** What the loaders leave behind *)

(** The state an iteration of [_load_index] stops in before the block-count
    check. *)
Definition parse_state (r : parse_result) : load_index_locals * SegmentReader :=
  match r with
  | Skipped s => s
  | Failed _ s => s
  | Parsed s => s
  end.



(** Every index structure of the reader owns its buffer / has its buffer in
    the cache under the key of its stream. *)
Definition indexes_own_buffers (st : SegmentReader) : Prop :=
  (forall u r, _indices st !! u = Some r -> sir_is_using_cache r = false)
  /\ (forall u r, _bloom_filters st !! u = Some r -> bfr_is_using_cache r = false).

Definition indexes_in_cache (setup : ReaderSetup) (st : SegmentReader) : Prop :=
  (forall u r,
     _indices st !! u = Some r ->
     sir_is_using_cache r = true
     /\ _lru_cache st !! _construct_index_stream_key (_file_name setup) u ROW_INDEX
        = Some (sir_buffer r))
  /\ (forall u r,
        _bloom_filters st !! u = Some r ->
        bfr_is_using_cache r = true
        /\ _lru_cache st !! _construct_index_stream_key (_file_name setup) u BLOOM_FILTER
           = Some (bfr_buffer r)).

(** The descriptors [_load_index] reads (lines 593-603) and the descriptors
    [_read_all_data_streams] turns into streams (lines 720-732). *)
Definition index_stream_needed (setup : ReaderSetup) (m : StreamInfoMessage.t)
  : bool :=
  bool_decide (_unique_id_to_segment_id_map setup
               !! StreamInfoMessage.column_unique_id m ≠ None)
  && ((_is_column_included setup (StreamInfoMessage.column_unique_id m)
       && bool_decide (StreamInfoMessage.kind m = ROW_INDEX))
      || (_is_bf_column_included setup (StreamInfoMessage.column_unique_id m)
          && bool_decide (StreamInfoMessage.kind m = BLOOM_FILTER))).

Definition data_stream_needed (setup : ReaderSetup) (m : StreamInfoMessage.t)
  : bool :=
  bool_decide (_unique_id_to_segment_id_map setup
               !! StreamInfoMessage.column_unique_id m ≠ None)
  && (bool_decide (StreamInfoMessage.column_unique_id m ∈ _include_columns setup)
      || bool_decide (StreamInfoMessage.column_unique_id m
                      ∈ _include_bf_columns setup))
  && negb (bool_decide (StreamInfoMessage.kind m = ROW_INDEX)
           || bool_decide (StreamInfoMessage.kind m = BLOOM_FILTER)).

Definition stream_name (m : StreamInfoMessage.t) : StreamName :=
  (StreamInfoMessage.column_unique_id m, StreamInfoMessage.kind m).

End LoaderVocabulary.

Section SessionVocabulary.
Context {collab : Collaborators}.

(** ** What loading the data leaves alone *)

(** [st'] differs from [st] at most in the members the data loaders write:
    [_eof], the streams, the column readers, the column indexes, the buffer
    size and [_is_data_loaded]. *)
Definition data_frame (st st' : SegmentReader) : Prop :=
  st' = set_is_data_loaded (_is_data_loaded st')
          (set_buffer_size (_buffer_size st')
             (set_streams (_streams st')
                (set_column_readers (_column_readers st')
                   (set_column_indices (_column_indices st')
                      (set_eof (_eof st') st))))).

(** [_end_block] as [seek_to_block] sets it (line 253). *)
Definition scan_end (st : SegmentReader) (last_block : Z) : Z :=
  if decide (last_block >= _block_count st) then _block_count st - 1
  else last_block.

End SessionVocabulary.

(** ** Opening the segment *)

(** [CompressKind] of the header message: the kinds [_set_decompressor] names
    and any other value. *)
Inductive CompressKind : Type :=
  | COMPRESS_NONE
  | COMPRESS_LZO
  | COMPRESS_LZ4
  | COMPRESS_OTHER (tag : Z).

(** What [_decompressor] can point to. *)
Inductive Decompressor : Type :=
  | lzo_decompress
  | lz4_decompress.

Section Opening.
Context {collab : Collaborators}.
Context {ColumnEncodingMessage : Type}.

(** What [init] reads and the functions above do not: the remaining fields of
    the header message, the tablet schema, and what the file handler, the
    segment group and the allocator answer.  [column_unique_ids] lists
    [_header_message().column(i).unique_id()], [column_encodings] lists
    [_header_message().column_encoding(i)], [tablet_unique_ids] lists
    [tablet_schema().column(i).unique_id()]. *)
Record SegmentSource : Type := {
  magic_string : string;
  version : Z;
  compress_kind : CompressKind;
  column_unique_ids : list ColumnId;
  column_encodings : list ColumnEncodingMessage;
  tablet_unique_ids : list ColumnId;
  open_with_cache : OLAPStatus;
  get_seg_pb : ColumnDataHeaderMessage;
  get_null_supported : bool;
  file_header_size : Z;
  get_num_rows_per_row_block : Z;
  mmap_created : bool;
  shared_buffer_created : bool
}.

(** What the build fixes: [CURRENT_COLUMN_DATA_VERSION], the value of
    [OLAP_ERR_PARSE_PROTOBUF_ERROR] (both defined outside this file) and
    whether [DORIS_WITH_LZO] is defined. *)
Record Build : Type := {
  CURRENT_COLUMN_DATA_VERSION : Z;
  OLAP_ERR_PARSE_PROTOBUF_ERROR : OLAPStatus;
  DORIS_WITH_LZO : bool
}.

(** The members [init] assigns that [ReaderSetup] does not hold. *)
Record OpenedSegment : Type := {
  _encodings_map : gmap ColumnId ColumnEncodingMessage;
  _decompressor : option Decompressor;
  _is_using_mmap : bool;
  _mmap_buffer : bool;
  _shared_buffer : bool
}.

Definition set_encodings_map (v : gmap ColumnId ColumnEncodingMessage)
  (o : OpenedSegment) : OpenedSegment :=
  {| _encodings_map := v; _decompressor := _decompressor o;
     _is_using_mmap := _is_using_mmap o; _mmap_buffer := _mmap_buffer o;
     _shared_buffer := _shared_buffer o |}.

Definition set_decompressor (v : option Decompressor) (o : OpenedSegment)
  : OpenedSegment :=
  {| _encodings_map := _encodings_map o; _decompressor := v;
     _is_using_mmap := _is_using_mmap o; _mmap_buffer := _mmap_buffer o;
     _shared_buffer := _shared_buffer o |}.

Definition set_mmap_buffer (v : bool) (o : OpenedSegment) : OpenedSegment :=
  {| _encodings_map := _encodings_map o; _decompressor := _decompressor o;
     _is_using_mmap := _is_using_mmap o; _mmap_buffer := v;
     _shared_buffer := _shared_buffer o |}.

Definition set_shared_buffer (v : bool) (o : OpenedSegment) : OpenedSegment :=
  {| _encodings_map := _encodings_map o; _decompressor := _decompressor o;
     _is_using_mmap := _is_using_mmap o; _mmap_buffer := _mmap_buffer o;
     _shared_buffer := v |}.

Definition set_segment_file (header : ColumnDataHeaderMessage)
  (null_supported : bool) (header_length : Z) (setup : ReaderSetup)
  : ReaderSetup :=
  {| _file_name := _file_name setup; version_first := version_first setup;
     num_columns := num_columns setup;
     _get_aggregation_by_index := _get_aggregation_by_index setup;
     _get_field_type_by_index := _get_field_type_by_index setup;
     _get_included_row_index_stream_num := _get_included_row_index_stream_num setup;
     _used_columns := _used_columns setup;
     _load_bf_columns := _load_bf_columns setup;
     _conditions := _conditions setup; _delete_handler := _delete_handler setup;
     _delete_status := _delete_status setup;
     _file_header := header; _header_length := header_length;
     _num_rows_in_block := _num_rows_in_block setup;
     _null_supported := null_supported;
     _include_columns := _include_columns setup;
     _include_bf_columns := _include_bf_columns setup;
     _tablet_id_to_unique_id_map := _tablet_id_to_unique_id_map setup;
     _unique_id_to_tablet_id_map := _unique_id_to_tablet_id_map setup;
     _unique_id_to_segment_id_map := _unique_id_to_segment_id_map setup |}.

Definition set_num_rows_in_block (v : Z) (setup : ReaderSetup) : ReaderSetup :=
  {| _file_name := _file_name setup; version_first := version_first setup;
     num_columns := num_columns setup;
     _get_aggregation_by_index := _get_aggregation_by_index setup;
     _get_field_type_by_index := _get_field_type_by_index setup;
     _get_included_row_index_stream_num := _get_included_row_index_stream_num setup;
     _used_columns := _used_columns setup;
     _load_bf_columns := _load_bf_columns setup;
     _conditions := _conditions setup; _delete_handler := _delete_handler setup;
     _delete_status := _delete_status setup;
     _file_header := _file_header setup; _header_length := _header_length setup;
     _num_rows_in_block := v;
     _null_supported := _null_supported setup;
     _include_columns := _include_columns setup;
     _include_bf_columns := _include_bf_columns setup;
     _tablet_id_to_unique_id_map := _tablet_id_to_unique_id_map setup;
     _unique_id_to_tablet_id_map := _unique_id_to_tablet_id_map setup;
     _unique_id_to_segment_id_map := _unique_id_to_segment_id_map setup |}.

Definition set_column_maps (tablet_to_unique unique_to_tablet
  unique_to_segment : gmap ColumnId ColumnId) (setup : ReaderSetup)
  : ReaderSetup :=
  {| _file_name := _file_name setup; version_first := version_first setup;
     num_columns := num_columns setup;
     _get_aggregation_by_index := _get_aggregation_by_index setup;
     _get_field_type_by_index := _get_field_type_by_index setup;
     _get_included_row_index_stream_num := _get_included_row_index_stream_num setup;
     _used_columns := _used_columns setup;
     _load_bf_columns := _load_bf_columns setup;
     _conditions := _conditions setup; _delete_handler := _delete_handler setup;
     _delete_status := _delete_status setup;
     _file_header := _file_header setup; _header_length := _header_length setup;
     _num_rows_in_block := _num_rows_in_block setup;
     _null_supported := _null_supported setup;
     _include_columns := _include_columns setup;
     _include_bf_columns := _include_bf_columns setup;
     _tablet_id_to_unique_id_map := tablet_to_unique;
     _unique_id_to_tablet_id_map := unique_to_tablet;
     _unique_id_to_segment_id_map := unique_to_segment |}.

Definition set_include_columns (include_columns include_bf_columns : gset ColumnId)
  (setup : ReaderSetup) : ReaderSetup :=
  {| _file_name := _file_name setup; version_first := version_first setup;
     num_columns := num_columns setup;
     _get_aggregation_by_index := _get_aggregation_by_index setup;
     _get_field_type_by_index := _get_field_type_by_index setup;
     _get_included_row_index_stream_num := _get_included_row_index_stream_num setup;
     _used_columns := _used_columns setup;
     _load_bf_columns := _load_bf_columns setup;
     _conditions := _conditions setup; _delete_handler := _delete_handler setup;
     _delete_status := _delete_status setup;
     _file_header := _file_header setup; _header_length := _header_length setup;
     _num_rows_in_block := _num_rows_in_block setup;
     _null_supported := _null_supported setup;
     _include_columns := include_columns;
     _include_bf_columns := include_bf_columns;
     _tablet_id_to_unique_id_map := _tablet_id_to_unique_id_map setup;
     _unique_id_to_tablet_id_map := _unique_id_to_tablet_id_map setup;
     _unique_id_to_segment_id_map := _unique_id_to_segment_id_map setup |}.

(** [_check_file_version] (lines 102-117).  A version above the current one
    is only logged. *)
Definition _check_file_version (build : Build) (source : SegmentSource)
  : OLAPStatus :=
  if negb (String.eqb (magic_string source) "COLUMN DATA")
  then OLAP_ERR_FILE_FORMAT_ERROR
  else if decide (version source > CURRENT_COLUMN_DATA_VERSION build)
       then OLAP_SUCCESS
       else OLAP_SUCCESS.

(** [_load_segment_file] (lines 119-151). *)
Definition _load_segment_file (build : Build) (source : SegmentSource)
  (setup : ReaderSetup) (opened : OpenedSegment)
  : OLAPStatus * ReaderSetup * OpenedSegment :=
  let res := open_with_cache source in
  if decide (OLAP_SUCCESS ≠ res) then (res, setup, opened)
  else
    let setup1 :=
      set_segment_file (get_seg_pb source) (get_null_supported source)
        (file_header_size source) setup in
    let res := _check_file_version build source in
    if decide (OLAP_SUCCESS ≠ res) then (res, setup1, opened)
    else if _is_using_mmap opened then
      let opened1 := set_mmap_buffer (mmap_created source) opened in
      if negb (mmap_created source) then (OLAP_ERR_MALLOC_ERROR, setup1, opened1)
      else (OLAP_SUCCESS, setup1, opened1)
    else (OLAP_SUCCESS, setup1, opened).

(** [_set_decompressor] (lines 153-175). *)
Definition _set_decompressor (build : Build) (source : SegmentSource)
  (opened : OpenedSegment) : OLAPStatus * OpenedSegment :=
  match compress_kind source with
  | COMPRESS_NONE => (OLAP_SUCCESS, set_decompressor None opened)
  | COMPRESS_LZO =>
      if DORIS_WITH_LZO build
      then (OLAP_SUCCESS, set_decompressor (Some lzo_decompress) opened)
      else (OLAP_ERR_PARSE_PROTOBUF_ERROR build, opened)
  | COMPRESS_LZ4 => (OLAP_SUCCESS, set_decompressor (Some lz4_decompress) opened)
  | COMPRESS_OTHER _ => (OLAP_ERR_PARSE_PROTOBUF_ERROR build, opened)
  end.

(** One iteration of the loops of [_set_column_map] over [_used_columns] and
    [_load_bf_columns] (lines 321-331); the state is
    ([_tablet_id_to_unique_id_map], [_unique_id_to_tablet_id_map]). *)
Definition map_tablet_column (source : SegmentSource) (table_column_id : ColumnId)
  (maps : gmap ColumnId ColumnId * gmap ColumnId ColumnId)
  : exec (gmap ColumnId ColumnId * gmap ColumnId ColumnId) :=
  let* unique_column_id := at_index (tablet_unique_ids source) table_column_id in
  Done (<[table_column_id := unique_column_id]> maps.1,
        <[unique_column_id := table_column_id]> maps.2).

(** One iteration of its loop over the columns of the header (lines
    333-344); the state is ([_unique_id_to_segment_id_map],
    [_encodings_map]). *)
Definition map_segment_column (source : SegmentSource)
  (unique_to_tablet : gmap ColumnId ColumnId) (segment_column_id : ColumnId)
  (maps : gmap ColumnId ColumnId * gmap ColumnId ColumnEncodingMessage)
  : exec (gmap ColumnId ColumnId * gmap ColumnId ColumnEncodingMessage) :=
  let* unique_column_id := at_index (column_unique_ids source) segment_column_id in
  if decide (unique_to_tablet !! unique_column_id ≠ None) then
    let* encoding := at_index (column_encodings source) segment_column_id in
    Done (<[unique_column_id := segment_column_id]> maps.1,
          <[unique_column_id := encoding]> maps.2)
  else Done maps.

(** [_set_column_map] (lines 315-345): the four maps are cleared and filled
    again. *)
Definition _set_column_map (source : SegmentSource) (setup : ReaderSetup)
  (opened : OpenedSegment) : exec (ReaderSetup * OpenedSegment) :=
  let* maps := foldM (map_tablet_column source) (_used_columns setup) (∅, ∅) in
  let* maps := foldM (map_tablet_column source) (_load_bf_columns setup) maps in
  let segment_column_size := Z.of_nat (List.length (column_unique_ids source)) in
  let* segment_maps :=
    foldM (map_segment_column source maps.2) (seqZ 0 segment_column_size) (∅, ∅) in
  Done (set_column_maps maps.1 maps.2 segment_maps.1 setup,
        set_encodings_map segment_maps.2 opened).

(** [_set_segment_info] (lines 177-190). *)
Definition _set_segment_info (build : Build) (source : SegmentSource)
  (setup : ReaderSetup) (opened : OpenedSegment)
  : exec (OLAPStatus * ReaderSetup * OpenedSegment) :=
  let rows := num_rows_per_block (_file_header setup) in
  let rows :=
    if decide (rows = 0) then get_num_rows_per_row_block source else rows in
  let setup1 := set_num_rows_in_block rows setup in
  let* '(setup2, opened1) := _set_column_map source setup1 opened in
  let '(res, opened2) := _set_decompressor build source opened1 in
  if decide (OLAP_SUCCESS ≠ res) then Done (res, setup2, opened2)
  else Done (OLAP_SUCCESS, setup2, opened2).

(** [_pick_columns] (lines 347-359). *)
Definition _pick_columns (setup : ReaderSetup) : OLAPStatus * ReaderSetup :=
  let include_columns :=
    foldl (fun acc i =>
             {[ map_index (_tablet_id_to_unique_id_map setup) i ]} ∪ acc)
          (_include_columns setup) (_used_columns setup) in
  let include_bf_columns :=
    foldl (fun acc i =>
             {[ map_index (_tablet_id_to_unique_id_map setup) i ]} ∪ acc)
          (_include_bf_columns setup) (_load_bf_columns setup) in
  (OLAP_SUCCESS, set_include_columns include_columns include_bf_columns setup).

(** [init] (lines 192-228). *)
Definition init (build : Build) (source : SegmentSource) (is_using_cache : bool)
  (setup : ReaderSetup) (opened : OpenedSegment) (st : SegmentReader)
  : exec (OLAPStatus * ReaderSetup * OpenedSegment * SegmentReader) :=
  let '(res, setup1, opened1) := _load_segment_file build source setup opened in
  if decide (OLAP_SUCCESS ≠ res) then Done (res, setup1, opened1, st)
  else
    (* File header *)
    let* '(res, setup2, opened2) := _set_segment_info build source setup1 opened1 in
    if decide (OLAP_SUCCESS ≠ res) then Done (res, setup2, opened2, st)
    else
      let opened3 := set_shared_buffer (shared_buffer_created source) opened2 in
      if negb (shared_buffer_created source)
      then Done (OLAP_ERR_MALLOC_ERROR, setup2, opened3, st)
      else
        let '(res, setup3) := _pick_columns setup2 in
        if decide (OLAP_SUCCESS ≠ res) then Done (res, setup3, opened3, st)
        else
          let* '(res, st1) := _load_index setup3 is_using_cache st in
          if decide (OLAP_SUCCESS ≠ res) then Done (res, setup3, opened3, st1)
          else Done (OLAP_SUCCESS, setup3, opened3, st1).

(** The columns whose unique id is [unique_column_id], among [columns] of the
    tablet schema. *)
Definition tablet_columns_of (source : SegmentSource) (columns : list ColumnId)
  (unique_column_id : ColumnId) : Prop :=
  exists table_column_id,
    table_column_id ∈ columns
    /\ tablet_unique_ids source !! Z.to_nat table_column_id
       = Some unique_column_id.

End Opening.

(** ** More runs on the sample segment *)

(** The scenario after a filtered [seek_to_block] over its four blocks, and
    the blocks its filtered scan reads. *)
Definition scenario_sought
  : OLAPStatus * block_out * SegmentReader (collab := healthy) :=
  done_or (seek_to_block scenario_setup four_blocks 0 3 false)
    (OLAP_ERR_OTHER 0, OutNothing, four_blocks).

Definition scenario_visits : list (Z * Z * Z) :=
  match filtered_scan scenario_setup four_blocks 0 3 (sample_batch 1024) with
  | Done (VisitDone visits _) => visits
  | _ => []
  end.

(** The lazy seek of the healthy reader to block 0, and of the reader whose
    column seeks fail. *)
Definition healthy_directly : OLAPStatus * SegmentReader (collab := healthy) :=
  done_or (_seek_to_block_directly healthy_scan_reader 0 [0])
    (OLAP_ERR_OTHER 0, healthy_scan_reader).

Definition failing_directly : OLAPStatus * SegmentReader (collab := failing_seek) :=
  done_or (_seek_to_block_directly failing_scan_reader 0 [0])
    (OLAP_SUCCESS, failing_scan_reader).

(** The scenario after its delete phase, and after the first delete condition
    has visited block 2. *)
Definition scenario_deleted : OLAPStatus * SegmentReader (collab := healthy) :=
  done_or (_pick_delete_row_groups scenario_setup scenario_initialised 0 3)
    (OLAP_ERR_OTHER 0, scenario_initialised).

Definition scenario_block_2 : SegmentReader (collab := healthy) :=
  done_or (_pick_delete_block scenario_setup (delete_between 5 20 35) 2
             scenario_initialised) scenario_initialised.

(** The twelve blocks under the predicate "column 0 equals 5", after the
    zone-map phase and after the bloom-filter phase. *)
Definition equals_5 : Conditions (collab := healthy) :=
  Build_Conditions (collab := healthy) [(0, (5, 5))].

Definition equals_5_zoned : SegmentReader (collab := healthy) :=
  done_or (zone_map_phase equals_5_setup equals_5 0 11 twelve_initialised)
    twelve_initialised.

Definition equals_5_bloomed : SegmentReader (collab := healthy) :=
  done_or (bloom_filter_phase equals_5_setup equals_5 0 11 equals_5_zoned)
    equals_5_zoned.

(** [_load_index] with caching enabled on an empty cache. *)
Definition cache_loaded : OLAPStatus * SegmentReader (collab := healthy) :=
  done_or (_load_index two_index_setup true unloaded) (OLAP_ERR_OTHER 0, unloaded).

(** A reader of the three-block segment whose index is loaded, and the same
    reader after its column readers are created. *)
Definition indexed_reader : SegmentReader (collab := healthy) :=
  sample_reader 3 {[ 0 := zone_map [(0, 9); (10, 19); (20, 29)] ]} ∅.

Definition readers_created : OLAPStatus * SegmentReader (collab := healthy) :=
  done_or (_create_reader (scan_setup healthy) (_reset_readers indexed_reader).2)
    (OLAP_ERR_OTHER 0, indexed_reader).


(** ** Opening a sample segment *)

Definition sample_build : Build :=
  {| CURRENT_COLUMN_DATA_VERSION := 1;
     OLAP_ERR_PARSE_PROTOBUF_ERROR := OLAP_ERR_OTHER 211;
     DORIS_WITH_LZO := false |}.

(** A tablet with the columns 0, 1 and 2 of unique ids 10, 11 and 12, and a
    segment written before column 2 existed: its header lists the unique ids
    11 and 10, in this order, with the encodings 7 and 8, a zone map for each
    and one data stream. *)
Definition sample_source : SegmentSource (ColumnEncodingMessage := Z) :=
  {| magic_string := "COLUMN DATA";
     version := 1;
     compress_kind := COMPRESS_LZ4;
     column_unique_ids := [11; 10];
     column_encodings := [7; 8];
     tablet_unique_ids := [10; 11; 12];
     open_with_cache := OLAP_SUCCESS;
     get_seg_pb :=
       sample_header 2 1
         [stream ROW_INDEX 10 4; stream ROW_INDEX 11 4; stream (DATA_KIND 2) 10 8];
     get_null_supported := false;
     file_header_size := 500;
     get_num_rows_per_row_block := 1024;
     mmap_created := false;
     shared_buffer_created := true |}.

(** The same segment with a wrong magic string. *)
Definition corrupt_source : SegmentSource (ColumnEncodingMessage := Z) :=
  {| magic_string := "COLUMN DATE";
     version := version sample_source;
     compress_kind := compress_kind sample_source;
     column_unique_ids := column_unique_ids sample_source;
     column_encodings := column_encodings sample_source;
     tablet_unique_ids := tablet_unique_ids sample_source;
     open_with_cache := OLAP_SUCCESS;
     get_seg_pb := get_seg_pb sample_source;
     get_null_supported := false;
     file_header_size := 500;
     get_num_rows_per_row_block := 1024;
     mmap_created := false;
     shared_buffer_created := true |}.

(** The reader as its constructor leaves it: the columns 0 and 1 are read,
    column 2 has a bloom filter to consult. *)
Definition fresh_setup : ReaderSetup (collab := healthy) :=
  {| _file_name := "segment_0.dat";
     version_first := 1;
     num_columns := 3;
     _get_aggregation_by_index := fun _ => OLAP_FIELD_AGGREGATION_NONE;
     _get_field_type_by_index := fun _ => 0;
     _get_included_row_index_stream_num := 2;
     _used_columns := [0; 1];
     _load_bf_columns := [2];
     _conditions := None;
     _delete_handler := no_deletes;
     _delete_status := DEL_PARTIAL_SATISFIED;
     _file_header := sample_header 0 0 [];
     _header_length := 0;
     _num_rows_in_block := 0;
     _null_supported := false;
     _include_columns := ∅;
     _include_bf_columns := ∅;
     _tablet_id_to_unique_id_map := ∅;
     _unique_id_to_tablet_id_map := ∅;
     _unique_id_to_segment_id_map := ∅ |}.

Definition fresh_opened : OpenedSegment (ColumnEncodingMessage := Z) :=
  {| _encodings_map := ∅;
     _decompressor := None;
     _is_using_mmap := false;
     _mmap_buffer := false;
     _shared_buffer := false |}.

Definition sample_column_maps
  : ReaderSetup (collab := healthy) * OpenedSegment (ColumnEncodingMessage := Z) :=
  done_or (_set_column_map sample_source fresh_setup fresh_opened)
    (fresh_setup, fresh_opened).

Definition sample_initialised
  : OLAPStatus * ReaderSetup (collab := healthy)
    * OpenedSegment (ColumnEncodingMessage := Z)
    * SegmentReader (collab := healthy) :=
  done_or (init sample_build sample_source false fresh_setup fresh_opened unloaded)
    (OLAP_ERR_OTHER 0, fresh_setup, fresh_opened, unloaded).

Definition corrupt_initialised
  : OLAPStatus * ReaderSetup (collab := healthy)
    * OpenedSegment (ColumnEncodingMessage := Z)
    * SegmentReader (collab := healthy) :=
  done_or (init sample_build corrupt_source false fresh_setup fresh_opened unloaded)
    (OLAP_SUCCESS, fresh_setup, fresh_opened, unloaded).

(** * Properties *)

Section Properties.
Context {collab : Collaborators}.

(** ** Outcomes and loops *)

Lemma exec_then_Done {A B : Type} (m : exec A) (k : A -> exec B) (b : B) :
  exec_then m k = Done b -> exists a, m = Done a /\ k a = Done b.
Proof. destruct m as [a|f]; simpl; [eauto | discriminate]. Qed.

Lemma at_index_Done {A : Type} (l : list A) (j : Z) (a : A) :
  at_index l j = Done a <-> 0 <= j /\ l !! Z.to_nat j = Some a.
Proof.
  unfold at_index. destruct (decide (0 <= j)) as [Hj|Hj].
  - destruct (l !! Z.to_nat j) as [x|]; split.
    + intros [= ->]. done.
    + intros [_ [= ->]]. done.
    + discriminate.
    + intros [_ ?]. discriminate.
  - split; [discriminate | intros [? _]; lia].
Qed.

Lemma deref_Done {A : Type} (p : option A) (a : A) :
  deref p = Done a <-> p = Some a.
Proof. destruct p; simpl; split; congruence. Qed.

(** Split a hypothesis [exec_then m k = Done b] into its two halves, and
    normalise raw accesses. *)
Ltac exec_inv H :=
  let a := fresh "a" in
  let Ha := fresh "Hm" in
  let Hk := fresh "Hk" in
  destruct (exec_then_Done _ _ _ H) as (a & Ha & Hk); clear H; rename Hk into H.

Lemma foldM_app {A S : Type} (body : A -> S -> exec S) (l1 l2 : list A) (s : S) :
  foldM body (l1 ++ l2) s = exec_then (foldM body l1 s) (foldM body l2).
Proof.
  revert s. induction l1 as [|a l1 IH]; intros s; simpl; [done|].
  destruct (body a s) as [s1|f]; simpl; [apply IH | done].
Qed.

(** A property kept by every iteration is kept by the loop. *)
Lemma foldM_preserves {A S : Type} (body : A -> S -> exec S) (P : S -> Prop)
  (l : list A) :
  (forall a s s', a ∈ l -> body a s = Done s' -> P s -> P s') ->
  forall s s', foldM body l s = Done s' -> P s -> P s'.
Proof.
  induction l as [|a l IH]; intros Hbody s s' Hrun HP; simpl in Hrun.
  - by injection Hrun as <-.
  - exec_inv Hrun. eapply IH; [| exact Hrun |].
    + intros b t t' Hb. apply Hbody. by right.
    + eapply Hbody; [by left | exact Hm | exact HP].
Qed.

(** A loop whose iterations all return from states satisfying an invariant
    returns, and from a state satisfying it. *)
Lemma foldM_total {A S : Type} (body : A -> S -> exec S) (P : S -> Prop)
  (l : list A) :
  (forall a s, a ∈ l -> P s -> exists s', body a s = Done s' /\ P s') ->
  forall s, P s -> exists s', foldM body l s = Done s' /\ P s'.
Proof.
  induction l as [|a l IH]; intros Hbody s HP; simpl.
  - eauto.
  - destruct (Hbody a s) as (s1 & -> & HP1); [by left | done |]. simpl.
    apply IH; [| done]. intros b t Hb. apply Hbody. by right.
Qed.

Lemma elem_of_block_range (first_block last_block j : Z) :
  j ∈ block_range first_block last_block <-> first_block <= j <= last_block.
Proof. unfold block_range. rewrite elem_of_seqZ. lia. Qed.

(** ** Dispositions and the remaining-block counter *)

Lemma count_remaining_cons (v : Z) (arr : list Z) :
  count_remaining (v :: arr)
  = (if decide (v ≠ DEL_SATISFIED) then 1 else 0) + count_remaining arr.
Proof.
  unfold count_remaining. rewrite filter_cons.
  destruct (decide (v ≠ DEL_SATISFIED)); simpl; lia.
Qed.

Lemma count_remaining_nonneg (arr : list Z) : 0 <= count_remaining arr.
Proof. unfold count_remaining. lia. Qed.

Lemma count_remaining_insert (arr : list Z) (i : nat) (v v' : Z) :
  arr !! i = Some v ->
  count_remaining (<[i := v']> arr)
  = count_remaining arr
    - (if decide (v ≠ DEL_SATISFIED) then 1 else 0)
    + (if decide (v' ≠ DEL_SATISFIED) then 1 else 0).
Proof.
  revert i. induction arr as [|x arr IH]; intros [|i] Hi; simpl in *;
    try discriminate.
  - injection Hi as ->. rewrite !count_remaining_cons. lia.
  - rewrite !count_remaining_cons, (IH i Hi). lia.
Qed.

Lemma count_remaining_app (l1 l2 : list Z) :
  count_remaining (l1 ++ l2) = count_remaining l1 + count_remaining l2.
Proof.
  unfold count_remaining. rewrite filter_app, length_app. lia.
Qed.

Lemma count_remaining_replicate_0 (n : nat) :
  count_remaining (replicate n DEL_SATISFIED) = 0.
Proof.
  induction n as [|n IH]; simpl; [done|].
  rewrite count_remaining_cons, IH. by rewrite decide_False by (intros ?; done).
Qed.

Lemma count_remaining_replicate_1 (n : nat) :
  count_remaining (replicate n DEL_NOT_SATISFIED) = Z.of_nat n.
Proof.
  induction n as [|n IH]; simpl; [done|].
  rewrite count_remaining_cons, IH. rewrite decide_True by done. lia.
Qed.

Lemma include_blocks_get_Done (st : SegmentReader) (j v : Z) :
  include_blocks_get st j = Done v ->
  exists arr, _include_blocks st = Some arr /\ 0 <= j /\ arr !! Z.to_nat j = Some v.
Proof.
  unfold include_blocks_get. intros H0. exec_inv H0.
  apply deref_Done in Hm. apply at_index_Done in H0 as [Hj Hv]. eauto.
Qed.

Lemma include_blocks_set_Done (st st' : SegmentReader) (j v : Z) :
  include_blocks_set st j v = Done st' ->
  exists arr, _include_blocks st = Some arr
    /\ st' = set_include_blocks (Some (<[Z.to_nat j := v]> arr)) st.
Proof.
  unfold include_blocks_set. intros H0. exec_inv H0.
  apply deref_Done in Hm. case_decide; [|discriminate].
  injection H0 as <-. eauto.
Qed.

Lemma block_update_refl (st : SegmentReader) (j : Z) (arr : list Z) (v : Z) :
  _include_blocks st = Some arr -> 0 <= j -> arr !! Z.to_nat j = Some v ->
  block_update j st st.
Proof.
  intros Harr Hj Hv. exists arr, v, v. rewrite list_insert_id by done.
  repeat split; try done.
  rewrite decide_False; [done|]. intros [? ?]; done.
Qed.

(** Setting the entry to a value other than [Excluded]. *)
Lemma block_update_keep (st st' : SegmentReader) (j v v' : Z) (arr : list Z) :
  _include_blocks st = Some arr -> 0 <= j -> arr !! Z.to_nat j = Some v ->
  v ≠ DEL_SATISFIED -> v' ≠ DEL_SATISFIED ->
  include_blocks_set st j v' = Done st' ->
  block_update j st st'.
Proof.
  intros Harr Hj Hv Hne Hne' Hset.
  apply include_blocks_set_Done in Hset as (arr' & Harr' & ->).
  assert (arr' = arr) as -> by congruence.
  exists arr, v, v'. repeat split; try done.
  simpl. rewrite decide_False; [done|]. intros [_ ?]; done.
Qed.

(** Setting the entry to [Excluded] and counting the block out. *)
Lemma block_update_exclude (st st1 : SegmentReader) (j v : Z) (arr : list Z)
  (f : SegmentReader -> SegmentReader) :
  _include_blocks st = Some arr -> 0 <= j -> arr !! Z.to_nat j = Some v ->
  v ≠ DEL_SATISFIED ->
  include_blocks_set st j DEL_SATISFIED = Done st1 ->
  (forall s, _include_blocks (f s) = _include_blocks s
             /\ _remain_block (f s) = _remain_block s
             /\ _indices (f s) = _indices s
             /\ _bloom_filters (f s) = _bloom_filters s
             /\ _block_count (f s) = _block_count s) ->
  block_update j st (f (dec_remain_block st1)).
Proof.
  intros Harr Hj Hv Hne Hset Hf.
  apply include_blocks_set_Done in Hset as (arr' & Harr' & ->).
  assert (arr' = arr) as -> by congruence.
  exists arr, v, DEL_SATISFIED.
  destruct (Hf (dec_remain_block
                  (set_include_blocks (Some (<[Z.to_nat j:=DEL_SATISFIED]> arr)) st)))
    as (-> & -> & -> & -> & ->).
  repeat split; try done.
  simpl. by rewrite decide_True.
Qed.

Lemma add_rows_del_filtered_frame (setup : ReaderSetup) (j : Z) (s : SegmentReader) :
  _include_blocks (add_rows_del_filtered setup j s) = _include_blocks s
  /\ _remain_block (add_rows_del_filtered setup j s) = _remain_block s
  /\ _indices (add_rows_del_filtered setup j s) = _indices s
  /\ _bloom_filters (add_rows_del_filtered setup j s) = _bloom_filters s
  /\ _block_count (add_rows_del_filtered setup j s) = _block_count s.
Proof. done. Qed.

Lemma add_rows_stats_filtered_frame (setup : ReaderSetup) (j : Z) (s : SegmentReader) :
  _include_blocks (add_rows_stats_filtered setup j s) = _include_blocks s
  /\ _remain_block (add_rows_stats_filtered setup j s) = _remain_block s
  /\ _indices (add_rows_stats_filtered setup j s) = _indices s
  /\ _bloom_filters (add_rows_stats_filtered setup j s) = _bloom_filters s
  /\ _block_count (add_rows_stats_filtered setup j s) = _block_count s.
Proof. done. Qed.

Lemma _pick_delete_block_update (setup : ReaderSetup) (dc : DeleteConditions)
  (j : Z) (st st' : SegmentReader) :
  _pick_delete_block setup dc j st = Done st' -> block_update j st st'.
Proof.
  unfold _pick_delete_block. intros Hrun. exec_inv Hrun. rename a into v.
  apply include_blocks_get_Done in Hm as (arr & Harr & Hj & Hv).
  destruct (decide (v = DEL_SATISFIED)) as [->|Hne].
  { injection Hrun as <-. by eapply block_update_refl. }
  exec_inv Hrun. destruct a as [del_partial del_not]. clear Hm.
  destruct (del_not || bool_decide (List.length (columns (del_cond dc)) = 0%nat)).
  - destruct (decide (v = DEL_PARTIAL_SATISFIED)).
    + injection Hrun as <-. by eapply block_update_refl.
    + by eapply (block_update_keep _ _ _ v DEL_NOT_SATISFIED).
  - destruct del_partial.
    + by eapply (block_update_keep _ _ _ v DEL_PARTIAL_SATISFIED).
    + exec_inv Hrun. injection Hrun as <-.
      eapply (block_update_exclude st a j v arr (add_rows_del_filtered setup j));
        done.
Qed.

Lemma _pick_zone_map_block_update (setup : ReaderSetup) (cond : CondColumn)
  (index_reader : option StreamIndexReader) (j : Z) (st st' : SegmentReader) :
  _pick_zone_map_block setup cond index_reader j st = Done st' ->
  block_update j st st'.
Proof.
  unfold _pick_zone_map_block. intros Hrun. exec_inv Hrun. rename a into v.
  apply include_blocks_get_Done in Hm as (arr & Harr & Hj & Hv).
  destruct (decide (v = DEL_SATISFIED)) as [->|Hne].
  { injection Hrun as <-. by eapply block_update_refl. }
  exec_inv Hrun. clear Hm. exec_inv Hrun. clear Hm.
  destruct (cond_eval cond (column_statistic_pair a0)).
  - injection Hrun as <-. by eapply block_update_refl.
  - exec_inv Hrun. injection Hrun as <-.
    eapply (block_update_exclude st a1 j v arr (add_rows_stats_filtered setup j));
      done.
Qed.

Lemma _pick_bloom_filter_block_update (setup : ReaderSetup) (conds : Conditions)
  (i : ColumnId) (bf_reader : option BloomFilterIndexReader) (j : Z)
  (st st' : SegmentReader) :
  _pick_bloom_filter_block setup conds i bf_reader j st = Done st' ->
  block_update j st st'.
Proof.
  unfold _pick_bloom_filter_block. intros Hrun. exec_inv Hrun. rename a into v.
  apply include_blocks_get_Done in Hm as (arr & Harr & Hj & Hv).
  destruct (decide (v = DEL_SATISFIED)) as [->|Hne].
  { injection Hrun as <-. by eapply block_update_refl. }
  exec_inv Hrun. clear Hm. exec_inv Hrun. clear Hm. exec_inv Hrun. clear Hm.
  destruct (cond_eval_bf a a1).
  - injection Hrun as <-. by eapply block_update_refl.
  - exec_inv Hrun. injection Hrun as <-.
    eapply (block_update_exclude st a2 j v arr (add_rows_stats_filtered setup j));
      done.
Qed.

(** *** Consequences of [block_update] *)

Lemma block_update_other (j k : Z) (st st' : SegmentReader) :
  block_update j st st' -> k ≠ j ->
  block_disposition st' k = block_disposition st k.
Proof.
  intros (arr & v & v' & Harr & Hj & Hv & Harr' & _) Hk.
  unfold block_disposition. rewrite Harr, Harr'.
  case_decide; [|done]. apply list_lookup_insert_ne. lia.
Qed.

Lemma block_update_excluded (j k : Z) (st st' : SegmentReader) :
  block_update j st st' ->
  block_disposition st k = Some Excluded ->
  block_disposition st' k = Some Excluded.
Proof.
  intros Hup Hk. destruct (decide (k = j)) as [->|Hne].
  - destruct Hup as (arr & v & v' & Harr & Hj & Hv & Harr' & Hkeep & _).
    unfold block_disposition in *. rewrite Harr in Hk. rewrite Harr'.
    case_decide; [|done]. assert (v = Excluded) as -> by congruence.
    rewrite (Hkeep eq_refl). apply list_lookup_insert_eq.
    by eapply lookup_lt_Some.
  - by rewrite (block_update_other j k st st').
Qed.

Lemma block_update_indices (j : Z) (st st' : SegmentReader) :
  block_update j st st' ->
  _indices st' = _indices st /\ _bloom_filters st' = _bloom_filters st
  /\ _block_count st' = _block_count st.
Proof. intros (arr & v & v' & _ & _ & _ & _ & _ & _ & ? & ? & ?). done. Qed.

Lemma block_update_array (j : Z) (st st' : SegmentReader) (arr : list Z) :
  block_update j st st' -> _include_blocks st = Some arr ->
  exists arr', _include_blocks st' = Some arr'
               /\ List.length arr' = List.length arr.
Proof.
  intros (arr0 & v & v' & Harr & _ & _ & Harr' & _) Harr0.
  assert (arr0 = arr) as -> by congruence.
  eexists. split; [done|]. apply length_insert.
Qed.

(** With a consistent counter, a visit subtracts one exactly when the block
    becomes [Excluded], without wrapping, and the counter stays consistent. *)
Lemma block_update_counter (j : Z) (st st' : SegmentReader) :
  counter_consistent st -> block_update j st st' ->
  _remain_block st'
  = _remain_block st - (if decide (enters_excluded j st st') then 1 else 0)
  /\ counter_consistent st'.
Proof.
  intros (arr0 & Harr0 & Hrange & Hcount)
         (arr & v & v' & Harr & Hj & Hv & Harr' & Hkeep & Hrem & _).
  assert (arr0 = arr) as -> by congruence.
  pose proof (count_remaining_insert arr (Z.to_nat j) v v' Hv) as Hins.
  pose proof (count_remaining_nonneg (<[Z.to_nat j:=v']> arr)) as Hnn.
  assert (Hlt : (Z.to_nat j < List.length arr)%nat) by by eapply lookup_lt_Some.
  assert (Hd : block_disposition st j = Some v).
  { unfold block_disposition. rewrite Harr. by rewrite decide_True. }
  assert (Hd' : block_disposition st' j = Some v').
  { unfold block_disposition. rewrite Harr'. rewrite decide_True by done.
    by apply list_lookup_insert_eq. }
  assert (Hen : enters_excluded j st st' <-> v ≠ DEL_SATISFIED /\ v' = DEL_SATISFIED).
  { unfold enters_excluded, Excluded. rewrite Hd, Hd'.
    split; intros [? ?]; split; congruence. }
  unfold counter_consistent. rewrite Harr', Hrem.
  destruct (decide (v ≠ DEL_SATISFIED /\ v' = DEL_SATISFIED)) as [[Hv0 ->]|Hno].
  - rewrite (decide_True (P := enters_excluded j st st')) by by apply Hen.
    rewrite decide_True in Hins by done.
    rewrite decide_False in Hins by (intros ?; done).
    assert (wrap32 (_remain_block st - 1) = _remain_block st - 1) as ->.
    { unfold wrap32. apply Z.mod_small. lia. }
    split; [done|]. eexists. split; [done|]. lia.
  - rewrite (decide_False (P := enters_excluded j st st'))
      by (intros Hx; by apply Hno, Hen).
    split; [lia|]. eexists. split; [done|]. split; [done|].
    rewrite Hins, Hcount.
    destruct (decide (v = DEL_SATISFIED)) as [->|Hv0].
    + rewrite (Hkeep eq_refl). lia.
    + assert (v' ≠ DEL_SATISFIED) by (intros ->; apply Hno; done).
      rewrite !decide_True by done. lia.
Qed.

Lemma evaluation_update (setup : ReaderSetup) (j : Z) (st st' : SegmentReader) :
  evaluation setup j st st' -> block_update j st st'.
Proof.
  intros [dc j0 s s' Hrun|cond r j0 s s' Hrun|conds i r j0 s s' Hrun].
  - by eapply _pick_delete_block_update.
  - by eapply _pick_zone_map_block_update.
  - by eapply _pick_bloom_filter_block_update.
Qed.

Lemma reached_trans (setup : ReaderSetup) (st0 st1 st2 : SegmentReader) :
  reached setup st0 st1 -> reached setup st1 st2 -> reached setup st0 st2.
Proof.
  intros H01 H12. induction H12 as [|j s s' _ IH Hev]; [done|].
  by eapply reached_step.
Qed.

Lemma reached_counter_consistent (setup : ReaderSetup) (st0 st : SegmentReader) :
  counter_consistent st0 -> reached setup st0 st -> counter_consistent st.
Proof.
  intros H0 Hr. induction Hr as [|j s s' _ IH Hev]; [done|].
  eapply block_update_counter; [exact IH | by eapply evaluation_update].
Qed.

Lemma reached_excluded (setup : ReaderSetup) (st0 st : SegmentReader) (k : Z) :
  reached setup st0 st ->
  block_disposition st0 k = Some Excluded ->
  block_disposition st k = Some Excluded.
Proof.
  intros Hr H0. induction Hr as [|j s s' _ IH Hev]; [done|].
  eapply block_update_excluded; [by eapply evaluation_update | done].
Qed.

Lemma reached_indices (setup : ReaderSetup) (st0 st : SegmentReader) :
  reached setup st0 st ->
  _indices st = _indices st0 /\ _bloom_filters st = _bloom_filters st0
  /\ _block_count st = _block_count st0.
Proof.
  intros Hr. induction Hr as [|j s s' _ IH Hev]; [done|].
  apply evaluation_update, block_update_indices in Hev as (-> & -> & ->).
  exact IH.
Qed.

Lemma reached_counter_le (setup : ReaderSetup) (st0 st : SegmentReader) :
  counter_consistent st0 -> reached setup st0 st ->
  _remain_block st <= _remain_block st0.
Proof.
  intros H0 Hr. induction Hr as [|j s s' Hr IH Hev]; [lia|].
  pose proof (reached_counter_consistent setup st0 s H0 Hr) as Hs.
  apply evaluation_update in Hev.
  destruct (block_update_counter j s s' Hs Hev) as [-> _].
  case_decide; lia.
Qed.

(** *** The loops are sequences of evaluations *)

Lemma foldM_reached {A : Type} (setup : ReaderSetup)
  (body : A -> SegmentReader -> exec SegmentReader) (l : list A) :
  (forall a s s', a ∈ l -> body a s = Done s' -> reached setup s s') ->
  forall s s', foldM body l s = Done s' -> reached setup s s'.
Proof.
  intros Hbody s s' Hrun.
  eapply (foldM_preserves body (reached setup s) l); [| exact Hrun | constructor].
  intros a t t' Ha Hb Hr. eapply reached_trans; [exact Hr | by eapply Hbody].
Qed.

Lemma _pick_delete_condition_reached (setup : ReaderSetup)
  (first_block last_block : Z) (dc : DeleteConditions) (st st' : SegmentReader) :
  _pick_delete_condition setup first_block last_block dc st = Done st' ->
  reached setup st st'.
Proof.
  unfold _pick_delete_condition. case_decide.
  - intros [= <-]. constructor.
  - apply foldM_reached. intros j s s' _ Hb.
    eapply reached_step; [constructor | by eapply delete_evaluation].
Qed.

Lemma _pick_delete_row_groups_reached (setup : ReaderSetup)
  (first_block last_block : Z) (res : OLAPStatus) (st st' : SegmentReader) :
  _pick_delete_row_groups setup st first_block last_block = Done (res, st') ->
  reached setup st st' /\ res = OLAP_SUCCESS.
Proof.
  unfold _pick_delete_row_groups.
  destruct (delete_handler_empty _); [intros [= <- <-]; split; [constructor|done]|].
  case_decide; [intros [= <- <-]; split; [constructor|done]|].
  intros Hrun. exec_inv Hrun. injection Hrun as <- <-. split; [|done].
  revert Hm. apply foldM_reached. intros dc s s' _.
  apply _pick_delete_condition_reached.
Qed.

Lemma zone_map_phase_reached (setup : ReaderSetup) (conds : Conditions)
  (first_block last_block : Z) (st st' : SegmentReader) :
  zone_map_phase setup conds first_block last_block st = Done st' ->
  reached setup st st'.
Proof.
  unfold zone_map_phase. apply foldM_reached. intros i s s' _.
  unfold _pick_zone_map_column.
  destruct (_get_aggregation_by_index setup i.1); [|intros [= <-]; constructor].
  case_decide; [intros [= <-]; constructor|].
  apply foldM_reached. intros j t t' _ Hb.
  eapply reached_step; [constructor | by eapply zone_map_evaluation].
Qed.

Lemma bloom_filter_phase_reached (setup : ReaderSetup) (conds : Conditions)
  (first_block last_block : Z) (st st' : SegmentReader) :
  bloom_filter_phase setup conds first_block last_block st = Done st' ->
  reached setup st st'.
Proof.
  unfold bloom_filter_phase. apply foldM_reached. intros i s s' _.
  unfold _pick_bloom_filter_column.
  destruct (_get_aggregation_by_index setup i); [|intros [= <-]; constructor].
  case_decide; [intros [= <-]; constructor|].
  apply foldM_reached. intros j t t' _ Hb.
  eapply reached_step; [constructor | by eapply bloom_filter_evaluation].
Qed.

Lemma _pick_row_groups_phases_reached (setup : ReaderSetup)
  (first_block last_block : Z) (r : pick_return) (st st' : SegmentReader) :
  _pick_row_groups_phases setup st first_block last_block = Done (r, st') ->
  reached setup st st'.
Proof.
  unfold _pick_row_groups_phases. intros Hrun. exec_inv Hrun.
  destruct a as [res st1].
  apply _pick_delete_row_groups_reached in Hm as [H1 _].
  destruct (_conditions setup) as [conds|]; [|by injection Hrun as <- <-].
  case_decide; [by injection Hrun as <- <-|].
  exec_inv Hrun. rename a into st2. apply zone_map_phase_reached in Hm.
  case_decide.
  - injection Hrun as <- <-. by eapply reached_trans.
  - exec_inv Hrun. injection Hrun as <- <-.
    apply bloom_filter_phase_reached in Hm0.
    eapply reached_trans; [|exact Hm0]. by eapply reached_trans.
Qed.

Lemma later_step_reached (setup : ReaderSetup) (first_block last_block : Z)
  (st st' : SegmentReader) :
  later_step setup first_block last_block st st' -> reached setup st st'.
Proof.
  intros [j s s' Hev|dc s s' Hrun|res s s' Hrun|conds s s' Hrun|conds s s' Hrun
         |r s s' Hrun].
  - eapply reached_step; [constructor | done].
  - by eapply _pick_delete_condition_reached.
  - by eapply _pick_delete_row_groups_reached.
  - by eapply zone_map_phase_reached.
  - by eapply bloom_filter_phase_reached.
  - by eapply _pick_row_groups_phases_reached.
Qed.

(** *** The initial array *)

Lemma memset_fill (arr : list Z) (v n : Z) :
  Z.of_nat (List.length arr) = n ->
  memset arr 0 v n = Done (replicate (Z.to_nat n) v).
Proof.
  intros Hn. unfold memset. rewrite decide_True by lia.
  rewrite Z.add_0_l. change (Z.to_nat 0) with 0%nat. rewrite take_0. simpl.
  rewrite drop_ge by lia. by rewrite app_nil_r.
Qed.

Lemma memset_range (bc first_block n : Z) :
  0 <= first_block -> 0 <= n -> first_block + n <= bc ->
  memset (replicate (Z.to_nat bc) 0) first_block 1 n
  = Done (replicate (Z.to_nat first_block) 0 ++ replicate (Z.to_nat n) 1
          ++ replicate (Z.to_nat (bc - first_block - n)) 0).
Proof.
  intros Hf Hn Hle. unfold memset. rewrite length_replicate.
  rewrite decide_True by lia. rewrite take_replicate, drop_replicate.
  do 2 f_equal; [f_equal; lia|]. do 2 f_equal. lia.
Qed.

Lemma initial_blocks_length (bc first_block last_block : Z) :
  0 <= first_block -> first_block <= last_block -> last_block < bc ->
  Z.of_nat (List.length (initial_blocks bc first_block last_block)) = bc.
Proof.
  intros. unfold initial_blocks. rewrite !length_app, !length_replicate. lia.
Qed.


Lemma initial_blocks_count (bc first_block last_block : Z) :
  first_block <= last_block ->
  count_remaining (initial_blocks bc first_block last_block)
  = last_block - first_block + 1.
Proof.
  intros Hfl. unfold initial_blocks. rewrite !count_remaining_app.
  rewrite !(count_remaining_replicate_0 _), (count_remaining_replicate_1 _). lia.
Qed.

Lemma _init_include_blocks_spec (setup : ReaderSetup) (st : SegmentReader)
  (first_block last_block : Z) :
  0 <= first_block -> first_block <= last_block ->
  last_block < _block_count st ->
  _remain_block st = last_block - first_block + 1 ->
  array_available st ->
  _init_include_blocks setup st first_block last_block
  = Done (OLAP_SUCCESS,
          set_include_blocks
            (Some (initial_blocks (_block_count st) first_block last_block)) st).
Proof.
  intros Hf Hfl Hl Hrem Hav. unfold _init_include_blocks, array_available in *.
  assert (Hgo : forall arr, Z.of_nat (List.length arr) = _block_count st ->
    exec_then (memset arr 0 0 (_block_count st)) (fun arr1 =>
      exec_then (memset arr1 first_block 1 (_remain_block st)) (fun arr2 =>
        Done (OLAP_SUCCESS, set_include_blocks (Some arr2) st)))
    = Done (OLAP_SUCCESS,
            set_include_blocks
              (Some (initial_blocks (_block_count st) first_block last_block)) st)).
  { intros arr Hlen. rewrite (memset_fill arr 0 _ Hlen). simpl.
    rewrite Hrem, memset_range by lia. done. }
  destruct (_include_blocks st) as [arr|].
  - by apply Hgo.
  - rewrite Hav. apply Hgo. rewrite length_replicate. lia.
Qed.


(** *** Delete conditions that do not match *)

Lemma del_eval_columns_indices (setup : ReaderSetup) (st st' : SegmentReader)
  (cols : list (ColumnId * CondColumn)) (j : Z) (partial : bool) :
  _indices st' = _indices st ->
  del_eval_columns setup st' cols j partial
  = del_eval_columns setup st cols j partial.
Proof.
  intros Hi. revert partial. induction cols as [|[c cond] cols IH]; intros partial;
    simpl; [done|].
  case_decide; [apply IH|]. rewrite Hi.
  destruct (deref (_indices st !! _)) as [r|f]; simpl; [|done].
  destruct (entry r j) as [e|f]; simpl; [|done].
  repeat case_decide; by rewrite ?IH.
Qed.

Lemma _pick_delete_block_no_match (setup : ReaderSetup) (dc : DeleteConditions)
  (j : Z) (st : SegmentReader) (p : bool) :
  block_disposition st j = Some RequiresRowFilter ->
  del_eval_columns setup st (columns (del_cond dc)) j false = Done (p, true) ->
  _pick_delete_block setup dc j st = Done st.
Proof.
  intros Hd Hev. unfold _pick_delete_block, include_blocks_get.
  unfold block_disposition in Hd.
  destruct (_include_blocks st) as [arr|]; [|done]. simpl.
  case_decide; [|done]. unfold at_index. rewrite decide_True by done.
  rewrite Hd. simpl. by rewrite Hev.
Qed.

Lemma _pick_delete_condition_no_match (setup : ReaderSetup)
  (first_block last_block : Z) (dc : DeleteConditions) (st st' : SegmentReader)
  (k : Z) (p : bool) :
  block_disposition st k = Some RequiresRowFilter ->
  del_eval_columns setup st (columns (del_cond dc)) k false = Done (p, true) ->
  _pick_delete_condition setup first_block last_block dc st = Done st' ->
  block_disposition st' k = Some RequiresRowFilter.
Proof.
  intros Hd Hev. unfold _pick_delete_condition. case_decide; [by intros [= <-]|].
  intros Hrun.
  enough (block_disposition st' k = Some RequiresRowFilter
          /\ _indices st' = _indices st) as [? _] by done.
  eapply (foldM_preserves (_pick_delete_block setup dc)
            (fun s => block_disposition s k = Some RequiresRowFilter
                      /\ _indices s = _indices st)); [| exact Hrun | done].
  intros j s s' _ Hb [Hs Hi].
  destruct (decide (j = k)) as [->|Hne].
  - rewrite (_pick_delete_block_no_match setup dc k s p) in Hb;
      [by injection Hb as <- | done |].
    by rewrite (del_eval_columns_indices setup st s).
  - apply _pick_delete_block_update in Hb.
    rewrite (block_update_other j k s s') by done.
    apply block_update_indices in Hb as (-> & _). done.
Qed.

(** ** The pruning returns *)

Lemma at_index_lookup {A : Type} (l : list A) (j : Z) :
  0 <= j < Z.of_nat (List.length l) -> exists a, at_index l j = Done a.
Proof.
  intros Hj. unfold at_index. rewrite decide_True by lia.
  destruct (lookup_lt_is_Some_2 l (Z.to_nat j)) as [a ->]; [lia|]. eauto.
Qed.

Lemma block_update_pruning_state (st0 : SegmentReader) (last_block j : Z)
  (st st' : SegmentReader) :
  block_update j st st' -> pruning_state st0 last_block st ->
  pruning_state st0 last_block st'.
Proof.
  intros Hup ((arr & Harr & Hlen) & Hi & Hb).
  destruct (block_update_array j st st' arr Hup Harr) as (arr' & Harr' & Hlen').
  destruct (block_update_indices j st st' Hup) as (Hi' & Hb' & _).
  split; [|split; congruence].
  exists arr'. split; [done|]. rewrite Hlen'. done.
Qed.

Lemma include_blocks_get_returns (st0 : SegmentReader) (last_block j : Z)
  (st : SegmentReader) :
  pruning_state st0 last_block st -> 0 <= j <= last_block ->
  exists v, include_blocks_get st j = Done v.
Proof.
  intros ((arr & Harr & Hlen) & _) Hj. unfold include_blocks_get.
  rewrite Harr. simpl. apply at_index_lookup. lia.
Qed.

Lemma include_blocks_set_returns (st0 : SegmentReader) (last_block j v : Z)
  (st : SegmentReader) :
  pruning_state st0 last_block st -> 0 <= j <= last_block ->
  exists st', include_blocks_set st j v = Done st'.
Proof.
  intros ((arr & Harr & Hlen) & _) Hj. unfold include_blocks_set.
  rewrite Harr. simpl. rewrite decide_True by lia. eauto.
Qed.

Lemma del_eval_columns_returns (setup : ReaderSetup) (st0 st : SegmentReader)
  (last_block j : Z) (cols : list (ColumnId * CondColumn)) :
  _indices st = _indices st0 -> 0 <= j <= last_block ->
  (forall col, col ∈ cols -> zone_map_loaded setup st0 last_block col.1) ->
  forall p, exists r, del_eval_columns setup st cols j p = Done r.
Proof.
  intros Hi Hj. induction cols as [|[t c] cols IH]; intros Hcols p; simpl.
  - eauto.
  - assert (Hrest : forall col, col ∈ cols ->
                                zone_map_loaded setup st0 last_block col.1).
    { intros col Hcol. apply Hcols. by right. }
    case_decide as Hseg; [by apply IH|].
    destruct (Hcols (t, c)) as (r & Hr & Hlen); [by left | done |].
    simpl in Hr. rewrite Hi, Hr. simpl.
    destruct (at_index_lookup (sir_entries r) j) as [e He].
    { unfold entry_count in Hlen. lia. }
    unfold entry. rewrite He. simpl.
    repeat case_decide; eauto.
Qed.

Lemma _pick_delete_block_returns (setup : ReaderSetup) (st0 : SegmentReader)
  (last_block j : Z) (dc : DeleteConditions) (st : SegmentReader) :
  pruning_state st0 last_block st -> 0 <= j <= last_block ->
  (forall col, col ∈ columns (del_cond dc) ->
               zone_map_loaded setup st0 last_block col.1) ->
  exists st', _pick_delete_block setup dc j st = Done st'
              /\ pruning_state st0 last_block st'.
Proof.
  intros Hst Hj Hcols.
  assert (Hrun : exists st', _pick_delete_block setup dc j st = Done st').
  { unfold _pick_delete_block.
    destruct (include_blocks_get_returns st0 last_block j st Hst Hj) as [v ->].
    simpl. case_decide; [eauto|].
    destruct (del_eval_columns_returns setup st0 st last_block j
                (columns (del_cond dc)) (proj1 (proj2 Hst)) Hj Hcols false)
      as [[dp dn] ->]. simpl.
    destruct (dn || bool_decide (List.length (columns (del_cond dc)) = 0%nat)).
    - case_decide; [eauto|].
      by eapply include_blocks_set_returns.
    - destruct dp; [by eapply include_blocks_set_returns|].
      destruct (include_blocks_set_returns st0 last_block j DEL_SATISFIED st Hst Hj)
        as [st1 ->]. simpl. eauto. }
  destruct Hrun as [st' Hrun]. exists st'. split; [done|].
  eapply block_update_pruning_state; [|done].
  by eapply _pick_delete_block_update.
Qed.

Lemma _pick_zone_map_block_returns (setup : ReaderSetup) (st0 : SegmentReader)
  (last_block j : Z) (cond : CondColumn) (r : StreamIndexReader)
  (st : SegmentReader) :
  pruning_state st0 last_block st -> 0 <= j <= last_block ->
  last_block < entry_count r ->
  exists st', _pick_zone_map_block setup cond (Some r) j st = Done st'
              /\ pruning_state st0 last_block st'.
Proof.
  intros Hst Hj Hlen.
  assert (Hrun : exists st', _pick_zone_map_block setup cond (Some r) j st = Done st').
  { unfold _pick_zone_map_block.
    destruct (include_blocks_get_returns st0 last_block j st Hst Hj) as [v ->].
    simpl. case_decide; [eauto|].
    destruct (at_index_lookup (sir_entries r) j) as [e He].
    { unfold entry_count in Hlen. lia. }
    unfold entry. rewrite He. simpl.
    destruct (cond_eval cond (column_statistic_pair e)); [eauto|].
    destruct (include_blocks_set_returns st0 last_block j DEL_SATISFIED st Hst Hj)
      as [st1 ->]. simpl. eauto. }
  destruct Hrun as [st' Hrun]. exists st'. split; [done|].
  eapply block_update_pruning_state; [|done].
  by eapply _pick_zone_map_block_update.
Qed.

Lemma _pick_bloom_filter_block_returns (setup : ReaderSetup)
  (st0 : SegmentReader) (last_block j : Z) (conds : Conditions) (i : ColumnId)
  (cond : CondColumn) (r : BloomFilterIndexReader) (st : SegmentReader) :
  pruning_state st0 last_block st -> 0 <= j <= last_block ->
  columns_at (columns conds) i = Done cond ->
  last_block < bf_entry_count r ->
  exists st', _pick_bloom_filter_block setup conds i (Some r) j st = Done st'
              /\ pruning_state st0 last_block st'.
Proof.
  intros Hst Hj Hcond Hlen.
  assert (Hrun : exists st',
             _pick_bloom_filter_block setup conds i (Some r) j st = Done st').
  { unfold _pick_bloom_filter_block.
    destruct (include_blocks_get_returns st0 last_block j st Hst Hj) as [v ->].
    simpl. case_decide; [eauto|]. rewrite Hcond. simpl.
    destruct (at_index_lookup (bfr_entries r) j) as [e He].
    { unfold bf_entry_count in Hlen. lia. }
    unfold bf_entry. rewrite He. simpl.
    destruct (cond_eval_bf cond e); [eauto|].
    destruct (include_blocks_set_returns st0 last_block j DEL_SATISFIED st Hst Hj)
      as [st1 ->]. simpl. eauto. }
  destruct Hrun as [st' Hrun]. exists st'. split; [done|].
  eapply block_update_pruning_state; [|done].
  by eapply _pick_bloom_filter_block_update.
Qed.

Lemma _pick_delete_row_groups_returns (setup : ReaderSetup)
  (st0 : SegmentReader) (first_block last_block : Z) (st : SegmentReader) :
  0 <= first_block -> pruning_ready setup st0 last_block ->
  pruning_state st0 last_block st ->
  exists res st', _pick_delete_row_groups setup st first_block last_block
                  = Done (res, st')
                  /\ pruning_state st0 last_block st'.
Proof.
  intros Hf [Hdel _] Hst. unfold _pick_delete_row_groups.
  destruct (delete_handler_empty (_delete_handler setup)); [eauto|].
  case_decide; [eauto|].
  destruct (foldM_total (_pick_delete_condition setup first_block last_block)
              (pruning_state st0 last_block)
              (get_delete_conditions (_delete_handler setup))) with (s := st)
    as (st' & -> & Hst'); [|done|simpl; eauto].
  intros dc s Hdc Hs. unfold _pick_delete_condition. case_decide; [eauto|].
  apply foldM_total; [|done].
  intros j s1 Hj Hs1. apply elem_of_block_range in Hj.
  apply _pick_delete_block_returns; [done | lia |].
  intros col Hcol. by eapply Hdel.
Qed.

Lemma zone_map_phase_returns (setup : ReaderSetup) (st0 : SegmentReader)
  (first_block last_block : Z) (conds : Conditions) (st : SegmentReader) :
  0 <= first_block ->
  (forall col, col ∈ columns conds ->
               zone_map_loaded setup st0 last_block col.1) ->
  pruning_state st0 last_block st ->
  exists st', zone_map_phase setup conds first_block last_block st = Done st'
              /\ pruning_state st0 last_block st'.
Proof.
  intros Hf Hcols Hst. unfold zone_map_phase. apply foldM_total; [|done].
  intros col s Hcol Hs. unfold _pick_zone_map_column.
  destruct (_get_aggregation_by_index setup col.1); [|eauto].
  case_decide as Hseg; [eauto|].
  destruct (Hcols col Hcol Hseg) as (r & Hr & Hlen).
  destruct Hs as (Harr & Hi & Hb). rewrite Hi, Hr.
  apply foldM_total; [|done].
  intros j s1 Hj Hs1. apply elem_of_block_range in Hj.
  apply _pick_zone_map_block_returns; [done | lia | done].
Qed.

Lemma bloom_filter_phase_returns (setup : ReaderSetup) (st0 : SegmentReader)
  (first_block last_block : Z) (conds : Conditions) (st : SegmentReader) :
  0 <= first_block ->
  (forall i, i ∈ _load_bf_columns setup ->
             bloom_filter_loaded setup st0 last_block conds i) ->
  pruning_state st0 last_block st ->
  exists st', bloom_filter_phase setup conds first_block last_block st = Done st'
              /\ pruning_state st0 last_block st'.
Proof.
  intros Hf Hcols Hst. unfold bloom_filter_phase. apply foldM_total; [|done].
  intros i s Hi Hs. unfold _pick_bloom_filter_column.
  destruct (_get_aggregation_by_index setup i); [|eauto].
  case_decide as Hseg; [eauto|].
  destruct (Hcols i Hi Hseg) as ((cond & Hcond) & r & Hr & Hlen).
  destruct Hs as (Harr & Hix & Hb). rewrite Hb, Hr.
  apply foldM_total; [|done].
  intros j s1 Hj Hs1. apply elem_of_block_range in Hj.
  eapply _pick_bloom_filter_block_returns; [done | lia | done | done].
Qed.

(** On a range inside the segment and with the index structures loaded that
    the pruning reads, [_pick_row_groups] returns. *)
Lemma _pick_row_groups_returns (setup : ReaderSetup) (st : SegmentReader)
  (first_block last_block : Z) :
  0 <= first_block -> first_block <= last_block ->
  last_block < _block_count st ->
  _remain_block st = last_block - first_block + 1 ->
  array_available st ->
  pruning_ready setup st last_block ->
  exists r st', _pick_row_groups setup st first_block last_block = Done (r, st')
                /\ pick_status r = OLAP_SUCCESS.
Proof.
  intros Hf Hfl Hl Hrem Hav Hready.
  unfold _pick_row_groups. rewrite decide_False by lia.
  rewrite (_init_include_blocks_spec setup st first_block last_block) by done.
  simpl.
  set (st0 := set_include_blocks _ st).
  assert (Hst0 : pruning_state st last_block st0).
  { split; [|done]. eexists. split; [done|].
    rewrite initial_blocks_length by done. done. }
  unfold _pick_row_groups_phases.
  destruct (_pick_delete_row_groups_returns setup st first_block last_block st0
              Hf Hready Hst0) as (res & st1 & -> & Hst1). simpl.
  destruct (_conditions setup) as [conds|] eqn:Hconds; [|eauto].
  case_decide; [eauto|].
  destruct Hready as [_ Hready]. destruct (Hready conds Hconds) as [Hzone Hbloom].
  destruct (zone_map_phase_returns setup st first_block last_block conds st1
              Hf Hzone Hst1) as (st2 & -> & Hst2). simpl.
  case_decide; [eauto|].
  destruct (bloom_filter_phase_returns setup st first_block last_block conds st2
              Hf Hbloom Hst2) as (st3 & -> & Hst3). simpl. eauto.
Qed.
(** ** Claims about the pruning engine *)


(** C10.  In a run of [_pick_row_groups] on a range inside the segment, the
    counter starts at the size of the range; every evaluation of a block
    (delete condition, zone map, bloom filter) leaves it unchanged or
    subtracts exactly one, and subtracts one exactly when that block becomes
    [Excluded]; a block that became [Excluded] never does so again; at the
    end the counter is the number of blocks that are not [Excluded]; and the
    run does end when the index structures it reads are loaded. *)
Theorem C10_remaining_block_counter (setup : ReaderSetup) (st : SegmentReader)
  (first_block last_block : Z) :
  0 <= first_block -> first_block <= last_block ->
  last_block < _block_count st ->
  _remain_block st = last_block - first_block + 1 ->
  last_block - first_block + 1 < 2 ^ 32 ->
  array_available st ->
  exists st0,
    _init_include_blocks setup st first_block last_block = Done (OLAP_SUCCESS, st0)
    /\ _remain_block st0 = last_block - first_block + 1
    /\ (forall st1 st2 j,
          reached setup st0 st1 -> evaluation setup j st1 st2 ->
          _remain_block st2
          = _remain_block st1
            - (if decide (enters_excluded j st1 st2) then 1 else 0)
          /\ 0 <= _remain_block st2
          /\ (forall k, k ≠ j -> ~ enters_excluded k st1 st2)
          /\ (forall st3 st4 j',
                enters_excluded j st1 st2 ->
                reached setup st2 st3 -> evaluation setup j' st3 st4 ->
                ~ enters_excluded j st3 st4))
    /\ (forall r st',
          _pick_row_groups setup st first_block last_block = Done (r, st') ->
          reached setup st0 st'
          /\ _remain_block st' <= last_block - first_block + 1
          /\ exists arr, _include_blocks st' = Some arr
                         /\ _remain_block st' = count_remaining arr)
    /\ (pruning_ready setup st last_block ->
        exists r st',
          _pick_row_groups setup st first_block last_block = Done (r, st')).
Proof.
  intros Hf Hfl Hl Hrem H32 Hav.
  pose proof (_init_include_blocks_spec setup st first_block last_block
                Hf Hfl Hl Hrem Hav) as Hinit.
  set (st0 := set_include_blocks
                (Some (initial_blocks (_block_count st) first_block last_block)) st)
    in *.
  assert (Hc0 : counter_consistent st0).
  { eexists. split; [done|]. simpl.
    rewrite initial_blocks_count by done. lia. }
  exists st0. split; [done|]. split; [done|]. split; [|split].
  - intros st1 st2 j Hr Hev.
    pose proof (reached_counter_consistent setup st0 st1 Hc0 Hr) as Hc1.
    pose proof (evaluation_update setup j st1 st2 Hev) as Hup.
    destruct (block_update_counter j st1 st2 Hc1 Hup) as [Heq Hc2].
    split; [done|]. split; [destruct Hc2 as (? & _ & ? & _); lia|]. split.
    + intros k Hk [Hne Hex]. rewrite (block_update_other j k st1 st2) in Hex; done.
    + intros st3 st4 j' [_ Hex] Hr3 Hev4 [Hne _]. apply Hne.
      by eapply reached_excluded.
  - intros r st' Hrun. unfold _pick_row_groups in Hrun.
    rewrite decide_False in Hrun by lia. rewrite Hinit in Hrun. simpl in Hrun.
    apply _pick_row_groups_phases_reached in Hrun.
    split; [done|]. split.
    + pose proof (reached_counter_le setup st0 st' Hc0 Hrun) as Hle.
      simpl in Hle. lia.
    + destruct (reached_counter_consistent setup st0 st' Hc0 Hrun)
        as (arr & ? & _ & ?). eauto.
  - intros Hready.
    destruct (_pick_row_groups_returns setup st first_block last_block
                Hf Hfl Hl Hrem Hav Hready) as (r & st' & Hrun & _).
    eauto.
Qed.

(** C2.  Once a block is [Excluded], no later evaluation, delete condition or
    phase (delete, zone map, bloom filter) changes it; and once a block is
    [RequiresRowFilter], a delete condition whose columns yield "not
    satisfied" for that block leaves the reader as it is when it visits the
    block, so the block is still [RequiresRowFilter] after the condition. *)
Theorem C2_disposition_strictness (setup : ReaderSetup)
  (first_block last_block : Z) :
  (forall st st' k,
     later_step setup first_block last_block st st' ->
     block_disposition st k = Some Excluded ->
     block_disposition st' k = Some Excluded)
  /\ (forall dc st k p,
        block_disposition st k = Some RequiresRowFilter ->
        del_eval_columns setup st (columns (del_cond dc)) k false = Done (p, true) ->
        _pick_delete_block setup dc k st = Done st
        /\ forall st',
             _pick_delete_condition setup first_block last_block dc st = Done st' ->
             block_disposition st' k = Some RequiresRowFilter).
Proof.
  split.
  - intros st st' k Hstep Hk. apply later_step_reached in Hstep.
    by eapply reached_excluded.
  - intros dc st k p Hk Hev. split.
    + by eapply _pick_delete_block_no_match.
    + intros st' Hrun. by eapply _pick_delete_condition_no_match.
Qed.

(** *** Delete conditions without columns *)

Lemma zero_column_result_cons (j : Z) (l : list Z) (k v : Z) :
  zero_column_result l k (zero_column_result [j] k v)
  = zero_column_result (j :: l) k v.
Proof.
  unfold zero_column_result.
  destruct (decide (k ∈ [j] /\ v ≠ Excluded /\ v ≠ RequiresRowFilter))
    as [(Hin & Hv1 & Hv2)|Hno].
  - apply list_elem_of_singleton in Hin as ->.
    rewrite (decide_True (P := j ∈ j :: l /\ _)) by (split; [by left|done]).
    by destruct (decide _).
  - destruct (decide (k ∈ l /\ v ≠ Excluded /\ v ≠ RequiresRowFilter))
      as [(Hin & Hv1 & Hv2)|Hno'].
    + rewrite decide_True; [done|]. split; [by right|done].
    + rewrite decide_False; [done|]. intros (Hin & Hv1 & Hv2).
      apply elem_of_cons in Hin as [->|Hin].
      * apply Hno. split; [by apply list_elem_of_singleton|done].
      * by apply Hno'.
Qed.

Lemma _pick_delete_block_zero_columns (setup : ReaderSetup)
  (dc : DeleteConditions) (j : Z) (st : SegmentReader) (arr : list Z) :
  columns (del_cond dc) = [] ->
  _include_blocks st = Some arr -> 0 <= j < Z.of_nat (List.length arr) ->
  exists st' arr',
    _pick_delete_block setup dc j st = Done st'
    /\ _include_blocks st' = Some arr'
    /\ List.length arr' = List.length arr
    /\ _remain_block st' = _remain_block st
    /\ forall k, block_disposition st' k
                 = zero_column_result [j] k <$> block_disposition st k.
Proof.
  intros Hcols Harr Hj.
  destruct (lookup_lt_is_Some_2 arr (Z.to_nat j)) as [v Hv]; [lia|].
  assert (Hsame : forall k, block_disposition st k
            = zero_column_result [j] k <$> block_disposition st k
            \/ (k = j /\ v ≠ Excluded /\ v ≠ RequiresRowFilter)).
  { intros k. unfold block_disposition. rewrite Harr.
    destruct (decide (k = j /\ v ≠ Excluded /\ v ≠ RequiresRowFilter)); [by right|].
    left. case_decide; [|done].
    destruct (arr !! Z.to_nat k) as [w|] eqn:Hw; [|done]. simpl. f_equal.
    unfold zero_column_result. rewrite decide_False; [done|].
    intros (Hin & ? & ?). apply list_elem_of_singleton in Hin as ->.
    assert (w = v) as -> by congruence. tauto. }
  unfold _pick_delete_block, include_blocks_get. rewrite Harr, Hcols. simpl.
  unfold at_index. rewrite decide_True by lia. rewrite Hv. simpl.
  destruct (decide (v = DEL_SATISFIED)) as [->|Hv0].
  { exists st, arr. do 4 (split; [done|]). intros k.
    destruct (Hsame k) as [?|(_ & ? & _)]; done. }
  destruct (decide (v = DEL_PARTIAL_SATISFIED)) as [->|Hv2].
  { exists st, arr. do 4 (split; [done|]). intros k.
    destruct (Hsame k) as [?|(_ & _ & ?)]; done. }
  unfold include_blocks_set. rewrite Harr. simpl. rewrite decide_True by lia.
  eexists _, _. split; [done|]. split; [done|].
  split; [apply length_insert|]. split; [done|]. intros k.
  unfold block_disposition. simpl. rewrite Harr. case_decide; [|done].
  destruct (decide (k = j)) as [->|Hne].
  - rewrite list_lookup_insert_eq by lia. rewrite Hv. simpl. f_equal.
    unfold zero_column_result. rewrite decide_True; [done|].
    split; [by apply list_elem_of_singleton|done].
  - rewrite list_lookup_insert_ne by lia.
    destruct (Hsame k) as [Hk|[? _]]; [|done].
    unfold block_disposition in Hk. rewrite Harr in Hk.
    by rewrite decide_True in Hk.
Qed.

Lemma foldM_delete_block_zero_columns (setup : ReaderSetup)
  (dc : DeleteConditions) (l : list Z) :
  columns (del_cond dc) = [] ->
  forall (st : SegmentReader) (arr : list Z),
    _include_blocks st = Some arr ->
    (forall j, j ∈ l -> 0 <= j < Z.of_nat (List.length arr)) ->
    exists st' arr',
      foldM (_pick_delete_block setup dc) l st = Done st'
      /\ _include_blocks st' = Some arr'
      /\ List.length arr' = List.length arr
      /\ _remain_block st' = _remain_block st
      /\ forall k, block_disposition st' k
                   = zero_column_result l k <$> block_disposition st k.
Proof.
  intros Hcols. induction l as [|j l IH]; intros st arr Harr Hl.
  - exists st, arr. do 4 (split; [done|]). intros k.
    destruct (block_disposition st k) as [v|]; [|done]. simpl.
    unfold zero_column_result. rewrite decide_False; [done|].
    intros [Hin _]. by apply elem_of_nil in Hin.
  - destruct (_pick_delete_block_zero_columns setup dc j st arr Hcols Harr)
      as (st1 & arr1 & Hb & Harr1 & Hlen1 & Hrem1 & Hd1); [apply Hl; by left|].
    destruct (IH st1 arr1 Harr1) as (st' & arr' & Hf & Harr' & Hlen' & Hrem' & Hd').
    { intros i Hi. rewrite Hlen1. apply Hl. by right. }
    exists st', arr'. simpl. rewrite Hb. simpl.
    split; [done|]. split; [done|]. split; [congruence|]. split; [congruence|].
    intros k. rewrite Hd', Hd1.
    destruct (block_disposition st k) as [v|]; [|done]. simpl.
    by rewrite zero_column_result_cons.
Qed.

(** C1 (as the code has it).  A delete condition that applies to the segment
    and has no columns is handled like one that does not match: over the
    requested range it leaves every [Excluded] and every [RequiresRowFilter]
    block as it is, makes every other block [Include], and does not touch
    the remaining-block counter. *)
Theorem C1_zero_column_condition_treated_as_no_match (setup : ReaderSetup)
  (dc : DeleteConditions) (first_block last_block : Z) (st : SegmentReader)
  (arr : list Z) :
  columns (del_cond dc) = [] ->
  filter_version dc > version_first setup ->
  _include_blocks st = Some arr ->
  0 <= first_block -> last_block < Z.of_nat (List.length arr) ->
  exists st',
    _pick_delete_condition setup first_block last_block dc st = Done st'
    /\ _remain_block st' = _remain_block st
    /\ forall k v,
         block_disposition st k = Some v ->
         block_disposition st' k
         = Some (if decide (first_block <= k <= last_block
                            /\ v ≠ Excluded /\ v ≠ RequiresRowFilter)
                 then Include else v).
Proof.
  intros Hcols Happ Harr Hf Hl.
  destruct (foldM_delete_block_zero_columns setup dc
              (block_range first_block last_block) Hcols st arr Harr)
    as (st' & arr' & Hrun & _ & _ & Hrem & Hd).
  { intros j Hj. apply elem_of_block_range in Hj. lia. }
  exists st'. unfold _pick_delete_condition. rewrite decide_False by lia.
  split; [done|]. split; [done|]. intros k v Hk. rewrite Hd, Hk. simpl.
  f_equal. unfold zero_column_result.
  destruct (decide (first_block <= k <= last_block
                    /\ v ≠ Excluded /\ v ≠ RequiresRowFilter)) as [Hyes|Hno].
  - rewrite decide_True; [done|]. rewrite elem_of_block_range. tauto.
  - rewrite decide_False; [done|]. rewrite elem_of_block_range. tauto.
Qed.

Lemma before_bloom_filter_reached (setup : ReaderSetup)
  (first_block last_block : Z) (st0 st2 : SegmentReader) :
  before_bloom_filter setup st0 first_block last_block = Done st2 ->
  reached setup st0 st2.
Proof.
  unfold before_bloom_filter. intros Hrun. exec_inv Hrun. destruct a as [res st1].
  apply _pick_delete_row_groups_reached in Hm as [H1 _].
  destruct (_conditions setup) as [conds|]; [|by injection Hrun as <-].
  case_decide; [by injection Hrun as <-|].
  apply zone_map_phase_reached in Hrun. by eapply reached_trans.
Qed.

(** C7 (as the code has it).  In a run of [_pick_row_groups] on a range
    inside the segment, the bloom-filter phase is entered exactly when there
    are user predicates and the counter measured after the delete-condition
    and zone-map phases is at least [MIN_FILTER_BLOCK_NUM = 10]; that counter
    is the number of blocks that are not [Excluded].  When the phase is not
    entered the reader is returned as those phases left it, and with user
    predicates and a counter below 10 the function leaves through the
    "bloom filter is ignored" return; when the phase is entered it ends with a
    counter no larger than before. *)
Theorem C7_bloom_filter_phase_threshold (setup : ReaderSetup)
  (st : SegmentReader) (first_block last_block : Z) (r : pick_return)
  (st' : SegmentReader) :
  0 <= first_block -> first_block <= last_block ->
  last_block < _block_count st ->
  _remain_block st = last_block - first_block + 1 ->
  last_block - first_block + 1 < 2 ^ 32 ->
  array_available st ->
  _pick_row_groups setup st first_block last_block = Done (r, st') ->
  exists st0 st2,
    _init_include_blocks setup st first_block last_block = Done (OLAP_SUCCESS, st0)
    /\ before_bloom_filter setup st0 first_block last_block = Done st2
    /\ counter_consistent st2
    /\ (r = ReturnFinished
        <-> has_conditions setup /\ MIN_FILTER_BLOCK_NUM <= _remain_block st2)
    /\ (r ≠ ReturnFinished -> st' = st2)
    /\ (has_conditions setup -> _remain_block st2 < MIN_FILTER_BLOCK_NUM ->
        r = ReturnBloomIgnored)
    /\ (r = ReturnFinished ->
        exists conds,
          _conditions setup = Some conds
          /\ bloom_filter_phase setup conds first_block last_block st2 = Done st')
    /\ _remain_block st' <= _remain_block st2.
Proof.
  intros Hf Hfl Hl Hrem H32 Hav Hrun.
  pose proof (_init_include_blocks_spec setup st first_block last_block
                Hf Hfl Hl Hrem Hav) as Hinit.
  set (st0 := set_include_blocks
                (Some (initial_blocks (_block_count st) first_block last_block)) st)
    in *.
  assert (Hc0 : counter_consistent st0).
  { eexists. split; [done|]. simpl.
    rewrite initial_blocks_count by done. lia. }
  unfold _pick_row_groups in Hrun. rewrite decide_False in Hrun by lia.
  rewrite Hinit in Hrun. simpl in Hrun.
  exists st0.
  assert (Hgoal : exists st2,
    before_bloom_filter setup st0 first_block last_block = Done st2
    /\ (r = ReturnFinished
        <-> has_conditions setup /\ MIN_FILTER_BLOCK_NUM <= _remain_block st2)
    /\ (r ≠ ReturnFinished -> st' = st2)
    /\ (has_conditions setup -> _remain_block st2 < MIN_FILTER_BLOCK_NUM ->
        r = ReturnBloomIgnored)
    /\ (r = ReturnFinished ->
        exists conds,
          _conditions setup = Some conds
          /\ bloom_filter_phase setup conds first_block last_block st2 = Done st')).
  { unfold _pick_row_groups_phases in Hrun. unfold before_bloom_filter, has_conditions.
    exec_inv Hrun. destruct a as [res st1]. rewrite Hm. simpl.
    destruct (_conditions setup) as [conds|].
    - destruct (decide (List.length (columns conds) = 0%nat)) as [Hz|Hnz].
      + injection Hrun as <- <-. exists st1. split; [done|].
        split; [split; [done|]|].
        * intros [Hne _]. destruct (columns conds); done.
        * split; [done|]. split; [|done].
          intros Hne. destruct (columns conds); done.
      + exec_inv Hrun. rename a into st2. exists st2. split; [done|].
        assert (Hcols : columns conds ≠ []).
        { intros Hnil. apply Hnz. by rewrite Hnil. }
        destruct (decide (_remain_block st2 < MIN_FILTER_BLOCK_NUM)) as [Hlt|Hge].
        * injection Hrun as <- <-. split; [split; [done|lia]|].
          split; [done|]. split; [done|]. done.
        * exec_inv Hrun. injection Hrun as <- <-.
          split; [split; [intros _; split; [done|lia] | done]|].
          split; [done|]. split; [lia|]. intros _. by exists conds.
    - injection Hrun as <- <-. exists st1. split; [done|].
      split; [split; [done|tauto]|]. split; [done|]. split; [tauto|done]. }
  destruct Hgoal as (st2 & Hbefore & Hiff & Hsame & Hign & Hrunbf).
  exists st2. split; [done|]. split; [done|].
  pose proof (before_bloom_filter_reached _ _ _ _ _ Hbefore) as Hr2.
  pose proof (reached_counter_consistent setup st0 st2 Hc0 Hr2) as Hc2.
  split; [done|]. split; [done|]. split; [done|]. split; [done|].
  split; [done|].
  assert (r = ReturnFinished \/ r ≠ ReturnFinished) as [Hfin|Hnot]
    by (destruct r; (by left) || (by right)).
  - destruct (Hrunbf Hfin) as (conds & _ & Hbf).
    apply bloom_filter_phase_reached in Hbf.
    by apply (reached_counter_le setup st2 st' Hc2).
  - rewrite (Hsame Hnot). lia.
Qed.

(** ** Stream offsets *)

Lemma flow_then_ext {S : Type} (m : exec (flow S)) (k1 k2 : S -> exec (flow S)) :
  (forall s, k1 s = k2 s) -> flow_then m k1 = flow_then m k2.
Proof.
  intros Hk. unfold flow_then. destruct m as [[s|res s]|f]; simpl; [apply Hk|done|done].
Qed.

Lemma flow_then_assoc {S : Type} (m : exec (flow S)) (k1 k2 : S -> exec (flow S)) :
  flow_then (flow_then m k1) k2 = flow_then m (fun s => flow_then (k1 s) k2).
Proof. unfold flow_then. by destruct m as [[s|res s]|f]. Qed.

Lemma for_each_stream_app {S : Type} (cast : Z -> Z)
  (body : Z -> StreamInfoMessage.t -> S -> exec (flow S))
  (pre post : list StreamInfoMessage.t) (stream_offset : Z) (s : S) :
  for_each_stream cast body (pre ++ post) stream_offset s
  = flow_then (for_each_stream cast body pre stream_offset s)
      (for_each_stream cast body post (offset_after cast stream_offset pre)).
Proof.
  revert stream_offset s. induction pre as [|m pre IH]; intros off s; simpl.
  - done.
  - rewrite flow_then_assoc. apply flow_then_ext. intros s1. apply IH.
Qed.




(** In [uint64_t] arithmetic the same equation holds modulo [2 ^ 64]. *)
Lemma offset_after_wrap64 (stream_offset : Z) (infos : list StreamInfoMessage.t) :
  0 <= stream_offset < 2 ^ 64 ->
  offset_after wrap64 stream_offset infos
  = wrap64 (stream_offset + lengths_sum infos).
Proof.
  revert stream_offset. induction infos as [|m infos IH]; intros off Hoff; simpl.
  - rewrite Z.add_0_r. unfold wrap64. by rewrite Z.mod_small.
  - rewrite IH by (unfold wrap64; apply Z.mod_pos_bound; lia).
    unfold wrap64. rewrite Zplus_mod_idemp_l. f_equal. lia.
Qed.


Lemma int64_of_small (z : Z) : 0 <= z < 2 ^ 63 -> int64_of z = z.
Proof. intros Hz. unfold int64_of. rewrite Z.mod_small by lia. lia. Qed.



(** ** Block counts of the index structures *)

Lemma _load_index_parse_Parsed (setup : ReaderSetup)
  (message : StreamInfoMessage.t) (type : Z) (stream_buffer : Buffer)
  (loc : load_index_locals) (st : SegmentReader)
  (s' : load_index_locals * SegmentReader) :
  _load_index_parse setup message type stream_buffer loc st = Parsed s' ->
  recorded_entry_count message s'.2 (_block_count s'.2).
Proof.
  unfold _load_index_parse, recorded_entry_count.
  destruct (decide (StreamInfoMessage.kind message = ROW_INDEX)) as [Hk|Hk].
  - destruct (negb _); [discriminate|].
    destruct (StreamIndexReader_init _ _ _ _) as [res entries].
    case_decide; [discriminate|]. intros [= <-]. simpl.
    eexists. split; [apply lookup_insert_eq | done].
  - destruct (negb _); [discriminate|].
    destruct (BloomFilterIndexReader_init _ _ _ _) as [res entries].
    case_decide; [discriminate|]. intros [= <-]. simpl.
    eexists. split; [apply lookup_insert_eq | done].
Qed.

Lemma _load_index_fetch_Parsed (setup : ReaderSetup) (stream_offset : Z)
  (message : StreamInfoMessage.t) (s s' : load_index_locals * SegmentReader) :
  _load_index_fetch setup stream_offset message s = Done (Parsed s') ->
  recorded_entry_count message s'.2 (_block_count s'.2).
Proof.
  unfold _load_index_fetch. destruct s as [loc st].
  case_decide; [discriminate|]. destruct (negb _); [discriminate|].
  intros Hrun. exec_inv Hrun.
  destruct (Cache_lookup _ _) as [handle|].
  - injection Hrun as Hrun. by eapply _load_index_parse_Parsed.
  - destruct (negb _); [discriminate|].
    destruct (read_all _ _) as [res stream_buffer].
    case_decide; [discriminate|].
    destruct (is_using_cache loc).
    + destruct (Cache_insert _ _ _ _) as [inserted cache].
      exec_inv Hrun. destruct inserted; [|discriminate].
      injection Hrun as Hrun. by eapply _load_index_parse_Parsed.
    + injection Hrun as Hrun. by eapply _load_index_parse_Parsed.
Qed.

(** An iteration that parsed a structure and let the loop go on has seen the
    expected block count. *)
Lemma _load_index_stream_Parsed_Next (setup : ReaderSetup) (stream_offset : Z)
  (message : StreamInfoMessage.t) (s s' s'' : load_index_locals * SegmentReader)
  (k : load_index_locals * SegmentReader ->
       exec (flow (load_index_locals * SegmentReader))) :
  _load_index_fetch setup stream_offset message s = Done (Parsed s') ->
  flow_then (_load_index_stream setup (expected_blocks_of setup)
               stream_offset message s) k = Done (Next s'') ->
  _block_count s'.2 = expected_blocks_of setup.
Proof.
  intros Hfetch. unfold _load_index_stream. rewrite Hfetch. simpl.
  unfold _load_index_check. case_decide as Hne; [discriminate|].
  intros _. destruct (decide (_block_count s'.2 = expected_blocks_of setup)); tauto.
Qed.

(** C4.  In a run of [_load_index], take any structure parsed earlier (the
    first one in particular) and any structure parsed after it.  [_block_count]
    holds the entry count of a structure right after it is parsed, and if the
    later structure's count differs from the earlier one's, [_load_index]
    returns [OLAP_ERR_FILE_FORMAT_ERROR] at the later structure. *)
Theorem C4_block_count_mismatch_is_format_error (setup : ReaderSetup)
  (using_cache : bool) (st : SegmentReader)
  (pre mid post : list StreamInfoMessage.t) (m0 m : StreamInfoMessage.t)
  (s0 s0' s1 s1' : load_index_locals * SegmentReader) :
  index_stream_init = OLAP_SUCCESS ->
  stream_info (_file_header setup) = pre ++ m0 :: mid ++ m :: post ->
  _load_index_loop setup pre (_header_length setup)
    (_load_index_start setup using_cache st) = Done (Next s0) ->
  _load_index_fetch setup (offset_after wrap64 (_header_length setup) pre) m0 s0
  = Done (Parsed s0') ->
  _load_index_loop setup (pre ++ m0 :: mid) (_header_length setup)
    (_load_index_start setup using_cache st) = Done (Next s1) ->
  _load_index_fetch setup
    (offset_after wrap64 (_header_length setup) (pre ++ m0 :: mid)) m s1
  = Done (Parsed s1') ->
  _block_count s1'.2 ≠ _block_count s0'.2 ->
  recorded_entry_count m0 s0'.2 (_block_count s0'.2)
  /\ recorded_entry_count m s1'.2 (_block_count s1'.2)
  /\ _load_index setup using_cache st = Done (OLAP_ERR_FILE_FORMAT_ERROR, s1'.2).
Proof.
  intros Hinit Hinfos Hpre Hfetch0 Hmid Hfetch Hne.
  split; [by eapply _load_index_fetch_Parsed|].
  split; [by eapply _load_index_fetch_Parsed|].
  assert (Hexp : _block_count s0'.2 = expected_blocks_of setup).
  { unfold _load_index_loop in *. rewrite for_each_stream_app, Hpre in Hmid.
    simpl in Hmid. by eapply _load_index_stream_Parsed_Next. }
  unfold _load_index. rewrite Hinit. rewrite decide_False by (intros Hx; by apply Hx).
  rewrite Hinfos.
  replace (pre ++ m0 :: mid ++ m :: post) with ((pre ++ m0 :: mid) ++ m :: post)
    by (by rewrite <- app_assoc).
  unfold _load_index_loop in Hmid. rewrite for_each_stream_app, Hmid. simpl.
  unfold _load_index_stream. rewrite Hfetch. simpl.
  unfold _load_index_check. rewrite decide_True by congruence. done.
Qed.

(** ** The block cursor and the batch loader *)

Lemma set_column_readers_id (st : SegmentReader) :
  set_column_readers (_column_readers st) st = st.
Proof. by destruct st. Qed.

Lemma seek_columns_frame (block_id : Z) (cids : list ColumnId)
  (st st' : SegmentReader) (res : OLAPStatus) :
  seek_columns block_id cids st = Done (res, st') ->
  exists readers, st' = set_column_readers readers st.
Proof.
  revert st. induction cids as [|cid cids IH]; intros st; simpl.
  - intros [= <- <-]. eexists. by rewrite set_column_readers_id.
  - intros Hrun. exec_inv Hrun. destruct a as [index_reader|]; [|by apply IH].
    exec_inv Hrun. exec_inv Hrun. exec_inv Hrun.
    destruct (reader_seek a1 a) as [r reader1]. exec_inv Hrun.
    case_decide.
    + case_decide; injection Hrun as <- <-; by eexists.
    + apply IH in Hrun as [readers ->]. by eexists.
Qed.

(** When column seeks do not fail, the loop of [_seek_to_block_directly] ends
    with success if it ends at all. *)
Lemma seek_columns_success (block_id : Z) (cids : list ColumnId)
  (st st' : SegmentReader) (res : OLAPStatus) :
  (forall r e, (reader_seek r e).1 = OLAP_SUCCESS) ->
  seek_columns block_id cids st = Done (res, st') -> res = OLAP_SUCCESS.
Proof.
  intros Hseek. revert st. induction cids as [|cid cids IH]; intros st; simpl.
  - by intros [= <- <-].
  - intros Hrun. exec_inv Hrun. destruct a as [index_reader|]; [|by eapply IH].
    exec_inv Hrun. exec_inv Hrun. exec_inv Hrun.
    pose proof (Hseek a1 a) as Hok.
    destruct (reader_seek a1 a) as [r reader1]. simpl in Hok. subst r.
    exec_inv Hrun. rewrite decide_False in Hrun by (intros Hx; by apply Hx).
    by eapply IH.
Qed.

Lemma next_vectors_frame (size : Z) (cids : list ColumnId)
  (st st' : SegmentReader) (res : OLAPStatus) :
  next_vectors size cids st = Done (res, st') ->
  exists readers, st' = set_column_readers readers st.
Proof.
  revert st. induction cids as [|cid cids IH]; intros st; simpl.
  - intros [= <- <-]. eexists. by rewrite set_column_readers_id.
  - intros Hrun. exec_inv Hrun. exec_inv Hrun.
    destruct (reader_next_vector a0 size) as [r reader1]. exec_inv Hrun.
    case_decide.
    + injection Hrun as <- <-. by eexists.
    + apply IH in Hrun as [readers ->]. by eexists.
Qed.

(** What a successful [_load_to_vectorized_row_batch] leaves behind. *)
Lemma _load_to_vectorized_row_batch_success (setup : ReaderSetup)
  (st st' : SegmentReader) (batch batch' : VectorizedRowBatch) (size : Z) :
  _load_to_vectorized_row_batch setup st batch size
  = Done (OLAP_SUCCESS, batch', st') ->
  batch_size batch' = size
  /\ limit batch' = limit batch
  /\ batch_columns batch' = batch_columns batch
  /\ _block_count st' = _block_count st
  /\ _end_block st' = _end_block st
  /\ _include_blocks st' = _include_blocks st
  /\ _next_block_id st' = _next_block_id st
  /\ _eof st' = _eof st
  /\ _without_filter st' = _without_filter st
  /\ (if decide (size = _num_rows_in_block setup)
      then _current_block_id st' = _current_block_id st + 1
           /\ _need_to_seek_block st' = _need_to_seek_block st
      else _need_to_seek_block st' = true)
  /\ raw_rows_read (_stats st') = int64_of (raw_rows_read (_stats st) + size).
Proof.
  unfold _load_to_vectorized_row_batch. intros Hrun. exec_inv Hrun.
  destruct a as [res st1]. apply next_vectors_frame in Hm as [readers ->].
  case_decide; [by injection Hrun as ? ? ?|]. exec_inv Hrun.
  destruct (decide (size = _num_rows_in_block setup));
    injection Hrun as <- <-; simpl; by repeat split.
Qed.

Lemma skip_excluded_exit (fuel : nat) (arr : list Z) (end_block block_id b : Z) :
  (Z.to_nat (end_block - block_id + 1) <= fuel)%nat ->
  skip_excluded fuel arr end_block block_id = Done b ->
  block_id <= b
  /\ (b > end_block \/ exists v, arr !! Z.to_nat b = Some v /\ v ≠ DEL_SATISFIED)
  /\ forall j, block_id <= j < b -> arr !! Z.to_nat j = Some DEL_SATISFIED.
Proof.
  revert block_id. induction fuel as [|fuel IH]; intros block_id Hfuel; simpl.
  - intros [= <-]. split; [lia|]. split; [left; lia | intros; lia].
  - case_decide as Hle.
    + intros Hrun. exec_inv Hrun. apply at_index_Done in Hm as [Hb Hv].
      case_decide as Hz.
      * subst a. apply IH in Hrun as (Hge & Hexit & Hskipped); [|lia].
        split; [lia|]. split; [done|]. intros j Hj.
        destruct (decide (j = block_id)) as [->|]; [done|]. apply Hskipped. lia.
      * injection Hrun as <-. split; [lia|]. split; [right; eauto|intros; lia].
    + intros [= <-]. split; [lia|]. split; [left; lia | intros; lia].
Qed.

Lemma for_each_stream_preserves {T : Type} (cast : Z -> Z)
  (body : Z -> StreamInfoMessage.t -> T -> exec (flow T)) (P : T -> Prop) :
  (forall off m s f, body off m s = Done f -> P s -> P (flow_state f)) ->
  forall infos off s f,
    for_each_stream cast body infos off s = Done f -> P s -> P (flow_state f).
Proof.
  intros Hbody. induction infos as [|m infos IH]; intros off s f; simpl.
  - by intros [= <-].
  - unfold flow_then. intros Hrun HP. exec_inv Hrun.
    pose proof (Hbody _ _ _ _ Hm HP) as HP1.
    destruct a as [s1|res s1]; [by eapply IH | by injection Hrun as <-].
Qed.

Lemma for_each_preserves {A T : Type} (body : A -> T -> exec (flow T))
  (P : T -> Prop) :
  (forall a s f, body a s = Done f -> P s -> P (flow_state f)) ->
  forall l s f, for_each body l s = Done f -> P s -> P (flow_state f).
Proof.
  intros Hbody. induction l as [|a l IH]; intros s f; simpl.
  - by intros [= <-].
  - unfold flow_then. intros Hrun HP. exec_inv Hrun.
    pose proof (Hbody _ _ _ Hm HP) as HP1.
    destruct a0 as [s1|res s1]; [by eapply IH | by injection Hrun as <-].
Qed.

Lemma _read_all_data_stream_frame (setup : ReaderSetup) (stream_offset : Z)
  (message : StreamInfoMessage.t) (st : SegmentReader) (f : flow SegmentReader) :
  _read_all_data_stream setup stream_offset message st = Done f ->
  _block_count (flow_state f) = _block_count st
  /\ _stats (flow_state f) = _stats st.
Proof.
  unfold _read_all_data_stream.
  case_decide; [by intros [= <-]|].
  destruct (_ && _); [by intros [= <-]|].
  destruct (_ || _); [by intros [= <-]|].
  destruct (negb _); [by intros [= <-]|].
  case_decide; by intros [= <-].
Qed.

Lemma _create_reader_column_frame (setup : ReaderSetup)
  (table_column_id : ColumnId) (st : SegmentReader) (f : flow SegmentReader) :
  _create_reader_column setup table_column_id st = Done f ->
  _block_count (flow_state f) = _block_count st
  /\ _stats (flow_state f) = _stats st.
Proof.
  unfold _create_reader_column.
  destruct (ColumnReader_create table_column_id) as [reader|]; [|by intros [= <-]].
  destruct (reader_init _ _ _) as [r reader1].
  case_decide; [by intros [= <-]|].
  intros Hb. exec_inv Hb. unfold vector_set in Hm.
  case_decide; [|discriminate]. injection Hm as <-. simpl in Hb.
  destruct (_indices st !! _).
  - exec_inv Hb. injection Hb as <-. unfold vector_set in Hm.
    case_decide; [|discriminate]. by injection Hm as <-.
  - by injection Hb as <-.
Qed.

Lemma _read_all_data_streams_frame (setup : ReaderSetup)
  (st st' : SegmentReader) (res : OLAPStatus) :
  _read_all_data_streams setup st = Done (res, st') ->
  _block_count st' = _block_count st /\ _stats st' = _stats st.
Proof.
  unfold _read_all_data_streams. intros Hrun. exec_inv Hrun.
  assert (_block_count (flow_state a) = _block_count st
          /\ _stats (flow_state a) = _stats st) as Hgoal.
  { eapply (for_each_stream_preserves int64_of (_read_all_data_stream setup)
              (fun s => _block_count s = _block_count st
                        /\ _stats s = _stats st)); [| exact Hm | done].
    intros off m s f Hb [Hs1 Hs2].
    apply _read_all_data_stream_frame in Hb as [-> ->]. done. }
  destruct a; by injection Hrun as <- <-.
Qed.

Lemma _create_reader_frame (setup : ReaderSetup)
  (st st' : SegmentReader) (res : OLAPStatus) :
  _create_reader setup st = Done (res, st') ->
  _block_count st' = _block_count st /\ _stats st' = _stats st.
Proof.
  unfold _create_reader. intros Hrun. exec_inv Hrun.
  match type of Hm with for_each _ _ ?s0 = _ =>
    assert (_block_count (flow_state a) = _block_count s0
            /\ _stats (flow_state a) = _stats s0) as Hgoal
  end.
  { eapply (for_each_preserves (_create_reader_column setup)
              (fun s => _block_count s = _block_count st
                        /\ _stats s = _stats st)); [| exact Hm | done].
    intros c s f Hb [Hs1 Hs2].
    apply _create_reader_column_frame in Hb as [-> ->]. done. }
  destruct a; by injection Hrun as <- <-.
Qed.


Lemma _seek_to_block_directly_cursor (st st1 : SegmentReader) (block_id : Z)
  (cids : list ColumnId) (res : OLAPStatus) :
  (forall r e, (reader_seek r e).1 = OLAP_SUCCESS) ->
  _seek_to_block_directly st block_id cids = Done (res, st1) ->
  res = OLAP_SUCCESS
  /\ _current_block_id st1 = block_id
  /\ _block_count st1 = _block_count st
  /\ _end_block st1 = _end_block st
  /\ _include_blocks st1 = _include_blocks st
  /\ _next_block_id st1 = _next_block_id st
  /\ _eof st1 = _eof st
  /\ _without_filter st1 = _without_filter st
  /\ _stats st1 = _stats st.
Proof.
  intros Hseek. unfold _seek_to_block_directly.
  destruct (negb (_need_to_seek_block st)
            && bool_decide (block_id = _current_block_id st)) eqn:Hlazy.
  - intros [= <- <-]. apply andb_prop in Hlazy as [_ Hcur].
    apply bool_decide_eq_true in Hcur. by repeat split.
  - intros Hrun. exec_inv Hrun. destruct a as [r st2].
    pose proof (seek_columns_success _ _ _ _ _ Hseek Hm) as ->.
    apply seek_columns_frame in Hm as [readers ->].
    rewrite decide_False in Hrun by (intros Hx; by apply Hx).
    injection Hrun as <- <-. by repeat split.
Qed.







End Properties.

(** * The properties on the sample segment *)

Lemma done_or_returned {A : Type} (run : exec A) (otherwise : A) :
  returned run -> run = Done (done_or run otherwise).
Proof. by destruct run. Qed.

Lemma parsed_or_parsed {collab : Collaborators} (r : exec parse_result)
  (otherwise : load_index_locals * SegmentReader) :
  parsed r -> r = Done (Parsed (parsed_or r otherwise)).
Proof. by destruct r as [[s|res s|s]|f]. Qed.

Lemma pair_eta_fst {A B : Type} (p : A * B) (a : A) : p.1 = a -> p = (a, p.2).
Proof. destruct p. simpl. by intros ->. Qed.

(** A run that returns with first component [a] is [Done (a, _)]. *)
Lemma returned_with {A B : Type} (run : exec (A * B)) (otherwise : A * B) (a : A) :
  returned run -> (done_or run otherwise).1 = a ->
  run = Done (a, (done_or run otherwise).2).
Proof.
  intros Hrun Ha. rewrite (done_or_returned run otherwise Hrun) at 1.
  f_equal. by apply pair_eta_fst.
Qed.

(** The scenario of section 8 of the design document: four blocks, a delete
    condition that covers block 2 and overlaps block 3. *)
Example design_scenario_dispositions :
  _pick_row_groups scenario_setup four_blocks 0 3
  = Done (ReturnNoConditions, scenario_picked.2)
  /\ _include_blocks scenario_picked.2
     = Some [Include; Include; Excluded; RequiresRowFilter]
  /\ _remain_block scenario_picked.2 = 3.
Proof.
  split; [apply returned_with; [vm_compute; exact I | vm_compute; reflexivity]|].
  split; vm_compute; reflexivity.
Qed.

(** The example of section 8 on a file that can only be read at the offsets
    500, 600 and 800: both loaders get through. *)
Example design_example_offsets :
  _load_index (example_setup example_collaborators) false (sample_reader 0 ∅ ∅)
  = Done (OLAP_SUCCESS, example_index_loaded.2)
  /\ _read_all_data_streams (example_setup example_collaborators)
       (sample_reader 0 ∅ ∅) = Done (OLAP_SUCCESS, example_data_loaded.2)
  /\ _streams example_data_loaded.2 !! (0, DATA_KIND 2)
     = Some {| rs_offset := 800; rs_length := 150 |}.
Proof.
  split; [apply returned_with; [vm_compute; exact I | vm_compute; reflexivity]|].
  split; [apply returned_with; [vm_compute; exact I | vm_compute; reflexivity]|].
  vm_compute. reflexivity.
Qed.

(** The sample readers have the index structures their pruning reads. *)
Example equals_5_pruning_ready : pruning_ready equals_5_setup twelve_blocks 11.
Proof.
  split.
  - intros dc col Hdc. by apply elem_of_nil in Hdc.
  - intros conds [= <-]. split.
    + intros col Hcol. apply list_elem_of_singleton in Hcol as ->. intros _.
      exists (zone_map (replicate 12 (0, 9))). split; vm_compute; reflexivity.
    + intros i Hi. apply list_elem_of_singleton in Hi as ->. intros _. split.
      * exists (5, 5). reflexivity.
      * exists (bloom_filter [5; 1; 5; 1; 5; 1; 5; 1; 5; 1; 5; 1]).
        split; vm_compute; reflexivity.
Qed.

Example scenario_pruning_ready : pruning_ready scenario_setup four_blocks 3.
Proof.
  split.
  - intros dc col Hdc Hcol _.
    exists (zone_map [(0, 9); (10, 19); (20, 29); (30, 39)]).
    apply elem_of_cons in Hdc as [->|Hdc];
      [|apply list_elem_of_singleton in Hdc as ->];
      apply list_elem_of_singleton in Hcol as ->; split; vm_compute; reflexivity.
  - intros conds Hconds. discriminate.
Qed.

(** C1, as stated, fails: a delete condition without columns that applies to
    the segment leaves the four [Include] blocks of the range [Include] and
    the counter at 4. *)
Lemma C1_counterexample :
  _pick_row_groups zero_column_setup four_blocks 0 3
  = Done (ReturnNoConditions, zero_column_picked.2)
  /\ get_delete_conditions (_delete_handler zero_column_setup) = [delete_nothing 5]
  /\ columns (del_cond (delete_nothing 5)) = []
  /\ filter_version (delete_nothing 5) > version_first zero_column_setup
  /\ _include_blocks zero_column_picked.2
     = Some [Include; Include; Include; Include]
  /\ block_disposition zero_column_picked.2 0 ≠ Some Excluded
  /\ _remain_block zero_column_picked.2 = 4.
Proof.
  split; [apply returned_with; [vm_compute; exact I | vm_compute; reflexivity]|].
  split; [reflexivity|]. split; [reflexivity|]. split; [reflexivity|].
  split; [vm_compute; reflexivity|]. split; [|vm_compute; reflexivity].
  vm_compute. discriminate.
Qed.

Lemma C1_zero_column_condition_witness :
  exists st',
    _pick_delete_condition zero_column_setup 0 3 (delete_nothing 5)
      (set_include_blocks (Some [1; 2; 0; 1]) four_blocks) = Done st'
    /\ _remain_block st' = 4
    /\ block_disposition st' 1 = Some RequiresRowFilter
    /\ block_disposition st' 2 = Some Excluded
    /\ block_disposition st' 3 = Some Include.
Proof.
  destruct (C1_zero_column_condition_treated_as_no_match zero_column_setup
              (delete_nothing 5) 0 3
              (set_include_blocks (Some [1; 2; 0; 1]) four_blocks) [1; 2; 0; 1])
    as (st' & Hrun & Hrem & Hd); [reflexivity | reflexivity | reflexivity | lia
                                 | simpl; lia |].
  exists st'. split; [exact Hrun|]. split; [exact Hrem|].
  split; [exact (Hd 1 2 eq_refl)|]. split; [exact (Hd 2 0 eq_refl)|].
  exact (Hd 3 1 eq_refl).
Defined.

Lemma C2_disposition_strictness_witness :
  _pick_delete_condition scenario_setup 0 3 (delete_between 5 20 35)
    scenario_initialised = Done scenario_after_first
  /\ _pick_delete_condition scenario_setup 0 3 (delete_between 6 100 200)
       scenario_after_first = Done scenario_after_second
  /\ block_disposition scenario_after_first 2 = Some Excluded
  /\ block_disposition scenario_after_second 2 = Some Excluded
  /\ block_disposition scenario_after_first 3 = Some RequiresRowFilter
  /\ block_disposition scenario_after_second 3 = Some RequiresRowFilter.
Proof.
  assert (Hsecond : _pick_delete_condition scenario_setup 0 3
                      (delete_between 6 100 200) scenario_after_first
                    = Done scenario_after_second)
    by (apply done_or_returned; vm_compute; exact I).
  assert (Hblock2 : block_disposition scenario_after_first 2 = Some Excluded)
    by (vm_compute; reflexivity).
  assert (Hblock3 : block_disposition scenario_after_first 3
                    = Some RequiresRowFilter) by (vm_compute; reflexivity).
  assert (Hnomatch : del_eval_columns scenario_setup scenario_after_first
                       (columns (del_cond (delete_between 6 100 200))) 3 false
                     = Done (false, true)) by (vm_compute; reflexivity).
  split; [apply done_or_returned; vm_compute; exact I|].
  split; [exact Hsecond|]. split; [exact Hblock2|].
  destruct (C2_disposition_strictness scenario_setup 0 3) as [Hexcluded Hpartial].
  split.
  - apply (Hexcluded scenario_after_first scenario_after_second 2);
      [|exact Hblock2].
    exact (later_delete_condition _ _ _ (delete_between 6 100 200) _ _ Hsecond).
  - split; [exact Hblock3|].
    apply (proj2 (Hpartial (delete_between 6 100 200) scenario_after_first 3 false
                    Hblock3 Hnomatch) scenario_after_second Hsecond).
Defined.


Lemma C10_remaining_block_counter_witness :
  exists st0,
    _init_include_blocks scenario_setup four_blocks 0 3 = Done (OLAP_SUCCESS, st0)
    /\ _remain_block st0 = 4
    /\ (forall r st',
         _pick_row_groups scenario_setup four_blocks 0 3 = Done (r, st') ->
         _remain_block st' <= 4
         /\ exists arr, _include_blocks st' = Some arr
                        /\ _remain_block st' = count_remaining arr)
    /\ exists r st', _pick_row_groups scenario_setup four_blocks 0 3 = Done (r, st').
Proof.
  destruct (C10_remaining_block_counter scenario_setup four_blocks 0 3)
    as (st0 & Hinit & Hstart & _ & Hend & Hreturns);
    [lia | lia | simpl; lia | reflexivity | simpl; lia | reflexivity |].
  exists st0. split; [exact Hinit|]. split; [exact Hstart|]. split.
  - intros r st' Hrun. destruct (Hend r st' Hrun) as (_ & Hle & Harr).
    split; [exact Hle | exact Harr].
  - exact (Hreturns scenario_pruning_ready).
Defined.

(** C7, as stated, fails: with twelve blocks remaining and a bloom filter
    loaded for column 0 but no user predicate, the function returns before
    the bloom-filter loop. *)
Lemma C7_counterexample :
  _pick_row_groups no_predicate_setup twelve_blocks 0 11
  = Done (ReturnNoConditions, no_predicate_picked.2)
  /\ before_bloom_filter no_predicate_setup twelve_initialised 0 11
     = Done no_predicate_before_bloom
  /\ _remain_block no_predicate_before_bloom = 12
  /\ MIN_FILTER_BLOCK_NUM <= _remain_block no_predicate_before_bloom
  /\ _load_bf_columns no_predicate_setup = [0]
  /\ ReturnNoConditions ≠ ReturnFinished.
Proof.
  split; [apply returned_with; [vm_compute; exact I | vm_compute; reflexivity]|].
  split; [apply done_or_returned; vm_compute; exact I|].
  split; [vm_compute; reflexivity|]. split; [vm_compute; discriminate|].
  split; [reflexivity|]. discriminate.
Qed.

Lemma C7_bloom_filter_phase_witness :
  exists st0 st2,
    _init_include_blocks equals_5_setup twelve_blocks 0 11 = Done (OLAP_SUCCESS, st0)
    /\ before_bloom_filter equals_5_setup st0 0 11 = Done st2
    /\ (ReturnFinished = ReturnFinished
        <-> has_conditions equals_5_setup
            /\ MIN_FILTER_BLOCK_NUM <= _remain_block st2)
    /\ _remain_block equals_5_picked.2 <= _remain_block st2.
Proof.
  destruct (C7_bloom_filter_phase_threshold equals_5_setup twelve_blocks 0 11
              ReturnFinished equals_5_picked.2)
    as (st0 & st2 & Hinit & Hbefore & _ & Hiff & _ & _ & _ & Hle);
    [lia | lia | simpl; lia | reflexivity | simpl; lia | reflexivity
    | apply returned_with; [vm_compute; exact I | vm_compute; reflexivity] |].
  exists st0, st2. split; [exact Hinit|]. split; [exact Hbefore|].
  split; [exact Hiff | exact Hle].
Defined.


Lemma C4_block_count_mismatch_witness :
  _load_index mismatch_setup false unloaded
  = Done (OLAP_ERR_FILE_FORMAT_ERROR, mismatch_second_parsed.2)
  /\ recorded_entry_count (stream ROW_INDEX 0 4) mismatch_first_parsed.2 2
  /\ recorded_entry_count (stream ROW_INDEX 1 6) mismatch_second_parsed.2 3.
Proof.
  assert (Hfetch0 : _load_index_fetch mismatch_setup 500 (stream ROW_INDEX 0 4)
                      mismatch_start = Done (Parsed mismatch_first_parsed))
    by (apply parsed_or_parsed; vm_compute; exact I).
  assert (Hfetch1 : _load_index_fetch mismatch_setup 504 (stream ROW_INDEX 1 6)
                      mismatch_first_parsed = Done (Parsed mismatch_second_parsed))
    by (apply parsed_or_parsed; vm_compute; exact I).
  assert (Hcount0 : _block_count mismatch_first_parsed.2 = 2)
    by (vm_compute; reflexivity).
  assert (Hcount1 : _block_count mismatch_second_parsed.2 = 3)
    by (vm_compute; reflexivity).
  destruct (C4_block_count_mismatch_is_format_error mismatch_setup false unloaded
              [] [] [] (stream ROW_INDEX 0 4) (stream ROW_INDEX 1 6)
              mismatch_start mismatch_first_parsed mismatch_first_parsed
              mismatch_second_parsed)
    as (Hfirst & Hlater & Hrun).
  - reflexivity.
  - reflexivity.
  - reflexivity.
  - exact Hfetch0.
  - unfold _load_index_loop. simpl. unfold _load_index_stream.
    change (_load_index_start mismatch_setup false unloaded) with mismatch_start.
    change (_header_length mismatch_setup) with 500.
    rewrite Hfetch0. simpl. unfold _load_index_check. rewrite Hcount0.
    reflexivity.
  - exact Hfetch1.
  - rewrite Hcount0, Hcount1. discriminate.
  - rewrite Hcount0 in Hfirst. rewrite Hcount1 in Hlater.
    split; [exact Hrun|]. split; [exact Hfirst | exact Hlater].
Defined.

(** C5, the code at a failing input: after an unfiltered [seek_to_block] the
    first [get_block] has to seek column 0; the seek fails, so that
    [_seek_to_block_directly] returns [OLAP_ERR_COLUMN_SEEK_ERROR]; and
    [get_block] returns [OLAP_SUCCESS] with a batch of 1024 rows. *)
Theorem C5_get_block_drops_seek_error :
  seek_to_block (scan_setup failing_seek) failing_scan_reader 0 2 true
  = Done failing_sought
  /\ failing_sought.1 = (OLAP_SUCCESS, OutNextEof 0 false)
  /\ done_or (_seek_to_block_directly failing_sought.2
                (_next_block_id failing_sought.2)
                (batch_columns (sample_batch 1024)))
       (OLAP_SUCCESS, failing_sought.2)
     = (OLAP_ERR_COLUMN_SEEK_ERROR,
        (done_or (_seek_to_block_directly failing_sought.2
                    (_next_block_id failing_sought.2)
                    (batch_columns (sample_batch 1024)))
           (OLAP_SUCCESS, failing_sought.2)).2)
  /\ get_block (scan_setup failing_seek) failing_sought.2 (sample_batch 1024)
     = Done failing_block
  /\ failing_block.1.1 = (OLAP_SUCCESS, OutNextEof 1 false)
  /\ batch_size failing_block.1.2 = 1024.
Proof.
  split; [apply done_or_returned; vm_compute; exact I|].
  split; [vm_compute; reflexivity|].
  split; [apply pair_eta_fst; vm_compute; reflexivity|].
  split; [apply done_or_returned; vm_compute; exact I|].
  split; vm_compute; reflexivity.
Qed.

(** C6, the code at a failing input: [_load_index] is called with caching
    disabled on a segment with two zone-map streams.  On an empty cache
    nothing is inserted and both readers own their buffers.  When the zone map
    of column 0 is found in the cache, the zone map of column 1, which is not
    in the cache, is read from the file and then inserted into the cache; its
    handle is kept and its reader is told the buffer belongs to the cache. *)
Theorem C6_cache_hit_enables_insertion :
  (_load_index two_index_setup false unloaded
   = Done (OLAP_SUCCESS, uncached_loaded.2)
   /\ _lru_cache uncached_loaded.2 = ∅
   /\ _cache_handle uncached_loaded.2 = [None; None]
   /\ index_uses_cache uncached_loaded.2 1 = Some false)
  /\ (_lru_cache column_0_cached !! ("segment_0.dat", 1, ROW_INDEX) = None
      /\ _load_index two_index_setup false column_0_cached
         = Done (OLAP_SUCCESS, cached_loaded.2)
      /\ _lru_cache cached_loaded.2 !! ("segment_0.dat", 1, ROW_INDEX)
         = Some (replicate 4 Byte.x01)
      /\ kept_handle_key cached_loaded.2 1
         = Some ("segment_0.dat", 1, ROW_INDEX)
      /\ index_uses_cache cached_loaded.2 1 = Some true).
Proof.
  split.
  - split; [apply returned_with; [vm_compute; exact I | vm_compute; reflexivity]|].
    split; [vm_compute; reflexivity|]. split; vm_compute; reflexivity.
  - split; [vm_compute; reflexivity|].
    split; [apply returned_with; [vm_compute; exact I | vm_compute; reflexivity]|].
    split; [vm_compute; reflexivity|]. split; vm_compute; reflexivity.
Qed.


(** * Further properties of the reader *)

(** Split a hypothesis [exec_then m k = Done b] into its two halves. *)
Ltac run_inv H :=
  let a := fresh "a" in
  let Ha := fresh "Hm" in
  let Hk := fresh "Hk" in
  destruct (exec_then_Done _ _ _ H) as (a & Ha & Hk); clear H; rename Hk into H.

Section Coverage.
Context {collab : Collaborators}.

(** ** The block cursor *)

Lemma skip_excluded_returns (fuel : nat) (arr : list Z) (end_block block_id : Z) :
  0 <= block_id -> end_block < Z.of_nat (List.length arr) ->
  exists b, skip_excluded fuel arr end_block block_id = Done b.
Proof.
  revert block_id. induction fuel as [|fuel IH]; intros block_id Hb Hend; simpl.
  - eauto.
  - case_decide; [|eauto].
    destruct (at_index_lookup arr block_id) as [v ->]; [lia|]. simpl.
    case_decide; [|eauto]. apply IH; lia.
Qed.

Lemma skip_excluded_upper (fuel : nat) (arr : list Z) (end_block block_id b : Z) :
  skip_excluded fuel arr end_block block_id = Done b ->
  b <= Z.max block_id (end_block + 1).
Proof.
  revert block_id. induction fuel as [|fuel IH]; intros block_id; simpl.
  - intros [= <-]. lia.
  - case_decide; [|intros [= <-]; lia].
    intros Hrun. run_inv Hrun. case_decide; [|injection Hrun as <-; lia].
    apply IH in Hrun. lia.
Qed.

(** [_seek_to_block] with filtering on: where the cursor lands. *)
Lemma _seek_to_block_filtered (st : SegmentReader) (arr : list Z) (block_id : Z) :
  _include_blocks st = Some arr -> 0 <= block_id ->
  _end_block st < Z.of_nat (List.length arr) ->
  exists b,
    _seek_to_block st block_id false
    = Done (set_next_block_id b
              (if decide (b > _end_block st) then set_eof true st else st))
    /\ block_id <= b <= Z.max block_id (_end_block st + 1)
    /\ (forall j, block_id <= j < b -> arr !! Z.to_nat j = Some Excluded)
    /\ (b <= _end_block st ->
        exists v, arr !! Z.to_nat b = Some v /\ v ≠ Excluded).
Proof.
  intros Harr Hb Hend. unfold _seek_to_block. rewrite Harr. simpl.
  destruct (skip_excluded_returns (Z.to_nat (_end_block st - block_id + 1)) arr
              (_end_block st) block_id Hb Hend) as [b Hskip].
  rewrite Hskip. simpl. exists b. split; [done|].
  pose proof (skip_excluded_upper _ _ _ _ _ Hskip) as Hupper.
  apply skip_excluded_exit in Hskip as (Hge & Hexit & Hskipped); [|lia].
  split; [lia|]. split; [done|]. intros Hle.
  destruct Hexit as [?|Hv]; [lia | done].
Qed.

(** X1.  With filtering on, [_seek_to_block(block_id)] returns and moves
    [_next_block_id] to the first block from [block_id] on that is not
    [Excluded]: every block it steps over is [Excluded], the block it stops at
    is not, and when no such block is left up to [_end_block] it stops right
    after [_end_block] (or stays at [block_id] if that is already past it) and
    raises [_eof].  It never lowers [_eof]. *)
Theorem X1_seek_to_block_first_remaining (st : SegmentReader) (arr : list Z)
  (block_id : Z) :
  _include_blocks st = Some arr -> 0 <= block_id ->
  _end_block st < Z.of_nat (List.length arr) ->
  exists b st',
    _seek_to_block st block_id false = Done st'
    /\ _next_block_id st' = b
    /\ block_id <= b
    /\ (forall j, block_id <= j < b ->
                  j <= _end_block st /\ arr !! Z.to_nat j = Some Excluded)
    /\ (if decide (b <= _end_block st)
        then (exists v, arr !! Z.to_nat b = Some v /\ v ≠ Excluded)
             /\ _eof st' = _eof st
        else b = Z.max block_id (_end_block st + 1) /\ _eof st' = true).
Proof.
  intros Harr Hb Hend.
  destruct (_seek_to_block_filtered st arr block_id Harr Hb Hend)
    as (b & Hrun & Hrange & Hskipped & Hstop).
  exists b. eexists. split; [exact Hrun|]. split.
  { by destruct (decide (b > _end_block st)). }
  split; [lia|]. split.
  - intros j Hj. split; [lia | by apply Hskipped].
  - destruct (decide (b <= _end_block st)) as [Hle|Hgt].
    + split; [by apply Hstop|]. by rewrite decide_False by lia.
    + split; [lia|]. by rewrite decide_True by lia.
Qed.

(** The statuses the loop of [_seek_to_block_directly] can end with. *)
Lemma seek_columns_status (block_id : Z) (cids : list ColumnId)
  (st st' : SegmentReader) (res : OLAPStatus) :
  seek_columns block_id cids st = Done (res, st') ->
  res = OLAP_SUCCESS \/ res = OLAP_ERR_DATA_EOF
  \/ res = OLAP_ERR_COLUMN_SEEK_ERROR.
Proof.
  revert st. induction cids as [|cid cids IH]; intros st; simpl.
  - intros [= <- <-]. by left.
  - intros Hrun. run_inv Hrun. destruct a as [index_reader|]; [|by eapply IH].
    run_inv Hrun. run_inv Hrun. run_inv Hrun.
    destruct (reader_seek a1 a) as [r reader1]. run_inv Hrun.
    case_decide; [|by eapply IH].
    case_decide; injection Hrun as <- <-; tauto.
Qed.

(** X2.  A [_seek_to_block_directly] that succeeded leaves the reader
    positioned: asking for the same block again, for whatever columns, seeks
    no column and changes nothing. *)
Theorem X2_seek_to_block_directly_repeat (st st1 : SegmentReader) (block_id : Z)
  (cids cids' : list ColumnId) :
  _seek_to_block_directly st block_id cids = Done (OLAP_SUCCESS, st1) ->
  _seek_to_block_directly st1 block_id cids' = Done (OLAP_SUCCESS, st1).
Proof.
  unfold _seek_to_block_directly at 1.
  destruct (negb (_need_to_seek_block st)
            && bool_decide (block_id = _current_block_id st)) eqn:Hlazy.
  - intros [= <-]. unfold _seek_to_block_directly. by rewrite Hlazy.
  - intros Hrun. run_inv Hrun. destruct a as [r st2].
    case_decide; [injection Hrun as -> _; done|].
    injection Hrun as <-. unfold _seek_to_block_directly. simpl.
    by rewrite bool_decide_eq_true_2.
Qed.

(** X3.  [_seek_to_block_directly] returns one of three statuses: success, or
    [OLAP_ERR_DATA_EOF], or [OLAP_ERR_COLUMN_SEEK_ERROR]; a column reader's own
    error code never gets out.  On success the reader stands on [block_id]
    with no seek pending; on failure [_current_block_id] and
    [_need_to_seek_block] are as before, so the next call seeks again. *)
Theorem X3_seek_to_block_directly_status (st st1 : SegmentReader) (block_id : Z)
  (cids : list ColumnId) (res : OLAPStatus) :
  _seek_to_block_directly st block_id cids = Done (res, st1) ->
  (res = OLAP_SUCCESS \/ res = OLAP_ERR_DATA_EOF
   \/ res = OLAP_ERR_COLUMN_SEEK_ERROR)
  /\ (res = OLAP_SUCCESS ->
      _current_block_id st1 = block_id /\ _need_to_seek_block st1 = false)
  /\ (res ≠ OLAP_SUCCESS ->
      _current_block_id st1 = _current_block_id st
      /\ _need_to_seek_block st1 = _need_to_seek_block st).
Proof.
  unfold _seek_to_block_directly.
  destruct (negb (_need_to_seek_block st)
            && bool_decide (block_id = _current_block_id st)) eqn:Hlazy.
  - intros [= <- <-]. apply andb_prop in Hlazy as [Hneed Hcur].
    apply bool_decide_eq_true in Hcur. apply negb_true_iff in Hneed.
    split; [by left|]. split; [done|]. intros Hx. by destruct Hx.
  - intros Hrun. run_inv Hrun. destruct a as [r st2].
    pose proof (seek_columns_status _ _ _ _ _ Hm) as Hstatus.
    apply seek_columns_frame in Hm as [readers ->].
    case_decide as Hr.
    + injection Hrun as <- <-. split; [done|]. split; [done|]. done.
    + injection Hrun as <- <-. split; [by left|]. split; [done|].
      intros Hx. by destruct Hx.
Qed.

(** ** What the pruning leaves alone *)

Lemma pruning_frame_refl (st : SegmentReader) : pruning_frame st st.
Proof. unfold pruning_frame. by destruct st. Qed.

Lemma pruning_frame_trans (st1 st2 st3 : SegmentReader) :
  pruning_frame st1 st2 -> pruning_frame st2 st3 -> pruning_frame st1 st3.
Proof.
  unfold pruning_frame. intros H12 H23.
  destruct st1, st2, st3. simpl in *.
  injection H12 as -> -> -> -> -> -> -> -> -> -> -> -> -> -> -> ->.
  injection H23 as -> -> -> -> -> -> -> -> -> -> -> -> -> -> -> ->.
  reflexivity.
Qed.

Lemma pruning_frame_array (st : SegmentReader) (arr : option (list Z)) :
  pruning_frame st (set_include_blocks arr st).
Proof. unfold pruning_frame. by destruct st. Qed.

Lemma pruning_frame_excluded (setup : ReaderSetup) (st : SegmentReader)
  (arr : option (list Z)) (j : Z) :
  pruning_frame st
    (add_rows_del_filtered setup j (dec_remain_block (set_include_blocks arr st)))
  /\ pruning_frame st
       (add_rows_stats_filtered setup j
          (dec_remain_block (set_include_blocks arr st))).
Proof. unfold pruning_frame. by destruct st. Qed.

Lemma include_blocks_set_frame (st st' : SegmentReader) (j v : Z) :
  include_blocks_set st j v = Done st' ->
  exists arr, st' = set_include_blocks arr st.
Proof.
  intros Hset. apply include_blocks_set_Done in Hset as (arr & _ & ->). eauto.
Qed.

Lemma evaluation_frame (setup : ReaderSetup) (j : Z) (st st' : SegmentReader) :
  evaluation setup j st st' -> pruning_frame st st'.
Proof.
  intros [dc j0 s s' Hrun|cond r j0 s s' Hrun|conds i r j0 s s' Hrun].
  - unfold _pick_delete_block in Hrun. run_inv Hrun.
    case_decide; [injection Hrun as <-; apply pruning_frame_refl|].
    run_inv Hrun. destruct a0 as [dp dn].
    destruct (dn || bool_decide _).
    + case_decide; [injection Hrun as <-; apply pruning_frame_refl|].
      apply include_blocks_set_frame in Hrun as [arr ->].
      apply pruning_frame_array.
    + destruct dp.
      * apply include_blocks_set_frame in Hrun as [arr ->].
        apply pruning_frame_array.
      * run_inv Hrun. apply include_blocks_set_frame in Hm1 as [arr ->].
        injection Hrun as <-. apply pruning_frame_excluded.
  - unfold _pick_zone_map_block in Hrun. run_inv Hrun.
    case_decide; [injection Hrun as <-; apply pruning_frame_refl|].
    run_inv Hrun. run_inv Hrun.
    destruct (cond_eval _ _); [injection Hrun as <-; apply pruning_frame_refl|].
    run_inv Hrun. apply include_blocks_set_frame in Hm2 as [arr ->].
    injection Hrun as <-. apply pruning_frame_excluded.
  - unfold _pick_bloom_filter_block in Hrun. run_inv Hrun.
    case_decide; [injection Hrun as <-; apply pruning_frame_refl|].
    run_inv Hrun. run_inv Hrun. run_inv Hrun.
    destruct (cond_eval_bf _ _); [injection Hrun as <-; apply pruning_frame_refl|].
    run_inv Hrun. apply include_blocks_set_frame in Hm3 as [arr ->].
    injection Hrun as <-. apply pruning_frame_excluded.
Qed.

Lemma reached_frame (setup : ReaderSetup) (st0 st : SegmentReader) :
  reached setup st0 st -> pruning_frame st0 st.
Proof.
  induction 1 as [|j st st' _ IH Hev]; [apply pruning_frame_refl|].
  eapply pruning_frame_trans; [exact IH|]. by eapply evaluation_frame.
Qed.

Lemma _init_include_blocks_frame (setup : ReaderSetup) (st st0 : SegmentReader)
  (first_block last_block : Z) (res : OLAPStatus) :
  _init_include_blocks setup st first_block last_block = Done (res, st0) ->
  pruning_frame st st0.
Proof.
  unfold _init_include_blocks.
  destruct (match _include_blocks st with
            | Some arr => Some arr
            | None => _
            end) as [arr|].
  - intros Hrun. run_inv Hrun. run_inv Hrun. injection Hrun as <- <-.
    apply pruning_frame_array.
  - intros [= <- <-]. apply pruning_frame_refl.
Qed.

Lemma _pick_row_groups_pruning_frame (setup : ReaderSetup) (st st' : SegmentReader)
  (first_block last_block : Z) (r : pick_return) :
  _pick_row_groups setup st first_block last_block = Done (r, st') ->
  pruning_frame st st'.
Proof.
  unfold _pick_row_groups. case_decide.
  { intros [= <- <-]. apply pruning_frame_refl. }
  intros Hrun. run_inv Hrun. destruct a as [res st0].
  apply _init_include_blocks_frame in Hm.
  case_decide; [by injection Hrun as <- <-|].
  apply _pick_row_groups_phases_reached in Hrun. apply reached_frame in Hrun.
  by eapply pruning_frame_trans.
Qed.

(** X4.  Whatever [_pick_row_groups] returns, it has changed nothing of the
    reader but the disposition array, the remaining-block counter and the
    statistics: the cursor, the end of the scan, the index structures, the
    streams, the column readers and the cache are as before. *)
Theorem X4_pick_row_groups_frame (setup : ReaderSetup) (st st' : SegmentReader)
  (first_block last_block : Z) (r : pick_return) :
  _pick_row_groups setup st first_block last_block = Done (r, st') ->
  st' = set_stats (_stats st')
          (set_remain_block (_remain_block st')
             (set_include_blocks (_include_blocks st') st))
  /\ _next_block_id st' = _next_block_id st
  /\ _current_block_id st' = _current_block_id st
  /\ _end_block st' = _end_block st
  /\ _eof st' = _eof st
  /\ _block_count st' = _block_count st
  /\ _indices st' = _indices st
  /\ _bloom_filters st' = _bloom_filters st
  /\ _column_readers st' = _column_readers st
  /\ _streams st' = _streams st
  /\ _lru_cache st' = _lru_cache st
  /\ _cache_handle st' = _cache_handle st.
Proof.
  intros Hrun. apply _pick_row_groups_pruning_frame in Hrun.
  split; [exact Hrun|]. unfold pruning_frame in Hrun. rewrite Hrun.
  by destruct st.
Qed.

End Coverage.

Section FilteredScan.
Context {collab : Collaborators}.

(** ** A filtered scan *)

Lemma pruning_frame_cursor (st st' : SegmentReader) :
  pruning_frame st st' ->
  _eof st' = _eof st /\ _end_block st' = _end_block st
  /\ _without_filter st' = _without_filter st
  /\ _block_count st' = _block_count st.
Proof. unfold pruning_frame. intros ->. by destruct st. Qed.

Lemma reached_array_length (setup : ReaderSetup) (st0 st : SegmentReader)
  (arr0 : list Z) :
  reached setup st0 st -> _include_blocks st0 = Some arr0 ->
  exists arr, _include_blocks st = Some arr
              /\ List.length arr = List.length arr0.
Proof.
  intros Hr Harr0. induction Hr as [|j st st' _ IH Hev]; [eauto|].
  destruct IH as (arr & Harr & Hlen).
  apply evaluation_update in Hev.
  destruct (block_update_array j st st' arr Hev Harr) as (arr' & Harr' & Hlen').
  exists arr'. split; [done | congruence].
Qed.

Lemma _pick_row_groups_success_array (setup : ReaderSetup)
  (st st' : SegmentReader) (first_block last_block : Z) (r : pick_return) :
  0 <= first_block -> first_block <= last_block ->
  last_block < _block_count st ->
  _remain_block st = last_block - first_block + 1 ->
  _include_blocks st = None ->
  _pick_row_groups setup st first_block last_block = Done (r, st') ->
  pick_status r = OLAP_SUCCESS ->
  exists arr, _include_blocks st' = Some arr
              /\ Z.of_nat (List.length arr) = _block_count st.
Proof.
  intros Hf Hfl Hl Hrem Hnone. unfold _pick_row_groups.
  rewrite decide_False by lia.
  destruct (nothrow_new (NewIncludeBlocks (_block_count st))) eqn:Hnew.
  - rewrite (_init_include_blocks_spec setup st first_block last_block);
      [|done|done|done|done|by unfold array_available; rewrite Hnone].
    simpl. intros Hrun _. apply _pick_row_groups_phases_reached in Hrun.
    destruct (reached_array_length _ _ _ _ Hrun eq_refl) as (arr & Harr & Hlen).
    exists arr. split; [done|]. rewrite Hlen.
    by apply initial_blocks_length.
  - unfold _init_include_blocks. rewrite Hnone, Hnew. simpl.
    intros [= <- _]. discriminate.
Qed.

Lemma _load_to_vectorized_row_batch_status (setup : ReaderSetup)
  (st st' : SegmentReader) (batch batch' : VectorizedRowBatch) (size : Z)
  (arr : list Z) :
  _include_blocks st = Some arr ->
  _load_to_vectorized_row_batch setup st batch size
  = Done (OLAP_SUCCESS, batch', st') ->
  arr !! Z.to_nat (_current_block_id st) = Some (block_status batch').
Proof.
  intros Harr. unfold _load_to_vectorized_row_batch. intros Hrun. run_inv Hrun.
  destruct a as [res st1]. apply next_vectors_frame in Hm as [readers ->].
  case_decide; [by injection Hrun|]. simpl in Hrun. rewrite Harr in Hrun.
  run_inv Hrun. apply at_index_Done in Hm as [_ Hv].
  by destruct (decide (size = _num_rows_in_block setup)); injection Hrun as <- <-.
Qed.

Lemma remaining_blocks_empty (arr : list Z) (k e : Z) :
  k > e -> remaining_blocks arr k e = [].
Proof.
  intros Hk. unfold remaining_blocks, block_range.
  by rewrite seqZ_nil by lia.
Qed.

Lemma remaining_blocks_excluded (arr : list Z) (k e : Z) :
  0 <= k -> k <= e -> arr !! Z.to_nat k = Some Excluded ->
  remaining_blocks arr k e = remaining_blocks arr (k + 1) e.
Proof.
  intros H0 Hk Hv. unfold remaining_blocks, block_range.
  rewrite seqZ_cons by lia. simpl. rewrite Hv. simpl.
  do 2 f_equal; lia.
Qed.

Lemma remaining_blocks_head (arr : list Z) (k e v : Z) :
  0 <= k -> k <= e -> arr !! Z.to_nat k = Some v -> v ≠ Excluded ->
  remaining_blocks arr k e = (k, v) :: remaining_blocks arr (k + 1) e.
Proof.
  intros H0 Hk Hv Hne. unfold remaining_blocks, block_range.
  rewrite seqZ_cons by lia. simpl. rewrite Hv. rewrite decide_False by done.
  simpl. do 3 f_equal; lia.
Qed.

Lemma remaining_blocks_skip (arr : list Z) (e : Z) (n : nat) (k : Z) :
  0 <= k -> k + Z.of_nat n <= e + 1 ->
  (forall j, k <= j < k + Z.of_nat n -> arr !! Z.to_nat j = Some Excluded) ->
  remaining_blocks arr k e = remaining_blocks arr (k + Z.of_nat n) e.
Proof.
  revert k. induction n as [|n IH]; intros k H0 Hn Hex.
  - f_equal. lia.
  - rewrite remaining_blocks_excluded; [|lia|lia|apply Hex; lia].
    rewrite IH; [f_equal; lia | lia | lia |].
    intros j Hj. apply Hex. lia.
Qed.

(** One [get_block] of a filtered scan, when column seeks do not fail: the
    batch carries the disposition of the block that was announced, and the
    cursor moves on to the next block that is not [Excluded]. *)
Lemma get_block_filtered_step (setup : ReaderSetup) (arr : list Z) (e k : Z)
  (st st' : SegmentReader) (batch batch' : VectorizedRowBatch) (out : block_out) :
  (forall r p, (reader_seek r p).1 = OLAP_SUCCESS) ->
  filter_cursor arr e k st -> k <= e ->
  get_block setup st batch = Done (OLAP_SUCCESS, out, batch', st') ->
  exists k',
    k < k' /\ k' <= e + 1
    /\ filter_cursor arr e k' st'
    /\ arr !! Z.to_nat k = Some (block_status batch')
    /\ block_status batch' ≠ Excluded
    /\ (forall j, k < j < k' -> arr !! Z.to_nat j = Some Excluded).
Proof.
  intros Hseek (Harr & Hend & Hlen & Hwf & Hnext & Hk0 & Heof & Hblock) Hle.
  unfold get_block.
  destruct (_eof st) eqn:He; [destruct Heof as [Heof _]; specialize (Heof eq_refl); lia|].
  intros Hrun. run_inv Hrun. destruct a as [res st1].
  destruct (_seek_to_block_directly_cursor _ _ _ _ _ Hseek Hm)
    as (-> & Hcur1 & Hbc1 & Hend1 & Harr1 & Hnext1 & Heof1 & Hwf1 & Hstats1).
  clear Hm. run_inv Hrun. destruct a as [[res2 batch1] st2].
  case_decide as Hres; [by injection Hrun|].
  assert (res2 = OLAP_SUCCESS) as ->
    by (destruct (decide (res2 = OLAP_SUCCESS)); tauto).
  rewrite Harr in Harr1.
  pose proof (_load_to_vectorized_row_batch_status _ _ _ _ _ _ _ Harr1 Hm)
    as Hstatus.
  destruct (_load_to_vectorized_row_batch_success _ _ _ _ _ _ Hm)
    as (_ & _ & _ & Hbc2 & Hend2 & Harr2 & Hnext2 & Heof2 & Hwf2 & _ & _).
  clear Hm. run_inv Hrun. rename a into st3. injection Hrun as _ <- <-.
  rewrite Hwf2, Hwf1, Hwf, Hnext2, Hnext1, Hnext in Hm.
  rewrite Harr1 in Harr2. rewrite Hend1, Hend in Hend2.
  destruct (_seek_to_block_filtered st2 arr (k + 1) Harr2)
    as (k' & Hseek' & Hrange & Hskipped & Hstop); [lia | by rewrite Hend2 |].
  rewrite Hseek' in Hm. injection Hm as <-. rewrite Hend2 in *.
  rewrite Hcur1, Hnext in Hstatus.
  destruct (Hblock Hle) as (v & Hv & Hne).
  assert (v = block_status batch1) as <- by congruence.
  exists k'. split; [lia|]. split; [lia|]. split.
  - unfold filter_cursor.
    destruct (decide (k' > e)); simpl; rewrite ?Harr2, ?Hend2, ?Hwf2, ?Hwf1,
      ?Heof2, ?Heof1, ?He; repeat split; try done; try lia.
  - split; [done|]. split; [done|]. intros j Hj. apply Hskipped. lia.
Qed.

Lemma visit_blocks_remaining (setup : ReaderSetup) (arr : list Z) (e : Z)
  (fuel : nat) :
  (forall r p, (reader_seek r p).1 = OLAP_SUCCESS) ->
  forall k st batch,
    filter_cursor arr e k st ->
    (Z.to_nat (e - k + 1) <= fuel)%nat ->
    visit_blocks fuel setup st batch ≠ Done VisitOutOfFuel
    /\ forall visits st',
         visit_blocks fuel setup st batch = Done (VisitDone visits st') ->
         _include_blocks st' = Some arr
         /\ (fun v => (v.1.1, v.2)) <$> visits = remaining_blocks arr k e.
Proof.
  intros Hseek. induction fuel as [|fuel IH]; intros k st batch Hcur Hfuel.
  - pose proof Hcur as (Harr & _ & _ & _ & _ & _ & Heof & _).
    assert (_eof st = true) as He by (apply Heof; lia).
    simpl. rewrite He. split; [done|]. intros visits st' [= <- <-].
    split; [done|]. by rewrite remaining_blocks_empty by lia.
  - pose proof Hcur as (Harr & _ & _ & _ & Hnext & Hk0 & Heof & Hblock).
    simpl. destruct (_eof st) eqn:He.
    { split; [done|]. intros visits st' [= <- <-]. split; [done|].
      rewrite remaining_blocks_empty; [done|]. by apply Heof. }
    assert (Hle : k <= e).
    { destruct (decide (k <= e)); [done|].
      destruct Heof as [_ Heof]. discriminate Heof. lia. }
    destruct (get_block setup st batch) as [[[[res out] batch1] st1]|f] eqn:Hget;
      simpl; [|by split].
    case_decide as Hres; [by split|].
    assert (res = OLAP_SUCCESS) as ->
      by (destruct (decide (res = OLAP_SUCCESS)); tauto).
    destruct (get_block_filtered_step _ _ _ _ _ _ _ _ _ Hseek Hcur Hle Hget)
      as (k' & Hlt & Hup & Hcur' & Hstatus & Hne & Hskipped).
    destruct (IH k' st1 batch1 Hcur') as [Hfuel1 Hvisits1]; [lia|].
    destruct (visit_blocks fuel setup st1 batch1) as [[visits1 st2|res2 st2|]|f];
      simpl; try (by split).
    split; [done|]. intros visits st' [= <- <-].
    destruct (Hvisits1 visits1 st2 eq_refl) as [Harr2 Hrest].
    split; [done|]. rewrite fmap_cons, Hrest, Hnext. simpl.
    rewrite (remaining_blocks_head arr k e (block_status batch1)) by done.
    f_equal.
    rewrite (remaining_blocks_skip arr e (Z.to_nat (k' - (k + 1))) (k + 1));
      [f_equal; lia | lia | lia |].
    intros j Hj. apply Hskipped. lia.
Qed.

(** A filtered [seek_to_block] that succeeds leaves the cursor on the first
    block of the range that is not [Excluded]. *)
Lemma seek_to_block_filter_cursor (setup : ReaderSetup) (st st1 : SegmentReader)
  (first_block last_block : Z) (out : block_out) :
  0 <= first_block -> first_block <= last_block ->
  last_block < _block_count st -> last_block - first_block + 1 < 2 ^ 32 ->
  seek_to_block setup st first_block last_block false
  = Done (OLAP_SUCCESS, out, st1) ->
  exists arr b,
    filter_cursor arr last_block b st1
    /\ first_block <= b <= last_block + 1
    /\ (forall j, first_block <= j < b -> arr !! Z.to_nat j = Some Excluded).
Proof.
  intros Hf Hfl Hl H32. unfold seek_to_block. intros Hrun. run_inv Hrun.
  destruct a as [res st0].
  assert (Hbc0 : _block_count st0 = _block_count st).
  { destruct (negb (_is_data_loaded st)); [|by injection Hm as <- <-].
    run_inv Hm. destruct a as [res1 st2].
    apply _read_all_data_streams_frame in Hm0 as [Hbc2 _]. simpl in Hbc2.
    case_decide; [by injection Hm as <- <-|].
    run_inv Hm. destruct a as [res3 st3].
    apply _create_reader_frame in Hm0 as [Hbc3 _].
    case_decide; injection Hm as <- <-; simpl; congruence. }
  clear Hm. case_decide; [by injection Hrun|]. simpl in Hrun.
  rewrite Hbc0 in Hrun.
  rewrite (decide_False (P := last_block >= _block_count st)) in Hrun by lia.
  run_inv Hrun. destruct a as [res1 st2]. run_inv Hm. destruct a as [r st2'].
  injection Hm as <- <-. rename Hm0 into Hpick.
  case_decide as Hres; [by injection Hrun|].
  assert (Hok : pick_status r = OLAP_SUCCESS)
    by (destruct (decide (OLAP_SUCCESS = pick_status r)); [done | tauto]).
  run_inv Hrun. rename a into st3. injection Hrun as _ <-.
  assert (Hw : wrap32 (last_block - first_block + 1)
               = last_block - first_block + 1)
    by (unfold wrap32; apply Z.mod_small; lia).
  rewrite Hw in Hpick.
  pose proof (_pick_row_groups_pruning_frame _ _ _ _ _ _ Hpick) as Hframe.
  apply pruning_frame_cursor in Hframe as (Heof & Hend & Hwf & Hbc).
  simpl in Heof, Hend, Hwf, Hbc.
  eapply _pick_row_groups_success_array in Hpick as (arr & Harr & Hlen);
    [| done | done | simpl; lia | done | done | done].
  simpl in Hlen.
  destruct (_seek_to_block_filtered st2' arr first_block Harr)
    as (b & Hseek' & Hrange & Hskipped & Hstop); [lia | rewrite Hend; lia |].
  rewrite Hseek' in Hm. injection Hm as <-. rewrite Hend in *.
  exists arr, b. split.
  - unfold filter_cursor.
    destruct (decide (b > last_block)); simpl;
      rewrite ?Harr, ?Hend, ?Hwf, ?Heof; repeat split; try done; try lia.
  - split; [lia | done].
Qed.

(** X5.  A filtered scan, when column seeks do not fail: [seek_to_block] over
    a range inside the segment followed by [get_block] until [eof] ends within
    as many reads as the range has blocks, and the blocks it reads are exactly
    the blocks of the range that the pruning did not exclude, in increasing
    order, each batch carrying the disposition of its block ([Include] or
    [RequiresRowFilter], never [Excluded]). *)
Theorem X5_filtered_scan_reads_remaining_blocks (setup : ReaderSetup)
  (st : SegmentReader) (first_block last_block : Z) (batch : VectorizedRowBatch) :
  (forall r p, (reader_seek r p).1 = OLAP_SUCCESS) ->
  0 <= first_block -> first_block <= last_block ->
  last_block < _block_count st -> last_block - first_block + 1 < 2 ^ 32 ->
  filtered_scan setup st first_block last_block batch ≠ Done VisitOutOfFuel
  /\ forall visits st',
       filtered_scan setup st first_block last_block batch
       = Done (VisitDone visits st') ->
       exists arr,
         _include_blocks st' = Some arr
         /\ (fun v => (v.1.1, v.2)) <$> visits
            = remaining_blocks arr first_block last_block.
Proof.
  intros Hseek Hf Hfl Hl H32. unfold filtered_scan.
  destruct (seek_to_block setup st first_block last_block false)
    as [[[res out] st1]|f] eqn:Hsought; simpl; [|by split].
  case_decide as Hres; [by split|].
  assert (res = OLAP_SUCCESS) as ->
    by (destruct (decide (res = OLAP_SUCCESS)); tauto).
  destruct (seek_to_block_filter_cursor _ _ _ _ _ _ Hf Hfl Hl H32 Hsought)
    as (arr & b & Hcur & Hb & Hskipped).
  destruct (visit_blocks_remaining setup arr last_block
              (Z.to_nat (last_block - first_block + 1)) Hseek b st1 batch Hcur)
    as [Hfuel Hvisits]; [lia|].
  split; [done|]. intros visits st' Hrun.
  destruct (Hvisits visits st' Hrun) as [Harr Hlist].
  exists arr. split; [done|]. rewrite Hlist.
  rewrite (remaining_blocks_skip arr last_block (Z.to_nat (b - first_block))
             first_block); [f_equal; lia | lia | lia |].
  intros j Hj. apply Hskipped. lia.
Qed.

End FilteredScan.

Section PruningResults.
Context {collab : Collaborators}.

(** ** What the pruning computes *)

Lemma disposition_rank_range (v : Z) : 0 <= disposition_rank v <= 2.
Proof. unfold disposition_rank. repeat case_decide; lia. Qed.

Lemma delete_outcome_range (setup : ReaderSetup) (st : SegmentReader)
  (dc : DeleteConditions) (k : Z) : 0 <= delete_outcome setup st dc k <= 2.
Proof.
  unfold delete_outcome.
  destruct (del_eval_columns _ _ _ _ _) as [[dp dn]|f]; [|lia].
  destruct (dn || _); [lia|]. destruct dp; lia.
Qed.

Lemma delete_outcome_indices (setup : ReaderSetup) (st st' : SegmentReader)
  (dc : DeleteConditions) (k : Z) :
  _indices st' = _indices st ->
  delete_outcome setup st' dc k = delete_outcome setup st dc k.
Proof.
  intros Hi. unfold delete_outcome.
  by rewrite (del_eval_columns_indices setup st st').
Qed.

Lemma block_disposition_array (st : SegmentReader) (arr : list Z) (j : Z) :
  _include_blocks st = Some arr -> 0 <= j ->
  block_disposition st j = arr !! Z.to_nat j.
Proof.
  intros Harr Hj. unfold block_disposition. rewrite Harr.
  by rewrite decide_True.
Qed.

Lemma include_blocks_set_disposition (st st' : SegmentReader) (j v x : Z) :
  block_disposition st j = Some v ->
  include_blocks_set st j x = Done st' ->
  block_disposition st' j = Some x.
Proof.
  intros Hv Hset. apply include_blocks_set_Done in Hset as (arr & Harr & ->).
  unfold block_disposition in *. rewrite Harr in Hv. simpl.
  case_decide; [|done]. apply list_lookup_insert_eq.
  by apply lookup_lt_Some in Hv.
Qed.

Lemma include_blocks_get_disposition (st : SegmentReader) (j v : Z) :
  include_blocks_get st j = Done v -> block_disposition st j = Some v.
Proof.
  intros Hget. apply include_blocks_get_Done in Hget as (arr & Harr & Hj & Hv).
  by rewrite (block_disposition_array st arr).
Qed.

(** What a zone map makes of one block. *)
Lemma _pick_zone_map_block_disposition (setup : ReaderSetup) (cond : CondColumn)
  (index_reader : option StreamIndexReader) (j : Z) (s s' : SegmentReader) :
  _pick_zone_map_block setup cond index_reader j s = Done s' ->
  forall k v,
    block_disposition s k = Some v ->
    block_disposition s' k
    = Some (if bool_decide (k = j) && zone_map_rejects_block cond index_reader j
            then Excluded else v).
Proof.
  intros Hrun k v Hk. destruct (decide (k = j)) as [->|Hne].
  - rewrite bool_decide_eq_true_2 by done. simpl.
    unfold _pick_zone_map_block in Hrun. run_inv Hrun.
    apply include_blocks_get_disposition in Hm.
    assert (a = v) as -> by congruence.
    case_decide as Hv.
    { injection Hrun as <-. rewrite Hk, Hv. by destruct (zone_map_rejects_block _ _ _). }
    run_inv Hrun. apply deref_Done in Hm0 as ->. run_inv Hrun.
    unfold zone_map_rejects_block. rewrite Hm0.
    destruct (cond_eval _ _); simpl; [by injection Hrun as <-|].
    run_inv Hrun. injection Hrun as <-.
    by apply (include_blocks_set_disposition s a1 j v Excluded).
  - rewrite bool_decide_eq_false_2 by done. simpl. rewrite <- Hk.
    apply (block_update_other j); [|done].
    by eapply _pick_zone_map_block_update.
Qed.

(** What a bloom filter makes of one block. *)
Lemma _pick_bloom_filter_block_disposition (setup : ReaderSetup)
  (conds : Conditions) (i : ColumnId) (bf_reader : option BloomFilterIndexReader)
  (j : Z) (s s' : SegmentReader) :
  _pick_bloom_filter_block setup conds i bf_reader j s = Done s' ->
  forall k v,
    block_disposition s k = Some v ->
    block_disposition s' k
    = Some (if bool_decide (k = j)
               && bloom_filter_rejects_block conds i bf_reader j
            then Excluded else v).
Proof.
  intros Hrun k v Hk. destruct (decide (k = j)) as [->|Hne].
  - rewrite bool_decide_eq_true_2 by done. simpl.
    unfold _pick_bloom_filter_block in Hrun. run_inv Hrun.
    apply include_blocks_get_disposition in Hm.
    assert (a = v) as -> by congruence.
    case_decide as Hv.
    { injection Hrun as <-. rewrite Hk, Hv.
      by destruct (bloom_filter_rejects_block _ _ _ _). }
    run_inv Hrun. run_inv Hrun. apply deref_Done in Hm1 as ->. run_inv Hrun.
    unfold bloom_filter_rejects_block. rewrite Hm0, Hm1.
    destruct (cond_eval_bf _ _); simpl; [by injection Hrun as <-|].
    run_inv Hrun. injection Hrun as <-.
    by apply (include_blocks_set_disposition s a2 j v Excluded).
  - rewrite bool_decide_eq_false_2 by done. simpl. rewrite <- Hk.
    apply (block_update_other j); [|done].
    by eapply _pick_bloom_filter_block_update.
Qed.

(** What a delete condition makes of one block: the larger of the
    disposition it finds and its own outcome. *)
Lemma _pick_delete_block_rank (setup : ReaderSetup) (st : SegmentReader)
  (dc : DeleteConditions) (j : Z) (s s' : SegmentReader) :
  _indices s = _indices st ->
  _pick_delete_block setup dc j s = Done s' ->
  exists v v',
    block_disposition s j = Some v /\ block_disposition s' j = Some v'
    /\ disposition_rank v'
       = Z.max (disposition_rank v) (delete_outcome setup st dc j)
    /\ (valid_disposition v -> valid_disposition v').
Proof.
  intros Hi Hrun. unfold _pick_delete_block in Hrun. run_inv Hrun.
  rename a into v. apply include_blocks_get_disposition in Hm. exists v.
  pose proof (delete_outcome_range setup st dc j) as Hrange.
  case_decide as Hv.
  { injection Hrun as <-. exists v. split; [done|]. split; [done|].
    split; [|done]. subst v. unfold disposition_rank.
    rewrite decide_True by done. lia. }
  run_inv Hrun. destruct a as [dp dn].
  assert (Hout : delete_outcome setup st dc j
                 = if dn || bool_decide (List.length (columns (del_cond dc)) = 0%nat)
                   then 0 else if dp then 1 else 2).
  { unfold delete_outcome.
    by rewrite <- (del_eval_columns_indices setup st s _ _ _ Hi), Hm0. }
  rewrite Hout. clear Hout Hrange.
  destruct (dn || bool_decide _).
  - case_decide as Hp.
    + injection Hrun as <-. exists v. split; [done|]. split; [done|].
      split; [|done]. pose proof (disposition_rank_range v). lia.
    + exists DEL_NOT_SATISFIED. split; [done|].
      split; [by eapply include_blocks_set_disposition|].
      split; [|intros _; by left].
      unfold disposition_rank, Excluded, RequiresRowFilter in *.
      repeat case_decide; try done; lia.
  - destruct dp.
    + exists DEL_PARTIAL_SATISFIED. split; [done|].
      split; [by eapply include_blocks_set_disposition|].
      split; [|intros _; right; by left].
      unfold disposition_rank, Excluded, RequiresRowFilter in *.
      repeat case_decide; try done; lia.
    + run_inv Hrun. injection Hrun as <-.
      exists DEL_SATISFIED. split; [done|].
      split; [by apply (include_blocks_set_disposition s a j v)|].
      split; [|intros _; right; by right].
      unfold disposition_rank, Excluded, RequiresRowFilter in *.
      repeat case_decide; try done; lia.
Qed.

Lemma _pick_delete_blocks_rank (setup : ReaderSetup) (st : SegmentReader)
  (dc : DeleteConditions) (l : list Z) :
  forall s s',
    _indices s = _indices st ->
    foldM (_pick_delete_block setup dc) l s = Done s' ->
    _indices s' = _indices st
    /\ forall k v,
         block_disposition s k = Some v ->
         exists v',
           block_disposition s' k = Some v'
           /\ disposition_rank v'
              = (if bool_decide (k ∈ l)
                 then Z.max (disposition_rank v) (delete_outcome setup st dc k)
                 else disposition_rank v)
           /\ (k ∉ l -> v' = v)
           /\ (valid_disposition v -> valid_disposition v').
Proof.
  induction l as [|j l IH]; intros s s' Hi; cbn [foldM].
  - intros [= <-]. split; [done|]. intros k v Hk. exists v.
    rewrite bool_decide_eq_false_2 by apply not_elem_of_nil. done.
  - intros Hrun. run_inv Hrun. rename a into s1.
    pose proof (_pick_delete_block_update _ _ _ _ _ Hm) as Hup.
    destruct (block_update_indices _ _ _ Hup) as (Hi1 & _ & _).
    rewrite Hi in Hi1.
    destruct (IH s1 s' Hi1 Hrun) as [Hi' Hrest]. split; [done|].
    intros k v Hk. destruct (decide (k = j)) as [->|Hne].
    + destruct (_pick_delete_block_rank _ _ _ _ _ _ Hi Hm)
        as (v0 & v1 & Hv0 & Hv1 & Hrank & Hvalid).
      assert (v0 = v) as -> by congruence.
      destruct (Hrest j v1 Hv1) as (v' & Hv' & Hrank' & Hsame & Hvalid').
      exists v'. split; [done|].
      rewrite bool_decide_eq_true_2 by (by left).
      split; [|split; [intros Hnot; exfalso; apply Hnot; by left | tauto]].
      rewrite Hrank'. case_bool_decide; lia.
    + rewrite <- (block_update_other j k s s1 Hup Hne) in Hk.
      destruct (Hrest k v Hk) as (v' & Hv' & Hrank' & Hsame & Hvalid').
      exists v'. split; [done|]. split; [|split; [|done]].
      * rewrite Hrank'. repeat case_bool_decide; try done.
        -- exfalso. apply H0. by right.
        -- apply elem_of_cons in H0 as [?|?]; done.
      * intros Hnot. apply Hsame. intros Hin. apply Hnot. by right.
Qed.

Lemma _pick_delete_conditions_rank (setup : ReaderSetup) (st : SegmentReader)
  (first_block last_block : Z) (dcs : list DeleteConditions) :
  forall s s',
    _indices s = _indices st ->
    foldM (_pick_delete_condition setup first_block last_block) dcs s = Done s' ->
    _indices s' = _indices st
    /\ forall k v,
         block_disposition s k = Some v ->
         exists v',
           block_disposition s' k = Some v'
           /\ disposition_rank v'
              = (if bool_decide (first_block <= k <= last_block)
                 then Z.max (disposition_rank v)
                        (foldr (fun dc acc => Z.max (delete_outcome setup st dc k) acc)
                           0 (filter (fun dc => filter_version dc > version_first setup)
                                dcs))
                 else disposition_rank v)
           /\ (~ first_block <= k <= last_block -> v' = v)
           /\ (valid_disposition v -> valid_disposition v').
Proof.
  induction dcs as [|dc dcs IH]; intros s s' Hi; simpl.
  - intros [= <-]. split; [done|]. intros k v Hk. exists v.
    split; [done|]. split; [|done].
    pose proof (disposition_rank_range v). case_bool_decide; lia.
  - intros Hrun. run_inv Hrun. rename a into s1.
    unfold _pick_delete_condition in Hm. rewrite filter_cons.
    case_decide as Hold.
    + injection Hm as <-. rewrite decide_False by lia. by apply IH.
    + rewrite decide_True by lia.
      destruct (_pick_delete_blocks_rank _ _ _ _ _ _ Hi Hm) as [Hi1 Hfirst].
      destruct (IH s1 s' Hi1 Hrun) as [Hi' Hrest]. split; [done|].
      intros k v Hk.
      destruct (Hfirst k v Hk) as (v1 & Hv1 & Hrank1 & Hsame1 & Hvalid1).
      destruct (Hrest k v1 Hv1) as (v' & Hv' & Hrank' & Hsame' & Hvalid').
      exists v'. split; [done|]. split; [|split; [|tauto]].
      * rewrite Hrank', Hrank1. simpl.
        repeat case_bool_decide; try lia.
        -- exfalso. apply H0. by apply elem_of_block_range.
        -- exfalso. apply H. by apply elem_of_block_range.
      * intros Hout. rewrite (Hsame' Hout). apply Hsame1.
        by rewrite elem_of_block_range.
Qed.

(** X6.  The delete phase combines the delete conditions by maximum.  On the
    scale [Include] < [RequiresRowFilter] < [Excluded], a block of the range
    ends at the largest of its disposition before the phase and the outcomes
    (no match, partial match, full match) of the delete conditions newer than
    the segment; so the order of the conditions does not matter.  Blocks
    outside the range keep their disposition, and so does every block when the
    handler is empty or the segment is marked as not satisfying the delete
    conditions; the phase always reports success. *)
Theorem X6_delete_phase_takes_the_maximum (setup : ReaderSetup)
  (st st' : SegmentReader) (first_block last_block : Z) (res : OLAPStatus) :
  _pick_delete_row_groups setup st first_block last_block = Done (res, st') ->
  res = OLAP_SUCCESS
  /\ forall k v,
       block_disposition st k = Some v ->
       exists v',
         block_disposition st' k = Some v'
         /\ disposition_rank v'
            = (if delete_phase_active setup
                  && bool_decide (first_block <= k <= last_block)
               then Z.max (disposition_rank v) (delete_phase_outcome setup st k)
               else disposition_rank v)
         /\ (delete_phase_active setup
             && bool_decide (first_block <= k <= last_block) = false -> v' = v)
         /\ (valid_disposition v -> valid_disposition v').
Proof.
  unfold _pick_delete_row_groups, delete_phase_active.
  destruct (delete_handler_empty (_delete_handler setup)).
  { intros [= <- <-]. split; [done|]. intros k v Hk. by exists v. }
  case_decide as Hstatus.
  { intros [= <- <-]. split; [done|]. intros k v Hk. exists v.
    by rewrite bool_decide_eq_true_2. }
  intros Hrun. run_inv Hrun. injection Hrun as <- <-. split; [done|].
  rewrite bool_decide_eq_false_2 by done. simpl.
  destruct (_pick_delete_conditions_rank _ st _ _ _ _ _ eq_refl Hm) as [_ Hall].
  intros k v Hk. destruct (Hall k v Hk) as (v' & Hv' & Hrank & Hsame & Hvalid).
  exists v'. split; [done|]. split; [done|]. split; [|done].
  intros Hout. apply Hsame. by apply bool_decide_eq_false in Hout.
Qed.

(** X7.  Dispositions only rise.  Through every evaluation of a run of the
    pruning (delete conditions, zone maps, bloom filters) the disposition of
    a block stays where it is or moves up in the order [Include] <
    [RequiresRowFilter] < [Excluded]: a block that requires a row filter is
    never plain [Include] again, and a block that starts at one of the three
    dispositions stays at one of them. *)
Theorem X7_dispositions_only_rise (setup : ReaderSetup) (st0 st : SegmentReader)
  (k v : Z) :
  reached setup st0 st ->
  block_disposition st0 k = Some v ->
  exists v',
    block_disposition st k = Some v'
    /\ disposition_rank v <= disposition_rank v'
    /\ (valid_disposition v -> valid_disposition v').
Proof.
  intros Hr Hk. induction Hr as [|j s s' _ IH Hev].
  { exists v. split; [done|]. split; [lia | done]. }
  destruct IH as (v1 & Hv1 & Hle & Hvalid).
  destruct (decide (k = j)) as [->|Hne].
  - destruct Hev as [dc j s s' Hrun|cond r j s s' Hrun|conds i r j s s' Hrun].
    + destruct (_pick_delete_block_rank setup s dc j s s' eq_refl Hrun)
        as (v0 & v' & Hv0 & Hv' & Hrank & Hvalid').
      assert (v0 = v1) as -> by congruence.
      exists v'. split; [done|]. split; [lia | tauto].
    + rewrite (_pick_zone_map_block_disposition _ _ _ _ _ _ Hrun j v1 Hv1).
      eexists. split; [done|].
      destruct (_ && _); [|tauto].
      split; [|intros _; right; by right].
      pose proof (disposition_rank_range v). unfold disposition_rank at 2.
      rewrite decide_True by done. lia.
    + rewrite (_pick_bloom_filter_block_disposition _ _ _ _ _ _ _ Hrun j v1 Hv1).
      eexists. split; [done|].
      destruct (_ && _); [|tauto].
      split; [|intros _; right; by right].
      pose proof (disposition_rank_range v). unfold disposition_rank at 2.
      rewrite decide_True by done. lia.
  - exists v1. split; [|done]. rewrite <- Hv1.
    apply (block_update_other j); [|done]. by apply (evaluation_update setup).
Qed.

(** A loop whose iterations can only exclude blocks excludes the blocks that
    some iteration rejects. *)
Lemma foldM_excluding {A : Type} (body : A -> SegmentReader -> exec SegmentReader)
  (st0 : SegmentReader) (rejects : A -> Z -> bool) (l : list A) :
  (forall a s s',
     same_indices st0 s -> body a s = Done s' ->
     same_indices st0 s'
     /\ forall k v,
          block_disposition s k = Some v ->
          block_disposition s' k = Some (if rejects a k then Excluded else v)) ->
  forall s s',
    same_indices st0 s -> foldM body l s = Done s' ->
    same_indices st0 s'
    /\ forall k v,
         block_disposition s k = Some v ->
         block_disposition s' k
         = Some (if existsb (fun a => rejects a k) l then Excluded else v).
Proof.
  intros Hbody. induction l as [|a l IH]; intros s s' Hs; simpl.
  - by intros [= <-].
  - intros Hrun. run_inv Hrun. rename a0 into s1.
    destruct (Hbody a s s1 Hs Hm) as [Hs1 Hstep].
    destruct (IH s1 s' Hs1 Hrun) as [Hs' Hrest]. split; [done|].
    intros k v Hk. rewrite (Hrest k _ (Hstep k v Hk)).
    by destruct (rejects a k), (existsb _ l).
Qed.

Lemma existsb_block_range (first_block last_block k : Z) (g : Z -> bool) :
  existsb (fun j => bool_decide (k = j) && g j) (block_range first_block last_block)
  = bool_decide (first_block <= k <= last_block) && g k.
Proof.
  apply eq_true_iff_eq. rewrite existsb_exists, andb_true_iff, bool_decide_eq_true.
  split.
  - intros (j & Hj & Hg). apply andb_true_iff in Hg as [Hkj Hg].
    apply bool_decide_eq_true in Hkj as <-.
    apply list_elem_of_In, elem_of_block_range in Hj. done.
  - intros [Hk Hg]. exists k. split.
    + by apply list_elem_of_In, elem_of_block_range.
    + by rewrite bool_decide_eq_true_2.
Qed.

Lemma existsb_andb_l {A : Type} (b : bool) (g : A -> bool) (l : list A) :
  existsb (fun a => b && g a) l = b && existsb g l.
Proof.
  destruct b; simpl; [done|]. induction l as [|a l IH]; simpl; done.
Qed.

Lemma same_indices_update (st0 s s' : SegmentReader) (j : Z) :
  same_indices st0 s -> block_update j s s' -> same_indices st0 s'.
Proof.
  intros [Hi Hb] Hup. destruct (block_update_indices _ _ _ Hup) as (Hi' & Hb' & _).
  split; congruence.
Qed.

(** X8.  The zone-map phase excludes exactly the blocks of the range whose
    zone map fails the predicate of some column of the conditions that is a
    key column (aggregation NONE) and is present in the segment; every other
    block keeps the disposition it had. *)
Theorem X8_zone_map_phase_result (setup : ReaderSetup) (conds : Conditions)
  (first_block last_block : Z) (st st' : SegmentReader) :
  zone_map_phase setup conds first_block last_block st = Done st' ->
  forall k v,
    block_disposition st k = Some v ->
    block_disposition st' k
    = Some (if bool_decide (first_block <= k <= last_block)
               && zone_map_rejects setup st conds k
            then Excluded else v).
Proof.
  unfold zone_map_phase. intros Hrun.
  destruct (foldM_excluding (_pick_zone_map_column setup first_block last_block)
              st (fun col k => bool_decide (first_block <= k <= last_block)
                               && zone_map_rejects_column setup st k col)
              (columns conds)) with (s := st) (s' := st') as [_ Hall];
    [|done|done|].
  - intros col s s' Hs. unfold _pick_zone_map_column, zone_map_rejects_column.
    destruct (_get_aggregation_by_index setup col.1).
    2:{ intros [= <-]. split; [done|]. intros k v Hk. by rewrite andb_false_r. }
    case_decide as Hseg.
    { intros [= <-]. split; [done|]. intros k v Hk. by rewrite andb_false_r. }
    destruct Hs as [Hi Hb]. rewrite Hi. intros Hcol.
    destruct (foldM_excluding
                (_pick_zone_map_block setup col.2
                   (_indices st !! map_index (_tablet_id_to_unique_id_map setup) col.1))
                st (fun j k => bool_decide (k = j)
                               && zone_map_rejects_block col.2
                                    (_indices st !! map_index
                                       (_tablet_id_to_unique_id_map setup) col.1) j)
                (block_range first_block last_block)) with (s := s) (s' := s')
      as [Hs' Hblocks]; [|done|done|].
    + intros j t t' Ht Hblock. split.
      * eapply same_indices_update; [done|].
        by eapply _pick_zone_map_block_update.
      * by apply (_pick_zone_map_block_disposition setup).
    + split; [done|]. intros k v Hk. rewrite (Hblocks k v Hk).
      by rewrite existsb_block_range.
  - intros k v Hk. rewrite (Hall k v Hk). unfold zone_map_rejects.
    by rewrite existsb_andb_l.
Qed.

(** X9.  The bloom-filter phase excludes exactly the blocks of the range
    whose bloom filter fails the predicate of some column of [_load_bf_columns]
    that is a key column and is present in the segment; every other block
    keeps the disposition it had. *)
Theorem X9_bloom_filter_phase_result (setup : ReaderSetup) (conds : Conditions)
  (first_block last_block : Z) (st st' : SegmentReader) :
  bloom_filter_phase setup conds first_block last_block st = Done st' ->
  forall k v,
    block_disposition st k = Some v ->
    block_disposition st' k
    = Some (if bool_decide (first_block <= k <= last_block)
               && bloom_filter_rejects setup st conds k
            then Excluded else v).
Proof.
  unfold bloom_filter_phase. intros Hrun.
  destruct (foldM_excluding
              (_pick_bloom_filter_column setup conds first_block last_block)
              st (fun i k => bool_decide (first_block <= k <= last_block)
                             && bloom_filter_rejects_column setup st conds k i)
              (_load_bf_columns setup)) with (s := st) (s' := st') as [_ Hall];
    [|done|done|].
  - intros i s s' Hs. unfold _pick_bloom_filter_column, bloom_filter_rejects_column.
    destruct (_get_aggregation_by_index setup i).
    2:{ intros [= <-]. split; [done|]. intros k v Hk. by rewrite andb_false_r. }
    case_decide as Hseg.
    { intros [= <-]. split; [done|]. intros k v Hk. by rewrite andb_false_r. }
    destruct Hs as [Hi Hb]. rewrite Hb. intros Hcol.
    destruct (foldM_excluding
                (_pick_bloom_filter_block setup conds i
                   (_bloom_filters st !! map_index (_tablet_id_to_unique_id_map setup) i))
                st (fun j k => bool_decide (k = j)
                               && bloom_filter_rejects_block conds i
                                    (_bloom_filters st !! map_index
                                       (_tablet_id_to_unique_id_map setup) i) j)
                (block_range first_block last_block)) with (s := s) (s' := s')
      as [Hs' Hblocks]; [|done|done|].
    + intros j t t' Ht Hblock. split.
      * eapply same_indices_update; [done|].
        by eapply _pick_bloom_filter_block_update.
      * by apply (_pick_bloom_filter_block_disposition setup).
    + split; [done|]. intros k v Hk. rewrite (Hblocks k v Hk).
      by rewrite existsb_block_range.
  - intros k v Hk. rewrite (Hall k v Hk). unfold bloom_filter_rejects.
    by rewrite existsb_andb_l.
Qed.

End PruningResults.

Section RowAccountingResults.
Context {collab : Collaborators}.

(** ** Rows and statistics *)

Lemma rows_in_insert (rows : Z -> Z) (arr : list Z) (i : nat) (v v' k : Z) :
  arr !! i = Some v ->
  rows_in rows (<[i := v']> arr) k
  = rows_in rows arr k
    - (if decide (v = Excluded) then 0 else rows (k + Z.of_nat i))
    + (if decide (v' = Excluded) then 0 else rows (k + Z.of_nat i)).
Proof.
  revert i k. induction arr as [|x arr IH]; intros [|i] k Hv; simpl in *; try done.
  - injection Hv as ->. replace (k + Z.of_nat 0) with k by lia.
    repeat case_decide; lia.
  - rewrite (IH i (k + 1) Hv).
    replace (k + Z.of_nat (S i)) with (k + 1 + Z.of_nat i) by lia.
    repeat case_decide; lia.
Qed.

Lemma rows_in_nonneg (rows : Z -> Z) (arr : list Z) (k : Z) :
  (forall j, k <= j < k + Z.of_nat (List.length arr) -> 0 <= rows j) ->
  0 <= rows_in rows arr k.
Proof.
  revert k. induction arr as [|x arr IH]; intros k Hrows; simpl; [lia|].
  assert (0 <= rows_in rows arr (k + 1)).
  { apply IH. intros j Hj. apply Hrows. simpl. lia. }
  assert (0 <= rows k) by (apply Hrows; simpl; lia).
  case_decide; lia.
Qed.

(** What one evaluation does to the array and to the statistics. *)
Lemma evaluation_rows (setup : ReaderSetup) (j : Z) (s s' : SegmentReader) :
  evaluation setup j s s' ->
  exists arr v v',
    _include_blocks s = Some arr /\ 0 <= j /\ arr !! Z.to_nat j = Some v
    /\ _include_blocks s' = Some (<[Z.to_nat j := v']> arr)
    /\ _block_count s' = _block_count s
    /\ ((v ≠ Excluded /\ v' = Excluded
         /\ ((rows_del_filtered (_stats s')
              = int64_of (rows_del_filtered (_stats s) + rows_of_block setup s j)
              /\ rows_stats_filtered (_stats s') = rows_stats_filtered (_stats s))
             \/ (rows_stats_filtered (_stats s')
                 = int64_of (rows_stats_filtered (_stats s) + rows_of_block setup s j)
                 /\ rows_del_filtered (_stats s') = rows_del_filtered (_stats s))))
        \/ ((v = Excluded <-> v' = Excluded) /\ _stats s' = _stats s)).
Proof.
  assert (Hsame : forall j t arr v,
             _include_blocks t = Some arr -> 0 <= j ->
             arr !! Z.to_nat j = Some v ->
             exists arr0 v0 v',
               _include_blocks t = Some arr0 /\ 0 <= j
               /\ arr0 !! Z.to_nat j = Some v0
               /\ _include_blocks t = Some (<[Z.to_nat j := v']> arr0)
               /\ _block_count t = _block_count t
               /\ ((v0 ≠ Excluded /\ v' = Excluded
                    /\ ((rows_del_filtered (_stats t)
                         = int64_of (rows_del_filtered (_stats t)
                                     + rows_of_block setup t j)
                         /\ rows_stats_filtered (_stats t)
                            = rows_stats_filtered (_stats t))
                        \/ (rows_stats_filtered (_stats t)
                            = int64_of (rows_stats_filtered (_stats t)
                                        + rows_of_block setup t j)
                            /\ rows_del_filtered (_stats t)
                               = rows_del_filtered (_stats t))))
                   \/ ((v0 = Excluded <-> v' = Excluded) /\ _stats t = _stats t))).
  { intros j1 t arr v Harr Hj Hv. exists arr, v, v.
    rewrite list_insert_id by done. do 5 (split; [done|]). by right. }
  assert (Hset : forall j t t' arr v x,
             _include_blocks t = Some arr -> 0 <= j ->
             arr !! Z.to_nat j = Some v ->
             include_blocks_set t j x = Done t' ->
             _include_blocks t' = Some (<[Z.to_nat j := x]> arr)
             /\ _block_count t' = _block_count t /\ _stats t' = _stats t).
  { intros j1 t t' arr v x Harr Hj Hv Hrun.
    apply include_blocks_set_Done in Hrun as (arr' & Harr' & ->).
    assert (arr' = arr) as -> by congruence. done. }
  intros [dc j0 t t' Hrun|cond r j0 t t' Hrun|conds i r j0 t t' Hrun].
  - unfold _pick_delete_block in Hrun. run_inv Hrun. rename a into v.
    apply include_blocks_get_Done in Hm as (arr & Harr & Hj & Hv).
    case_decide as Hex; [injection Hrun as <-; by eapply Hsame|].
    run_inv Hrun. destruct a as [dp dn].
    destruct (dn || bool_decide _).
    + case_decide as Hp; [injection Hrun as <-; by eapply Hsame|].
      destruct (Hset _ _ _ _ _ _ Harr Hj Hv Hrun) as (Harr' & Hbc & Hstats).
      exists arr, v, DEL_NOT_SATISFIED. do 5 (split; [done|]). right.
      split; [|done]. split; [done | discriminate].
    + destruct dp.
      * destruct (Hset _ _ _ _ _ _ Harr Hj Hv Hrun) as (Harr' & Hbc & Hstats).
        exists arr, v, DEL_PARTIAL_SATISFIED. do 5 (split; [done|]). right.
        split; [|done]. split; [done | discriminate].
      * run_inv Hrun. injection Hrun as <-.
        destruct (Hset _ _ _ _ _ _ Harr Hj Hv Hm0) as (Harr' & Hbc & Hstats).
        exists arr, v, DEL_SATISFIED. do 3 (split; [done|]).
        split; [done|]. split; [done|]. left. split; [done|]. split; [done|].
        left. unfold add_rows_del_filtered, rows_of_block, dec_remain_block. simpl.
        rewrite Hbc, Hstats. done.
  - unfold _pick_zone_map_block in Hrun. run_inv Hrun. rename a into v.
    apply include_blocks_get_Done in Hm as (arr & Harr & Hj & Hv).
    case_decide as Hex; [injection Hrun as <-; by eapply Hsame|].
    run_inv Hrun. run_inv Hrun.
    destruct (cond_eval _ _); [injection Hrun as <-; by eapply Hsame|].
    run_inv Hrun. injection Hrun as <-.
    destruct (Hset _ _ _ _ _ _ Harr Hj Hv Hm1) as (Harr' & Hbc & Hstats).
    exists arr, v, DEL_SATISFIED. do 3 (split; [done|]).
    split; [done|]. split; [done|]. left. split; [done|]. split; [done|].
    right. unfold add_rows_stats_filtered, rows_of_block, dec_remain_block. simpl.
    rewrite Hbc, Hstats. done.
  - unfold _pick_bloom_filter_block in Hrun. run_inv Hrun. rename a into v.
    apply include_blocks_get_Done in Hm as (arr & Harr & Hj & Hv).
    case_decide as Hex; [injection Hrun as <-; by eapply Hsame|].
    run_inv Hrun. run_inv Hrun. run_inv Hrun.
    destruct (cond_eval_bf _ _); [injection Hrun as <-; by eapply Hsame|].
    run_inv Hrun. injection Hrun as <-.
    destruct (Hset _ _ _ _ _ _ Harr Hj Hv Hm2) as (Harr' & Hbc & Hstats).
    exists arr, v, DEL_SATISFIED. do 3 (split; [done|]).
    split; [done|]. split; [done|]. left. split; [done|]. split; [done|].
    right. unfold add_rows_stats_filtered, rows_of_block, dec_remain_block. simpl.
    rewrite Hbc, Hstats. done.
Qed.

Lemma rows_of_block_count (setup : ReaderSetup) (s t : SegmentReader) (j : Z) :
  _block_count s = _block_count t ->
  rows_of_block setup s j = rows_of_block setup t j.
Proof. intros Hbc. unfold rows_of_block. by rewrite Hbc. Qed.

(** Along a run of the pruning, the rows counted as filtered and the rows of
    the blocks that remain add up to the same total. *)
Lemma reached_rows (setup : ReaderSetup) (st0 st : SegmentReader) (arr0 : list Z) :
  _include_blocks st0 = Some arr0 ->
  (forall j, 0 <= j < Z.of_nat (List.length arr0) ->
             0 <= rows_of_block setup st0 j) ->
  0 <= rows_del_filtered (_stats st0) ->
  0 <= rows_stats_filtered (_stats st0) ->
  rows_filtered st0 + rows_remaining setup st0 < 2 ^ 63 ->
  reached setup st0 st ->
  (exists arr, _include_blocks st = Some arr
               /\ List.length arr = List.length arr0)
  /\ _block_count st = _block_count st0
  /\ rows_del_filtered (_stats st0) <= rows_del_filtered (_stats st)
  /\ rows_stats_filtered (_stats st0) <= rows_stats_filtered (_stats st)
  /\ rows_filtered st + rows_remaining setup st
     = rows_filtered st0 + rows_remaining setup st0.
Proof.
  intros Harr0 Hrows Hd0 Hs0 Hbound Hr.
  induction Hr as [|j s s' _ IH Hev].
  { split; [eauto|]. do 3 (split; [done|]). done. }
  destruct IH as ((arr & Harr & Hlen) & Hbc & Hd & Hs & Htotal).
  destruct (evaluation_rows _ _ _ _ Hev)
    as (arr1 & v & v' & Harr1 & Hj & Hv & Harr' & Hbc' & Hcase).
  assert (arr1 = arr) as -> by congruence.
  assert (Hfun : rows_of_block setup s' = rows_of_block setup s).
  { unfold rows_of_block. by rewrite Hbc'. }
  split; [eexists; split; [done|]; by rewrite length_insert|].
  split; [congruence|].
  unfold rows_filtered, rows_remaining in *.
  rewrite Harr', Hfun, (rows_in_insert _ _ _ _ _ _ Hv). rewrite Harr in Htotal.
  rewrite Harr0 in Htotal, Hbound. rewrite Harr0.
  assert (Hrest : 0 <= rows_in (rows_of_block setup s) (<[Z.to_nat j := v']> arr) 0).
  { apply rows_in_nonneg. intros i Hi. rewrite length_insert in Hi.
    rewrite (rows_of_block_count setup s st0) by done. apply Hrows. lia. }
  rewrite (rows_in_insert _ _ _ _ _ _ Hv) in Hrest.
  replace (0 + Z.of_nat (Z.to_nat j)) with j in * by lia.
  assert (Hblock : 0 <= rows_of_block setup s j).
  { rewrite (rows_of_block_count setup s st0) by done. apply Hrows.
    apply lookup_lt_Some in Hv. lia. }
  destruct Hcase as [(Hne & -> & Hstats)|[Hiff Hstats]].
  - rewrite decide_False in * by done. rewrite decide_True in * by done.
    destruct Hstats as [[Hd' Hs']|[Hs' Hd']]; rewrite Hd', Hs';
      rewrite int64_of_small by lia; lia.
  - rewrite Hstats.
    destruct (decide (v = Excluded)) as [Hv0|Hv0].
    + rewrite decide_True in * by tauto. lia.
    + rewrite decide_False in * by tauto. lia.
Qed.

(** X10.  The statistics of the pruning account for every row.  In a run of
    [_pick_row_groups] on a range inside the segment whose blocks have
    non-negative sizes, with counters that start non-negative and do not
    overflow, the rows counted as filtered ([rows_del_filtered] plus
    [rows_stats_filtered]) grow by exactly the rows of the blocks that the run
    excludes: what was counted before plus the rows of the whole range equals
    what is counted after plus the rows of the blocks that remain.  Neither
    counter decreases. *)
Theorem X10_filtered_rows_are_accounted (setup : ReaderSetup)
  (st st' : SegmentReader) (first_block last_block : Z) (r : pick_return) :
  0 <= first_block -> first_block <= last_block ->
  last_block < _block_count st ->
  _remain_block st = last_block - first_block + 1 ->
  array_available st ->
  (forall j, 0 <= j < _block_count st -> 0 <= rows_of_block setup st j) ->
  0 <= rows_del_filtered (_stats st) ->
  0 <= rows_stats_filtered (_stats st) ->
  rows_filtered st
  + rows_in (rows_of_block setup st)
      (initial_blocks (_block_count st) first_block last_block) 0 < 2 ^ 63 ->
  _pick_row_groups setup st first_block last_block = Done (r, st') ->
  rows_filtered st' + rows_remaining setup st'
  = rows_filtered st
    + rows_in (rows_of_block setup st)
        (initial_blocks (_block_count st) first_block last_block) 0
  /\ rows_del_filtered (_stats st) <= rows_del_filtered (_stats st')
  /\ rows_stats_filtered (_stats st) <= rows_stats_filtered (_stats st').
Proof.
  intros Hf Hfl Hl Hrem Hav Hrows Hd Hs Hbound. unfold _pick_row_groups.
  rewrite decide_False by lia.
  rewrite (_init_include_blocks_spec setup st first_block last_block) by done.
  simpl. intros Hrun. apply _pick_row_groups_phases_reached in Hrun.
  set (arr0 := initial_blocks (_block_count st) first_block last_block) in *.
  set (st0 := set_include_blocks (Some arr0) st) in *.
  assert (Hrows0 : forall j, 0 <= j < Z.of_nat (List.length arr0) ->
                             0 <= rows_of_block setup st0 j).
  { intros j Hj. unfold arr0 in Hj. rewrite initial_blocks_length in Hj by done.
    by apply Hrows. }
  destruct (reached_rows setup st0 st' arr0 eq_refl Hrows0 Hd Hs Hbound Hrun)
    as (_ & _ & Hd' & Hs' & Htotal).
  split; [exact Htotal|]. split; [exact Hd' | exact Hs'].
Qed.

End RowAccountingResults.

Section IndexLoading.
Context {collab : Collaborators}.

(** ** Index loading *)

Lemma for_each_stream_invariant {T : Type} (cast : Z -> Z)
  (body : Z -> StreamInfoMessage.t -> T -> exec (flow T)) (P : T -> Prop) :
  (forall off m s s', body off m s = Done (Next s') -> P s -> P s') ->
  forall infos off s f,
    for_each_stream cast body infos off s = Done f -> P s ->
    match f with
    | Next s' => P s'
    | Return res s' =>
        exists off' m s0, P s0 /\ body off' m s0 = Done (Return res s')
    end.
Proof.
  intros Hbody. induction infos as [|m infos IH]; intros off s f; simpl.
  - by intros [= <-].
  - unfold flow_then. intros Hrun HP. run_inv Hrun.
    destruct a as [s1|res s1].
    + eapply IH; [exact Hrun|]. by eapply Hbody.
    + injection Hrun as <-. eauto.
Qed.





(** What parsing a buffer changes of the reader, whichever way it ends. *)
Lemma _load_index_parse_state (setup : ReaderSetup) (message : StreamInfoMessage.t)
  (type : Z) (buf : Buffer) (l : load_index_locals) (t : SegmentReader) :
  let s' := parse_state (_load_index_parse setup message type buf l t) in
  s'.1 = l /\ _lru_cache s'.2 = _lru_cache t
  /\ _cache_handle s'.2 = _cache_handle t
  /\ ((_indices s'.2 = _indices t /\ _bloom_filters s'.2 = _bloom_filters t)
      \/ (StreamInfoMessage.kind message = ROW_INDEX
          /\ _bloom_filters s'.2 = _bloom_filters t
          /\ exists entries,
               _indices s'.2
               = <[StreamInfoMessage.column_unique_id message :=
                     {| sir_buffer := buf;
                        sir_is_using_cache := is_using_cache l;
                        sir_entries := entries |}]> (_indices t))
      \/ (StreamInfoMessage.kind message ≠ ROW_INDEX
          /\ _indices s'.2 = _indices t
          /\ exists entries,
               _bloom_filters s'.2
               = <[StreamInfoMessage.column_unique_id message :=
                     {| bfr_buffer := buf;
                        bfr_is_using_cache := is_using_cache l;
                        bfr_entries := entries |}]> (_bloom_filters t))).
Proof.
  unfold _load_index_parse. case_decide as Hkind.
  - destruct (negb _); simpl; [by repeat split; try left|].
    destruct (StreamIndexReader_init _ _ _ _) as [r entries].
    case_decide; simpl; [by repeat split; try left|].
    do 3 (split; [done|]). right. left. split; [done|]. split; [done|].
    by eexists.
  - destruct (negb _); simpl; [by repeat split; try left|].
    destruct (BloomFilterIndexReader_init _ _ _ _) as [r entries].
    case_decide; simpl; [by repeat split; try left|].
    do 3 (split; [done|]). right. right. split; [done|]. split; [done|].
    by eexists.
Qed.

Lemma vector_set_Done {A : Type} (v v' : list A) (i : Z) (a : A) :
  vector_set v i a = Done v' -> v' = <[Z.to_nat i := a]> v.
Proof. unfold vector_set. case_decide; [|discriminate]. by intros [= <-]. Qed.

Lemma Cache_lookup_Some (c : gmap CacheKey Buffer) (key : CacheKey)
  (h : CacheHandle) :
  Cache_lookup c key = Some h -> c !! key = Some (Cache_value h).
Proof.
  unfold Cache_lookup. destruct (c !! key) as [b|]; [|discriminate].
  by intros [= <-].
Qed.

Lemma Cache_lookup_None (c : gmap CacheKey Buffer) (key : CacheKey) :
  Cache_lookup c key = None <-> c !! key = None.
Proof. unfold Cache_lookup. by destruct (c !! key). Qed.

Lemma _load_index_stream_state (setup : ReaderSetup) (stream_offset : Z)
  (message : StreamInfoMessage.t) (s : load_index_locals * SegmentReader)
  (f : flow (load_index_locals * SegmentReader)) :
  _load_index_stream setup (expected_blocks_of setup) stream_offset message s
  = Done f ->
  exists out, _load_index_fetch setup stream_offset message s = Done out
              /\ flow_state f = parse_state out.
Proof.
  unfold _load_index_stream. intros Hrun. run_inv Hrun. exists a. split; [done|].
  destruct a as [s1|res s1|s1]; try by injection Hrun as <-.
  unfold _load_index_check in Hrun. by case_decide; injection Hrun as <-.
Qed.

(** An iteration with caching off that finds nothing in the cache. *)
Lemma _load_index_fetch_without_cache (setup : ReaderSetup) (st0 : SegmentReader)
  (stream_offset : Z) (message : StreamInfoMessage.t)
  (s : load_index_locals * SegmentReader) (out : parse_result) :
  (forall u k,
     _lru_cache st0 !! _construct_index_stream_key (_file_name setup) u k = None) ->
  _load_index_fetch setup stream_offset message s = Done out ->
  is_using_cache s.1 = false /\ _lru_cache s.2 = _lru_cache st0
  /\ Forall (fun h => h = None) (_cache_handle s.2)
  /\ indexes_own_buffers s.2 ->
  is_using_cache (parse_state out).1 = false
  /\ _lru_cache (parse_state out).2 = _lru_cache st0
  /\ Forall (fun h => h = None) (_cache_handle (parse_state out).2)
  /\ indexes_own_buffers (parse_state out).2.
Proof.
  intros Hnokey. destruct s as [loc st]. simpl.
  assert (Hparse : forall type buf l t,
             is_using_cache l = false -> _lru_cache t = _lru_cache st0 ->
             Forall (fun h => h = None) (_cache_handle t) ->
             indexes_own_buffers t ->
             let s' := parse_state (_load_index_parse setup message type buf l t) in
             is_using_cache s'.1 = false /\ _lru_cache s'.2 = _lru_cache st0
             /\ Forall (fun h => h = None) (_cache_handle s'.2)
             /\ indexes_own_buffers s'.2).
  { intros type buf l t Hl Hc Hh [Hidx Hbf].
    destruct (_load_index_parse_state setup message type buf l t)
      as (H1 & H2 & H3 & Hmaps).
    simpl. rewrite H1, H2, H3. do 3 (split; [done|]).
    destruct Hmaps as [[Hi Hb]|[(_ & Hb & entries & Hi)|(_ & Hi & entries & Hb)]];
      unfold indexes_own_buffers; rewrite Hi, Hb; split; try done.
    - intros u r.
      destruct (decide (StreamInfoMessage.column_unique_id message = u)) as [->|Hne].
      + rewrite lookup_insert_eq. by intros [= <-].
      + rewrite lookup_insert_ne by done. apply Hidx.
    - intros u r.
      destruct (decide (StreamInfoMessage.column_unique_id message = u)) as [->|Hne].
      + rewrite lookup_insert_eq. by intros [= <-].
      + rewrite lookup_insert_ne by done. apply Hbf. }
  unfold _load_index_fetch.
  case_decide; [by intros [= <-]|]. destruct (negb _); [by intros [= <-]|].
  intros Hrun (Hl & Hc & Hh & Hown). run_inv Hrun.
  assert (Hmiss : Cache_lookup (_lru_cache st)
                    (_construct_index_stream_key (_file_name setup)
                       (StreamInfoMessage.column_unique_id message)
                       (StreamInfoMessage.kind message)) = None).
  { apply Cache_lookup_None. rewrite Hc. apply Hnokey. }
  rewrite Hmiss in Hrun, Hm. apply vector_set_Done in Hm as ->.
  assert (Hh' : Forall (fun h : option CacheHandle => h = None)
                  (<[Z.to_nat (cache_handle_index loc) := None]> (_cache_handle st))).
  { destruct (decide (Z.to_nat (cache_handle_index loc)
                      < List.length (_cache_handle st))%nat).
    - by apply Forall_insert.
    - by rewrite list_insert_ge by lia. }
  destruct (negb _); [by injection Hrun as <-|].
  destruct (read_all _ _) as [res stream_buffer].
  case_decide; [by injection Hrun as <-|].
  rewrite Hl in Hrun. injection Hrun as <-. by apply Hparse.
Qed.

(** X12.  [_load_index] with caching disabled, on a cache that holds no
    stream of this file: whatever it returns, it has inserted nothing into the
    cache, every slot of [_cache_handle] is null, and every index structure it
    built owns its buffer. *)
Theorem X12_load_index_without_cache (setup : ReaderSetup)
  (st st' : SegmentReader) (res : OLAPStatus) :
  (forall u k,
     _lru_cache st !! _construct_index_stream_key (_file_name setup) u k = None) ->
  Forall (fun h => h = None) (_cache_handle st) ->
  indexes_own_buffers st ->
  _load_index setup false st = Done (res, st') ->
  _lru_cache st' = _lru_cache st
  /\ Forall (fun h => h = None) (_cache_handle st')
  /\ indexes_own_buffers st'.
Proof.
  intros Hnokey Hh Hown. unfold _load_index.
  assert (Hresized : Forall (fun h : option CacheHandle => h = None)
                       (resize (Z.to_nat (_get_included_row_index_stream_num setup))
                          None (_cache_handle st)))
    by (by apply Forall_resize).
  case_decide as Hinit; [by intros [= _ <-]|].
  intros Hrun. run_inv Hrun.
  pose (P := fun s : load_index_locals * SegmentReader =>
               is_using_cache s.1 = false /\ _lru_cache s.2 = _lru_cache st
               /\ Forall (fun h => h = None) (_cache_handle s.2)
               /\ indexes_own_buffers s.2).
  assert (Hend : P (flow_state a)).
  { eapply (for_each_stream_preserves wrap64
              (_load_index_stream setup (expected_blocks_of setup)) P);
      [|exact Hm|].
    - intros off m s f Hbody HP.
      destruct (_load_index_stream_state _ _ _ _ _ Hbody) as (out & Hfetch & ->).
      by eapply _load_index_fetch_without_cache.
    - unfold P, _load_index_start, indexes_own_buffers. simpl.
      do 3 (split; [done|]). split; intros u r; by rewrite lookup_empty. }
  destruct Hend as (_ & Hc & Hh' & Hown').
  by destruct a; injection Hrun as _ <-.
Qed.

(** An iteration with caching on. *)
Lemma _load_index_fetch_with_cache (setup : ReaderSetup) (st0 : SegmentReader)
  (stream_offset : Z) (message : StreamInfoMessage.t)
  (s : load_index_locals * SegmentReader) (out : parse_result) :
  _load_index_fetch setup stream_offset message s = Done out ->
  is_using_cache s.1 = true
  /\ _lru_cache st0 ⊆ _lru_cache s.2
  /\ indexes_in_cache setup s.2 ->
  is_using_cache (parse_state out).1 = true
  /\ _lru_cache st0 ⊆ _lru_cache (parse_state out).2
  /\ indexes_in_cache setup (parse_state out).2.
Proof.
  destruct s as [loc st]. simpl.
  assert (Hparse : forall type buf l t,
             StreamInfoMessage.kind message = ROW_INDEX
             \/ StreamInfoMessage.kind message = BLOOM_FILTER ->
             is_using_cache l = true -> _lru_cache st0 ⊆ _lru_cache t ->
             indexes_in_cache setup t ->
             _lru_cache t !! _construct_index_stream_key (_file_name setup)
                               (StreamInfoMessage.column_unique_id message)
                               (StreamInfoMessage.kind message) = Some buf ->
             let s' := parse_state (_load_index_parse setup message type buf l t) in
             is_using_cache s'.1 = true /\ _lru_cache st0 ⊆ _lru_cache s'.2
             /\ indexes_in_cache setup s'.2).
  { intros type buf l t Hkind Hl Hc [Hidx Hbf] Hkey.
    destruct (_load_index_parse_state setup message type buf l t)
      as (H1 & H2 & H3 & Hmaps).
    simpl. rewrite H1, H2. do 2 (split; [done|]).
    destruct Hmaps as [[Hi Hb]|[(Hk & Hb & entries & Hi)|(Hk & Hi & entries & Hb)]];
      unfold indexes_in_cache; rewrite Hi, Hb, H2; split; try done.
    - intros u r.
      destruct (decide (StreamInfoMessage.column_unique_id message = u)) as [<-|Hne].
      + rewrite lookup_insert_eq. intros [= <-]. simpl. split; [done|].
        rewrite Hk in Hkey. exact Hkey.
      + rewrite lookup_insert_ne by done. apply Hidx.
    - intros u r.
      destruct (decide (StreamInfoMessage.column_unique_id message = u)) as [<-|Hne].
      + rewrite lookup_insert_eq. intros [= <-]. simpl. split; [done|].
        destruct Hkind as [?|Hbloom]; [done|]. rewrite Hbloom in Hkey.
        exact Hkey.
      + rewrite lookup_insert_ne by done. apply Hbf. }
  unfold _load_index_fetch.
  case_decide; [by intros [= <-]|].
  destruct (negb _) eqn:Hneeded; [by intros [= <-]|].
  assert (Hkind : StreamInfoMessage.kind message = ROW_INDEX
                  \/ StreamInfoMessage.kind message = BLOOM_FILTER).
  { apply negb_false_iff, orb_true_iff in Hneeded as [Hn|Hn];
      apply andb_true_iff in Hn as [_ Hn]; apply bool_decide_eq_true in Hn; tauto. }
  clear Hneeded.
  intros Hrun (Hl & Hc & Hin). run_inv Hrun. apply vector_set_Done in Hm as ->.
  destruct (Cache_lookup _ _) as [handle|] eqn:Hlookup.
  - injection Hrun as <-. apply Cache_lookup_Some in Hlookup.
    by apply Hparse.
  - apply Cache_lookup_None in Hlookup.
    destruct (negb _); [by injection Hrun as <-|].
    destruct (read_all _ _) as [res stream_buffer].
    case_decide; [by injection Hrun as <-|].
    rewrite Hl in Hrun. unfold Cache_insert in Hrun.
    destruct (lru_insert_ok _ _).
    2:{ run_inv Hrun. discriminate. }
    run_inv Hrun. apply vector_set_Done in Hm as ->. injection Hrun as <-.
    apply Hparse; simpl; try done.
    + etrans; [exact Hc|]. by apply insert_subseteq.
    + destruct Hin as [Hidx Hbf]. unfold indexes_in_cache. simpl. split.
      * intros u r Hr. destruct (Hidx u r Hr) as [Hflag Hbuf]. split; [done|].
        rewrite lookup_insert_ne; [done|]. intros Heq. rewrite <- Heq in Hbuf.
        by rewrite Hlookup in Hbuf.
      * intros u r Hr. destruct (Hbf u r Hr) as [Hflag Hbuf]. split; [done|].
        rewrite lookup_insert_ne; [done|]. intros Heq. rewrite <- Heq in Hbuf.
        by rewrite Hlookup in Hbuf.
    + apply lookup_insert_eq.
Qed.

(** X13.  [_load_index] with caching enabled: whatever it returns, the cache
    still holds everything it held before, and every index structure of the
    reader is flagged as using the cache and has its buffer in the cache under
    the key of its stream (file name, column unique id, stream kind): what was
    read from the file on a miss can be found by the next lookup. *)
Theorem X13_load_index_with_cache (setup : ReaderSetup)
  (st st' : SegmentReader) (res : OLAPStatus) :
  indexes_in_cache setup st ->
  _load_index setup true st = Done (res, st') ->
  _lru_cache st ⊆ _lru_cache st' /\ indexes_in_cache setup st'.
Proof.
  intros Hin. unfold _load_index.
  case_decide as Hinit; [by intros [= _ <-]|].
  intros Hrun. run_inv Hrun.
  pose (P := fun s : load_index_locals * SegmentReader =>
               is_using_cache s.1 = true /\ _lru_cache st ⊆ _lru_cache s.2
               /\ indexes_in_cache setup s.2).
  assert (Hend : P (flow_state a)).
  { eapply (for_each_stream_preserves wrap64
              (_load_index_stream setup (expected_blocks_of setup)) P);
      [|exact Hm|].
    - intros off m s f Hbody HP.
      destruct (_load_index_stream_state _ _ _ _ _ Hbody) as (out & Hfetch & ->).
      by eapply _load_index_fetch_with_cache.
    - unfold P, _load_index_start, indexes_in_cache. simpl.
      do 2 (split; [done|]). split; intros u r; by rewrite lookup_empty. }
  destruct Hend as (_ & Hc & Hin').
  by destruct a; injection Hrun as _ <-.
Qed.

End IndexLoading.

Section DataLoading.
Context {collab : Collaborators}.

(** ** Data streams and column readers *)

(** One iteration of [_read_all_data_streams] that lets the loop go on. *)
Lemma _read_all_data_stream_Next (setup : ReaderSetup) (stream_offset : Z)
  (m : StreamInfoMessage.t) (st st' : SegmentReader) :
  _read_all_data_stream setup stream_offset m st = Done (Next st') ->
  if data_stream_needed setup m
  then _streams st'
       = <[stream_name m := {| rs_offset := stream_offset;
                               rs_length := StreamInfoMessage.length m |}]>
           (_streams st)
  else st' = st.
Proof.
  unfold _read_all_data_stream, data_stream_needed, stream_name. cbv zeta.
  destruct (nothrow_new NewReadOnlyFileStream);
    repeat case_decide; repeat case_bool_decide; simpl;
    try discriminate; try tauto;
    by intros [= <-].
Qed.

Lemma _read_all_data_stream_Return (setup : ReaderSetup) (stream_offset : Z)
  (m : StreamInfoMessage.t) (st st' : SegmentReader) (res : OLAPStatus) :
  _read_all_data_stream setup stream_offset m st = Done (Return res st') ->
  res ≠ OLAP_SUCCESS.
Proof.
  unfold _read_all_data_stream.
  case_decide; [discriminate|]. destruct (_ && _); [discriminate|].
  destruct (_ || _); [discriminate|].
  destruct (negb _); [by intros [= <- _]|].
  case_decide; [|discriminate]. intros [= <- _]. congruence.
Qed.

Lemma _read_all_data_streams_loop_Next (setup : ReaderSetup)
  (infos : list StreamInfoMessage.t) :
  forall stream_offset st st',
    for_each_stream int64_of (_read_all_data_stream setup) infos stream_offset st
    = Done (Next st') ->
    forall name s,
      _streams st' !! name = Some s ->
      _streams st !! name = Some s
      \/ exists m, m ∈ infos /\ data_stream_needed setup m = true
                   /\ stream_name m = name
                   /\ rs_length s = StreamInfoMessage.length m.
Proof.
  induction infos as [|m infos IH]; intros off st st'; simpl.
  - intros [= <-] name s Hs. by left.
  - unfold flow_then. intros Hrun. run_inv Hrun.
    destruct a as [st1|res st1]; [|discriminate].
    intros name s Hs. destruct (IH _ _ _ Hrun name s Hs) as [Hold|Hnew].
    + apply _read_all_data_stream_Next in Hm.
      destruct (data_stream_needed setup m) eqn:Hneeded; [|subst st1; by left].
      rewrite Hm in Hold.
      destruct (decide (stream_name m = name)) as [<-|Hne].
      * rewrite lookup_insert_eq in Hold. injection Hold as <-.
        right. exists m. split; [by left|]. done.
      * rewrite lookup_insert_ne in Hold by done. by left.
    + destruct Hnew as (m' & Hin & Hrest). right. exists m'.
      split; [by right | done].
Qed.

Lemma _read_all_data_streams_loop_keeps (setup : ReaderSetup)
  (infos : list StreamInfoMessage.t) :
  forall stream_offset st st',
    for_each_stream int64_of (_read_all_data_stream setup) infos stream_offset st
    = Done (Next st') ->
    forall name,
      is_Some (_streams st !! name)
      \/ (exists m, m ∈ infos /\ data_stream_needed setup m = true
                    /\ stream_name m = name) ->
      is_Some (_streams st' !! name).
Proof.
  induction infos as [|m infos IH]; intros off st st'; simpl.
  - intros [= <-] name [Hold|(m & Hin & _)]; [done|]. by apply elem_of_nil in Hin.
  - unfold flow_then. intros Hrun. run_inv Hrun.
    destruct a as [st1|res st1]; [|discriminate].
    intros name Hname. apply (IH _ _ _ Hrun name).
    apply _read_all_data_stream_Next in Hm.
    destruct Hname as [Hold|(m' & Hin & Hneeded & Hn)].
    + left. destruct (data_stream_needed setup m); [|by subst st1].
      rewrite Hm. destruct (decide (stream_name m = name)) as [<-|Hne].
      * by rewrite lookup_insert_eq.
      * by rewrite lookup_insert_ne.
    + apply elem_of_cons in Hin as [->|Hin]; [|right; eauto].
      left. rewrite Hneeded in Hm. rewrite Hm, <- Hn.
      by rewrite lookup_insert_eq.
Qed.

(** X14.  After a [_read_all_data_streams] that returned [OLAP_SUCCESS], the
    reader has a stream under a name (column unique id, stream kind) exactly
    when it had one before or the header lists a data stream of that name for
    a column that is present in the segment and projected (or has a needed
    bloom filter); the streams it created have the length of their descriptor,
    and zone-map and bloom-filter streams are never registered as data
    streams. *)
Theorem X14_read_all_data_streams_result (setup : ReaderSetup)
  (st st' : SegmentReader) :
  _read_all_data_streams setup st = Done (OLAP_SUCCESS, st') ->
  (forall name,
     is_Some (_streams st' !! name)
     <-> is_Some (_streams st !! name)
         \/ exists m, m ∈ stream_info (_file_header setup)
                      /\ data_stream_needed setup m = true
                      /\ stream_name m = name)
  /\ (forall name s,
        _streams st' !! name = Some s ->
        _streams st !! name = Some s
        \/ exists m, m ∈ stream_info (_file_header setup)
                     /\ stream_name m = name
                     /\ StreamInfoMessage.kind m ≠ ROW_INDEX
                     /\ StreamInfoMessage.kind m ≠ BLOOM_FILTER
                     /\ rs_length s = StreamInfoMessage.length m).
Proof.
  unfold _read_all_data_streams. intros Hrun. run_inv Hrun.
  destruct a as [st1|res st1].
  2:{ injection Hrun as -> <-.
      destruct (for_each_stream_invariant int64_of (_read_all_data_stream setup)
                  (fun _ => True) (fun _ _ _ _ _ _ => I) _ _ _ _ Hm I)
        as (off & m & s0 & _ & Hbody).
      by apply _read_all_data_stream_Return in Hbody. }
  injection Hrun as <-. split.
  - intros name. split.
    + intros [s Hs].
      destruct (_read_all_data_streams_loop_Next _ _ _ _ _ Hm name s Hs)
        as [Hold|(m & Hin & Hneeded & Hn & _)]; [left; eauto | right; eauto].
    + by apply (_read_all_data_streams_loop_keeps _ _ _ _ _ Hm).
  - intros name s Hs.
    destruct (_read_all_data_streams_loop_Next _ _ _ _ _ Hm name s Hs)
      as [Hold|(m & Hin & Hneeded & Hn & Hlen)]; [by left|].
    right. exists m. split; [done|]. split; [done|].
    unfold data_stream_needed in Hneeded.
    apply andb_true_iff in Hneeded as [_ Hkind].
    apply negb_true_iff, orb_false_iff in Hkind as [Hk1 Hk2].
    apply bool_decide_eq_false in Hk1, Hk2. done.
Qed.

(** One iteration of [_create_reader] that lets the loop go on. *)
Lemma _create_reader_column_Next (setup : ReaderSetup) (t : ColumnId)
  (s s' : SegmentReader) :
  _create_reader_column setup t s = Done (Next s') ->
  0 <= t < Z.of_nat (List.length (_column_readers s))
  /\ _indices s' = _indices s
  /\ (exists reader,
        _column_readers s' = <[Z.to_nat t := Some reader]> (_column_readers s))
  /\ _column_indices s'
     = match _indices s !! map_index (_tablet_id_to_unique_id_map setup) t with
       | Some index => <[Z.to_nat t := Some index]> (_column_indices s)
       | None => _column_indices s
       end.
Proof.
  unfold _create_reader_column.
  destruct (ColumnReader_create t) as [reader|]; [|discriminate].
  destruct (reader_init _ _ _) as [r reader1].
  case_decide; [discriminate|].
  intros Hrun. run_inv Hrun. unfold vector_set in Hm.
  case_decide as Hrange; [|discriminate]. injection Hm as <-. simpl in Hrun.
  split; [done|].
  destruct (_indices s !! _) as [index|].
  - run_inv Hrun. apply vector_set_Done in Hm as ->. injection Hrun as <-.
    simpl. split; [done|]. split; [by eexists | done].
  - injection Hrun as <-. simpl. split; [done|]. split; [by eexists | done].
Qed.

Lemma _create_reader_column_Return (setup : ReaderSetup) (t : ColumnId)
  (s s' : SegmentReader) (res : OLAPStatus) :
  _create_reader_column setup t s = Done (Return res s') -> res ≠ OLAP_SUCCESS.
Proof.
  unfold _create_reader_column.
  destruct (ColumnReader_create t) as [reader|]; [|by intros [= <- _]].
  destruct (reader_init _ _ _) as [r reader1].
  case_decide; [by intros [= <- _]|].
  intros Hrun. run_inv Hrun. destruct (_indices _ !! _); [|discriminate].
  run_inv Hrun. discriminate.
Qed.

Lemma for_each_Return {A T : Type} (body : A -> T -> exec (flow T))
  (Q : OLAPStatus -> Prop) :
  (forall a s res s', body a s = Done (Return res s') -> Q res) ->
  forall l s res s', for_each body l s = Done (Return res s') -> Q res.
Proof.
  intros Hbody. induction l as [|a l IH]; intros s res s'; simpl; [discriminate|].
  unfold flow_then. intros Hrun. run_inv Hrun.
  destruct a0 as [s1|res1 s1]; [by eapply IH|].
  injection Hrun as <- _. by eapply Hbody.
Qed.

Lemma _create_reader_loop (setup : ReaderSetup) (l : list ColumnId) :
  forall s s',
    for_each (_create_reader_column setup) l s = Done (Next s') ->
    _indices s' = _indices s
    /\ List.length (_column_readers s') = List.length (_column_readers s)
    /\ List.length (_column_indices s') = List.length (_column_indices s)
    /\ (forall t, t ∈ l ->
          0 <= t < Z.of_nat (List.length (_column_readers s))
          /\ exists reader, _column_readers s' !! Z.to_nat t = Some (Some reader))
    /\ (forall t, 0 <= t -> t ∉ l ->
          _column_readers s' !! Z.to_nat t = _column_readers s !! Z.to_nat t)
    /\ (forall t, 0 <= t ->
          t ∉ l
          \/ _indices s !! map_index (_tablet_id_to_unique_id_map setup) t = None ->
          _column_indices s' !! Z.to_nat t = _column_indices s !! Z.to_nat t)
    /\ (forall t index,
          t ∈ l -> 0 <= t < Z.of_nat (List.length (_column_indices s)) ->
          _indices s !! map_index (_tablet_id_to_unique_id_map setup) t
          = Some index ->
          _column_indices s' !! Z.to_nat t = Some (Some index)).
Proof.
  induction l as [|c l IH]; intros s s'; simpl.
  - intros [= <-]. do 3 (split; [done|]).
    split; [intros t Ht; by apply elem_of_nil in Ht|]. do 2 (split; [done|]).
    intros t index Ht. by apply elem_of_nil in Ht.
  - unfold flow_then. intros Hrun. run_inv Hrun.
    destruct a as [s1|res s1]; [|discriminate].
    destruct (_create_reader_column_Next _ _ _ _ Hm)
      as (Hrange & Hi1 & (reader & Hreaders1) & Hindices1).
    destruct (IH _ _ Hrun) as (Hi & Hlr & Hli & Hin & Hout & Hkeep & Hidx).
    assert (Hlr1 : List.length (_column_readers s1) = List.length (_column_readers s))
      by (by rewrite Hreaders1, length_insert).
    assert (Hli1 : List.length (_column_indices s1) = List.length (_column_indices s)).
    { rewrite Hindices1. destruct (_indices s !! _); [|done].
      by rewrite length_insert. }
    split; [congruence|]. split; [congruence|]. split; [congruence|].
    split; [|split; [|split]].
    + intros t Ht. destruct (decide (t ∈ l)) as [Hl|Hl].
      * destruct (Hin t Hl) as [Hr Hreader]. split; [lia | done].
      * apply elem_of_cons in Ht as [->|Ht]; [|done]. split; [done|].
        exists reader. rewrite (Hout c) by (lia || done). rewrite Hreaders1.
        apply list_lookup_insert_eq. lia.
    + intros t Ht0 Ht. apply not_elem_of_cons in Ht as [Hne Hl].
      rewrite (Hout t Ht0 Hl), Hreaders1. apply list_lookup_insert_ne. lia.
    + intros t Ht0 Ht.
      assert (Hstep : _column_indices s1 !! Z.to_nat t
                      = _column_indices s !! Z.to_nat t).
      { rewrite Hindices1. destruct Ht as [Ht|Ht].
        - apply not_elem_of_cons in Ht as [Hne Hl].
          destruct (_indices s !! _); [|done]. apply list_lookup_insert_ne. lia.
        - destruct (decide (c = t)) as [->|Hne]; [by rewrite Ht|].
          destruct (_indices s !! _); [|done]. apply list_lookup_insert_ne. lia. }
      rewrite <- Hstep. apply Hkeep; [done|]. rewrite Hi1.
      destruct Ht as [Ht|Ht]; [|by right].
      apply not_elem_of_cons in Ht as [_ Hl]. by left.
    + intros t index Ht Hrange' Hindex. destruct (decide (t ∈ l)) as [Hl|Hl].
      * apply (Hidx t index Hl); [lia | congruence].
      * apply elem_of_cons in Ht as [->|Ht]; [|done].
        rewrite (Hkeep c) by (lia || by left). rewrite Hindices1, Hindex.
        apply list_lookup_insert_eq. lia.
Qed.

(** X15.  After [_reset_readers] and a [_create_reader] that returned
    [OLAP_SUCCESS] on a reader that has not recorded column indexes yet, both
    vectors have one slot per column of the tablet schema; every used column
    lies inside the schema; the reader slot of a column is filled exactly when
    the column is one of [_used_columns]; and the index slot of a used column
    holds the zone map [_load_index] loaded for its unique id, or stays null
    when there is none. *)
Theorem X15_create_reader_result (setup : ReaderSetup) (st st' : SegmentReader) :
  0 <= num_columns setup ->
  _column_indices st = [] ->
  _create_reader setup (_reset_readers st).2 = Done (OLAP_SUCCESS, st') ->
  Z.of_nat (List.length (_column_readers st')) = num_columns setup
  /\ Z.of_nat (List.length (_column_indices st')) = num_columns setup
  /\ (forall t, t ∈ _used_columns setup -> 0 <= t < num_columns setup)
  /\ (forall t, 0 <= t < num_columns setup ->
        (t ∈ _used_columns setup
         <-> exists reader, _column_readers st' !! Z.to_nat t = Some (Some reader)))
  /\ (forall t, t ∈ _used_columns setup ->
        _column_indices st' !! Z.to_nat t
        = Some (_indices st !! map_index (_tablet_id_to_unique_id_map setup) t)).
Proof.
  intros Hn Hempty. unfold _create_reader, _reset_readers. simpl.
  rewrite Hempty. intros Hrun. run_inv Hrun.
  destruct a as [s1|res s1].
  2:{ injection Hrun as -> <-.
      by apply (for_each_Return _ (fun res => res ≠ OLAP_SUCCESS)
                  (fun t s res s' => _create_reader_column_Return setup t s s' res))
           in Hm. }
  injection Hrun as <-.
  destruct (_create_reader_loop _ _ _ _ Hm)
    as (Hi & Hlr & Hli & Hin & Hout & Hkeep & Hidx).
  simpl in Hi, Hlr, Hli, Hin, Hout, Hkeep, Hidx.
  rewrite length_resize in Hlr. rewrite length_resize in Hli.
  assert (Hreaders : forall t, t ∈ _used_columns setup ->
            0 <= t < num_columns setup
            /\ exists reader, _column_readers s1 !! Z.to_nat t = Some (Some reader)).
  { intros t Ht. destruct (Hin t Ht) as [Hr Hreader].
    rewrite length_resize in Hr. split; [lia | done]. }
  split; [lia|]. split; [lia|]. split; [intros t Ht; by destruct (Hreaders t Ht)|].
  split.
  - intros t Ht. split; [intros Hused; by destruct (Hreaders t Hused)|].
    intros [reader Hreader].
    destruct (decide (t ∈ _used_columns setup)) as [|Hnot]; [done|].
    rewrite (Hout t) in Hreader by (lia || done).
    rewrite lookup_resize_new in Hreader; [done | simpl; lia | lia].
  - intros t Ht. destruct (Hreaders t Ht) as [Hrange _].
    destruct (_indices st !! map_index (_tablet_id_to_unique_id_map setup) t)
      as [index|] eqn:Hindex.
    + apply Hidx; [done | rewrite length_resize; lia | done].
    + rewrite (Hkeep t) by (lia || by right).
      apply lookup_resize_new; [simpl; lia | lia].
Qed.

End DataLoading.

Section Session.
Context {collab : Collaborators}.

(** ** Starting a scan *)

Lemma data_frame_refl (st : SegmentReader) : data_frame st st.
Proof. unfold data_frame. by destruct st. Qed.

Lemma data_frame_trans (st1 st2 st3 : SegmentReader) :
  data_frame st1 st2 -> data_frame st2 st3 -> data_frame st1 st3.
Proof.
  unfold data_frame. intros H12 H23.
  destruct st1, st2, st3. simpl in *.
  injection H12 as -> -> -> -> -> -> -> -> -> -> -> -> ->.
  injection H23 as -> -> -> -> -> -> -> -> -> -> -> -> ->.
  reflexivity.
Qed.

Lemma for_each_frame {A T : Type} (body : A -> T -> exec (flow T))
  (R : T -> T -> Prop) :
  (forall s, R s s) -> (forall s1 s2 s3, R s1 s2 -> R s2 s3 -> R s1 s3) ->
  (forall a s f, body a s = Done f -> R s (flow_state f)) ->
  forall l s f, for_each body l s = Done f -> R s (flow_state f).
Proof.
  intros Hrefl Htrans Hbody. induction l as [|a l IH]; intros s f; simpl.
  - intros [= <-]. apply Hrefl.
  - unfold flow_then. intros Hrun. run_inv Hrun.
    apply Hbody in Hm. destruct a0 as [s1|res s1]; simpl in Hm.
    + eapply Htrans; [exact Hm|]. by eapply IH.
    + by injection Hrun as <-.
Qed.

Lemma for_each_stream_frame {T : Type} (cast : Z -> Z)
  (body : Z -> StreamInfoMessage.t -> T -> exec (flow T)) (R : T -> T -> Prop) :
  (forall s, R s s) -> (forall s1 s2 s3, R s1 s2 -> R s2 s3 -> R s1 s3) ->
  (forall off m s f, body off m s = Done f -> R s (flow_state f)) ->
  forall infos off s f,
    for_each_stream cast body infos off s = Done f -> R s (flow_state f).
Proof.
  intros Hrefl Htrans Hbody. induction infos as [|m infos IH]; intros off s f; simpl.
  - intros [= <-]. apply Hrefl.
  - unfold flow_then. intros Hrun. run_inv Hrun.
    apply Hbody in Hm. destruct a as [s1|res s1]; simpl in Hm.
    + eapply Htrans; [exact Hm|]. by eapply IH.
    + by injection Hrun as <-.
Qed.

Lemma _read_all_data_streams_data_frame (setup : ReaderSetup) (st st' : SegmentReader)
  (res : OLAPStatus) :
  _read_all_data_streams setup st = Done (res, st') -> data_frame st st'.
Proof.
  unfold _read_all_data_streams. intros Hrun. run_inv Hrun.
  apply (for_each_stream_frame _ _ data_frame data_frame_refl data_frame_trans)
    in Hm.
  - destruct a; injection Hrun as <- <- || injection Hrun as <-; exact Hm.
  - clear. intros off m s f. unfold _read_all_data_stream.
    case_decide; [intros [= <-]; apply data_frame_refl|].
    destruct (_ && _); [intros [= <-]; apply data_frame_refl|].
    destruct (_ || _); [intros [= <-]; apply data_frame_refl|].
    destruct (negb _); [intros [= <-]; apply data_frame_refl|].
    case_decide; intros [= <-]; [apply data_frame_refl|].
    unfold data_frame. by destruct s.
Qed.

Lemma _create_reader_data_frame (setup : ReaderSetup) (st st' : SegmentReader)
  (res : OLAPStatus) :
  _create_reader setup st = Done (res, st') -> data_frame st st'.
Proof.
  unfold _create_reader. intros Hrun. run_inv Hrun.
  apply (for_each_frame _ data_frame data_frame_refl data_frame_trans) in Hm.
  - eapply data_frame_trans; [|destruct a; injection Hrun as <- <- ||
                                 injection Hrun as <-; exact Hm].
    unfold data_frame. by destruct st.
  - clear. intros t s f. unfold _create_reader_column.
    destruct (ColumnReader_create t) as [reader|];
      [|intros [= <-]; apply data_frame_refl].
    destruct (reader_init _ _ _) as [r reader1].
    case_decide; [intros [= <-]; apply data_frame_refl|].
    intros Hrun. run_inv Hrun. simpl in Hrun.
    destruct (_indices s !! _).
    + run_inv Hrun. injection Hrun as <-. unfold data_frame. by destruct s.
    + injection Hrun as <-. unfold data_frame. by destruct s.
Qed.

(** The first part of [seek_to_block] (lines 234-249). *)
Lemma seek_to_block_load (setup : ReaderSetup) (st st0 : SegmentReader)
  (res : OLAPStatus) :
  (if negb (_is_data_loaded st) then
     let st1 := (_reset_readers st).2 in
     let* '(res, st2) := _read_all_data_streams setup st1 in
     if decide (res ≠ OLAP_SUCCESS) then Done (res, st2)
     else
       let* '(res, st3) := _create_reader setup st2 in
       if decide (res ≠ OLAP_SUCCESS) then Done (res, st3)
       else Done (OLAP_SUCCESS, set_is_data_loaded true st3)
   else Done (OLAP_SUCCESS, st)) = Done (res, st0) ->
  data_frame st st0
  /\ (_is_data_loaded st = true -> res = OLAP_SUCCESS /\ st0 = st)
  /\ (res = OLAP_SUCCESS -> _is_data_loaded st0 = true).
Proof.
  destruct (_is_data_loaded st) eqn:Hloaded; simpl.
  { intros [= <- <-]. split; [apply data_frame_refl|]. done. }
  intros Hrun. run_inv Hrun. destruct a as [res1 st2].
  apply _read_all_data_streams_data_frame in Hm.
  assert (Hreset : data_frame st
                     (set_eof false (set_column_readers [] (set_streams ∅ st))))
    by (unfold data_frame; by destruct st).
  pose proof (data_frame_trans _ _ _ Hreset Hm) as Hst2.
  case_decide as Hres1.
  { injection Hrun as <- <-. split; [done|]. split; [done|]. intros ->. done. }
  run_inv Hrun. destruct a as [res2 st3].
  apply _create_reader_data_frame in Hm0.
  pose proof (data_frame_trans _ _ _ Hst2 Hm0) as Hst3.
  case_decide as Hres2.
  { injection Hrun as <- <-. split; [done|]. split; [done|]. intros ->. done. }
  injection Hrun as <- <-. split; [|done].
  eapply data_frame_trans; [exact Hst3|]. unfold data_frame. by destruct st3.
Qed.

(** X16.  Whatever [seek_to_block] returns, it leaves the zone maps, the bloom
    filters, the block count, the current block and the cache alone, and on a
    reader whose data is loaded it does not touch the streams, the column
    readers or the buffer size.  On an error it writes nothing through
    [next_block_id] and [eof] and leaves the cursor and [_need_to_seek_block]
    as they were.  On [OLAP_SUCCESS] the data is loaded, the next read must
    seek, the scan ends at [last_block] clipped to the last block of the
    segment, the outputs are the reader's cursor (as [uint32_t]) and [_eof];
    and without filtering the cursor is exactly [first_block], the disposition
    array is gone and [_eof] is raised exactly when [first_block] lies past
    the end of the scan. *)
Theorem X16_seek_to_block_outcome (setup : ReaderSetup) (st st' : SegmentReader)
  (first_block last_block : Z) (without_filter : bool) (res : OLAPStatus)
  (out : block_out) :
  seek_to_block setup st first_block last_block without_filter
  = Done (res, out, st') ->
  (_indices st' = _indices st /\ _bloom_filters st' = _bloom_filters st
   /\ _block_count st' = _block_count st
   /\ _current_block_id st' = _current_block_id st
   /\ _lru_cache st' = _lru_cache st /\ _cache_handle st' = _cache_handle st)
  /\ (_is_data_loaded st = true ->
      _streams st' = _streams st /\ _column_readers st' = _column_readers st
      /\ _column_indices st' = _column_indices st
      /\ _buffer_size st' = _buffer_size st)
  /\ (res ≠ OLAP_SUCCESS ->
      out = OutNothing /\ _next_block_id st' = _next_block_id st
      /\ _need_to_seek_block st' = _need_to_seek_block st)
  /\ (res = OLAP_SUCCESS ->
      out = OutNextEof (wrap32 (_next_block_id st')) (_eof st')
      /\ _is_data_loaded st' = true /\ _need_to_seek_block st' = true
      /\ _without_filter st' = without_filter
      /\ _end_block st' = scan_end st last_block
      /\ (without_filter = true ->
          _include_blocks st' = None /\ _next_block_id st' = first_block
          /\ (_eof st' = true <-> first_block > scan_end st last_block))).
Proof.
  unfold seek_to_block. intros Hrun. run_inv Hrun. destruct a as [res0 st0].
  apply seek_to_block_load in Hm as (Hframe & Hloaded & Hsuccess).
  unfold data_frame in Hframe.
  assert (Hfields : _indices st0 = _indices st
                    /\ _bloom_filters st0 = _bloom_filters st
                    /\ _block_count st0 = _block_count st
                    /\ _current_block_id st0 = _current_block_id st
                    /\ _lru_cache st0 = _lru_cache st
                    /\ _cache_handle st0 = _cache_handle st
                    /\ _next_block_id st0 = _next_block_id st
                    /\ _need_to_seek_block st0 = _need_to_seek_block st)
    by (rewrite Hframe; by destruct st).
  destruct Hfields as (Hi & Hb & Hc & Hcur & Hlru & Hh & Hnext & Hneed).
  case_decide as Hres0.
  { injection Hrun as <- <- <-. split; [done|]. split.
    - intros Hl. destruct (Hloaded Hl) as [_ ->]. done.
    - split; [done|]. intros ->. done. }
  assert (res0 = OLAP_SUCCESS) as ->
    by (destruct (decide (res0 = OLAP_SUCCESS)); [done | by destruct Hres0]).
  specialize (Hsuccess eq_refl).
  set (st1 := set_include_blocks None _) in Hrun.
  run_inv Hrun. destruct a as [res1 st2].
  assert (Hpicked : pruning_frame st1 st2
                    /\ (without_filter = true -> res1 = OLAP_SUCCESS /\ st2 = st1)).
  { destruct without_filter; simpl in Hm.
    - injection Hm as <- <-. split; [apply pruning_frame_refl | done].
    - run_inv Hm. destruct a as [r st3]. injection Hm as <- <-.
      apply _pick_row_groups_pruning_frame in Hm0. split; [|done].
      eapply pruning_frame_trans; [|exact Hm0]. unfold pruning_frame.
      subst st1. by destruct st0. }
  destruct Hpicked as [Hpf Hwf]. unfold pruning_frame in Hpf.
  assert (Hfields : _indices st2 = _indices st0
                    /\ _bloom_filters st2 = _bloom_filters st0
                    /\ _block_count st2 = _block_count st0
                    /\ _current_block_id st2 = _current_block_id st0
                    /\ _lru_cache st2 = _lru_cache st0
                    /\ _cache_handle st2 = _cache_handle st0
                    /\ _next_block_id st2 = _next_block_id st0
                    /\ _need_to_seek_block st2 = _need_to_seek_block st0
                    /\ _streams st2 = _streams st0
                    /\ _column_readers st2 = _column_readers st0
                    /\ _column_indices st2 = _column_indices st0
                    /\ _buffer_size st2 = _buffer_size st0
                    /\ _is_data_loaded st2 = _is_data_loaded st0
                    /\ _without_filter st2 = without_filter
                    /\ _end_block st2 = scan_end st last_block
                    /\ _eof st2 = false)
    by (rewrite Hpf; subst st1; unfold scan_end; rewrite <- Hc; by destruct st0).
  destruct Hfields as (Hi2 & Hb2 & Hc2 & Hcur2 & Hlru2 & Hh2 & Hnext2 & Hneed2
                       & Hs2 & Hr2 & Hx2 & Hbuf2 & Hl2 & Hwf2 & Hend2 & Heof2).
  case_decide as Hres1.
  { injection Hrun as <- <- <-. split; [by rewrite Hi2, Hb2, Hc2, Hcur2, Hlru2, Hh2|].
    split.
    - intros Hl. destruct (Hloaded Hl) as [_ ->].
      by rewrite Hs2, Hr2, Hx2, Hbuf2.
    - split; [intros _; by rewrite Hnext2, Hneed2 | done]. }
  assert (res1 = OLAP_SUCCESS) as ->
    by (destruct (decide (OLAP_SUCCESS = res1)); [done | by destruct Hres1]).
  run_inv Hrun. rename a into st3. injection Hrun as <- <- <-.
  unfold _seek_to_block in Hm0. run_inv Hm0. rename a into b.
  injection Hm0 as <-. simpl.
  split.
  { destruct (decide (b > _end_block st2));
      simpl; by rewrite Hi2, Hb2, Hc2, Hcur2, Hlru2, Hh2. }
  split.
  { intros Hl. destruct (Hloaded Hl) as [_ ->].
    destruct (decide (b > _end_block st2));
      simpl; by rewrite Hs2, Hr2, Hx2, Hbuf2. }
  split; [done|]. intros _.
  split; [done|].
  split; [destruct (decide (b > _end_block st2)); simpl; congruence|].
  split; [done|].
  split; [by destruct (decide (b > _end_block st2))|].
  split; [by destruct (decide (b > _end_block st2))|].
  intros ->. destruct (Hwf eq_refl) as [_ Hst2].
  assert (Harr : _include_blocks st2 = None) by (rewrite Hst2; by subst st1).
  rewrite Harr in Hm1. injection Hm1 as <-.
  split; [by destruct (decide (first_block > _end_block st2))|]. split; [done|].
  rewrite Hend2.
  destruct (decide (first_block > scan_end st last_block)); simpl; [done|].
  split; [|done]. intros Hx. rewrite Hx in Heof2. discriminate.
Qed.

End Session.

Section BatchLoading.
Context {collab : Collaborators}.

(** ** Loading a batch *)


End BatchLoading.

Section OpeningResults.
Context {collab : Collaborators}.
Context {ColumnEncodingMessage : Type}.
Implicit Types source : SegmentSource (ColumnEncodingMessage := ColumnEncodingMessage).
Implicit Types opened : OpenedSegment (ColumnEncodingMessage := ColumnEncodingMessage).

(** ** The column maps *)

Lemma foldM_map_tablet_column source (l : list ColumnId) :
  forall maps maps',
    foldM (map_tablet_column source) l maps = Done maps' ->
    (forall t, t ∈ l ->
       0 <= t /\ is_Some (tablet_unique_ids source !! Z.to_nat t))
    /\ (forall t, maps'.1 !! t
                  = if decide (t ∈ l) then tablet_unique_ids source !! Z.to_nat t
                    else maps.1 !! t)
    /\ (forall u t, maps'.2 !! u = Some t ->
          (t ∈ l /\ tablet_unique_ids source !! Z.to_nat t = Some u)
          \/ maps.2 !! u = Some t)
    /\ (forall u, is_Some (maps.2 !! u) \/ tablet_columns_of source l u ->
          is_Some (maps'.2 !! u)).
Proof.
  induction l as [|t0 l IH]; intros maps maps'; simpl.
  - intros [= <-]. split; [intros t Ht; by apply elem_of_nil in Ht|].
    split; [done|]. split; [intros u t Hu; by right|].
    intros u [Hu|(t & Ht & _)]; [done | by apply elem_of_nil in Ht].
  - intros Hrun. run_inv Hrun. unfold map_tablet_column in Hm. run_inv Hm.
    rename a0 into u0. apply at_index_Done in Hm0 as [Ht0 Hu0].
    injection Hm as <-.
    destruct (IH _ _ Hrun) as (Hrange & Hfirst & Hsound & Hcomplete).
    simpl in Hfirst, Hsound, Hcomplete.
    split; [|split; [|split]].
    + intros t Ht. apply elem_of_cons in Ht as [->|Ht]; [|by apply Hrange].
      split; [done | by eexists].
    + intros t. rewrite Hfirst. destruct (decide (t ∈ l)) as [Hl|Hl].
      * rewrite decide_True by (by right). done.
      * destruct (decide (t = t0)) as [->|Hne].
        -- rewrite decide_True by (by left). by rewrite lookup_insert_eq.
        -- rewrite decide_False by (intros Hx; apply elem_of_cons in Hx;
                                    by destruct Hx).
           by rewrite lookup_insert_ne.
    + intros u t Hu. destruct (Hsound u t Hu) as [[Hl Hx]|Hold].
      * left. split; [by right | done].
      * destruct (decide (u0 = u)) as [<-|Hne].
        -- rewrite lookup_insert_eq in Hold. injection Hold as <-.
           left. split; [by left | done].
        -- rewrite lookup_insert_ne in Hold by done. by right.
    + intros u Hu. apply Hcomplete.
      destruct (decide (u0 = u)) as [<-|Hne];
        [left; by rewrite lookup_insert_eq|].
      rewrite lookup_insert_ne by done.
      destruct Hu as [Hu|(t & Ht & Hx)]; [by left|].
      apply elem_of_cons in Ht as [->|Ht]; [congruence|].
      right. by exists t.
Qed.

Lemma foldM_map_segment_column source (unique_to_tablet : gmap ColumnId ColumnId)
  (n : nat) :
  forall maps,
    foldM (map_segment_column source unique_to_tablet) (seqZ 0 (Z.of_nat n)) (∅, ∅)
    = Done maps ->
    (forall u s,
       maps.1 !! u = Some s
       <-> unique_to_tablet !! u ≠ None /\ 0 <= s < Z.of_nat n
           /\ column_unique_ids source !! Z.to_nat s = Some u
           /\ forall s', s < s' < Z.of_nat n ->
                         column_unique_ids source !! Z.to_nat s' ≠ Some u)
    /\ (forall u e,
          maps.2 !! u = Some e
          <-> exists s, maps.1 !! u = Some s
                        /\ column_encodings source !! Z.to_nat s = Some e).
Proof.
  induction n as [|n IH]; intros maps.
  - simpl. intros [= <-]. simpl. split.
    + intros u s. rewrite lookup_empty. split; [done | lia].
    + intros u e. rewrite lookup_empty. split; [done|].
      intros (s & Hs & _). by rewrite lookup_empty in Hs.
  - rewrite seqZ_S, foldM_app. intros Hrun. run_inv Hrun. rename a into m.
    destruct (IH _ Hm) as [Hseg Henc]. simpl in Hrun. run_inv Hrun.
    rename a into m'. injection Hrun as <-.
    unfold map_segment_column in Hm0. run_inv Hm0. rename a into u0.
    apply at_index_Done in Hm1 as [_ Hu0].
    rewrite Z.add_0_l, Nat2Z.id in Hu0.
    case_decide as Hknown.
    + run_inv Hm0. rename a into e0. apply at_index_Done in Hm1 as [_ He0].
      rewrite Z.add_0_l, Nat2Z.id in He0. injection Hm0 as <-. simpl.
      assert (Hnew : forall u s,
                 <[u0 := 0 + Z.of_nat n]> m.1 !! u = Some s
                 <-> unique_to_tablet !! u ≠ None /\ 0 <= s < Z.of_nat (S n)
                     /\ column_unique_ids source !! Z.to_nat s = Some u
                     /\ forall s', s < s' < Z.of_nat (S n) ->
                          column_unique_ids source !! Z.to_nat s' ≠ Some u).
      { intros u s. destruct (decide (u0 = u)) as [<-|Hne].
        - rewrite lookup_insert_eq. split.
          + intros [= <-]. split; [done|]. split; [lia|].
            split; [by rewrite Z.add_0_l, Nat2Z.id|]. lia.
          + intros (_ & Hs & Hcol & Hlast).
            destruct (decide (s = Z.of_nat n)) as [->|Hsn]; [done|].
            destruct (Hlast (Z.of_nat n)); [lia|]. by rewrite Nat2Z.id.
        - rewrite lookup_insert_ne by done. rewrite Hseg. split.
          + intros (Hk & Hs & Hcol & Hlast). split; [done|]. split; [lia|].
            split; [done|]. intros s' Hs'.
            destruct (decide (s' = Z.of_nat n)) as [->|Hsn];
              [rewrite Nat2Z.id; congruence|].
            apply Hlast. lia.
          + intros (Hk & Hs & Hcol & Hlast). split; [done|].
            assert (s ≠ Z.of_nat n)
              by (intros ->; rewrite Nat2Z.id in Hcol; congruence).
            split; [lia|]. split; [done|]. intros s' Hs'. apply Hlast. lia. }
      split; [exact Hnew|]. intros u e.
      destruct (decide (u0 = u)) as [<-|Hne].
      * rewrite !lookup_insert_eq. split.
        -- intros [= <-]. exists (0 + Z.of_nat n). split; [done|].
           by rewrite Z.add_0_l, Nat2Z.id.
        -- intros (s & [= <-] & He). rewrite Z.add_0_l, Nat2Z.id in He. congruence.
      * rewrite !lookup_insert_ne by done. apply Henc.
    + injection Hm0 as <-. split; [|exact Henc]. intros u s. rewrite Hseg. split.
      * intros (Hk & Hs & Hcol & Hlast). split; [done|]. split; [lia|].
        split; [done|]. intros s' Hs'.
        destruct (decide (s' = Z.of_nat n)) as [->|Hsn].
        -- rewrite Nat2Z.id. intros Heq. rewrite Hu0 in Heq.
           injection Heq as ->. done.
        -- apply Hlast. lia.
      * intros (Hk & Hs & Hcol & Hlast). split; [done|].
        assert (s ≠ Z.of_nat n).
        { intros ->. rewrite Nat2Z.id in Hcol. rewrite Hu0 in Hcol.
          injection Hcol as ->. done. }
        split; [lia|]. split; [done|]. intros s' Hs'. apply Hlast. lia.
Qed.

(** The three loops of a [_set_column_map] that returned. *)
Lemma _set_column_map_Done source (setup setup' : ReaderSetup) opened opened' :
  _set_column_map source setup opened = Done (setup', opened') ->
  exists used_maps maps segment_maps,
    foldM (map_tablet_column source) (_used_columns setup) (∅, ∅) = Done used_maps
    /\ foldM (map_tablet_column source) (_load_bf_columns setup) used_maps
       = Done maps
    /\ foldM (map_segment_column source maps.2)
         (seqZ 0 (Z.of_nat (List.length (column_unique_ids source)))) (∅, ∅)
       = Done segment_maps
    /\ setup' = set_column_maps maps.1 maps.2 segment_maps.1 setup
    /\ opened' = set_encodings_map segment_maps.2 opened.
Proof.
  unfold _set_column_map. intros Hrun. run_inv Hrun. run_inv Hrun. run_inv Hrun.
  injection Hrun as <- <-. by exists a, a0, a1.
Qed.

(** The two loops over tablet columns, started on empty maps. *)
Lemma tablet_maps_spec source (used bf : list ColumnId)
  (m1 m2 : gmap ColumnId ColumnId * gmap ColumnId ColumnId) :
  foldM (map_tablet_column source) used (∅, ∅) = Done m1 ->
  foldM (map_tablet_column source) bf m1 = Done m2 ->
  (forall t, t ∈ used ++ bf ->
     0 <= t /\ is_Some (tablet_unique_ids source !! Z.to_nat t))
  /\ (forall t u,
        m2.1 !! t = Some u
        <-> t ∈ used ++ bf /\ tablet_unique_ids source !! Z.to_nat t = Some u)
  /\ (forall u t,
        m2.2 !! u = Some t ->
        t ∈ used ++ bf /\ tablet_unique_ids source !! Z.to_nat t = Some u)
  /\ (forall u, tablet_columns_of source (used ++ bf) u -> is_Some (m2.2 !! u))
  /\ (forall t u, t ∈ used ++ bf ->
        (map_index m2.1 t = u
         <-> tablet_unique_ids source !! Z.to_nat t = Some u)).
Proof.
  intros Hused Hbf.
  destruct (foldM_map_tablet_column _ _ _ _ Hused) as (Hr1 & Hf1 & Hs1 & Hc1).
  destruct (foldM_map_tablet_column _ _ _ _ Hbf) as (Hr2 & Hf2 & Hs2 & Hc2).
  simpl in *.
  assert (Hrange : forall t, t ∈ used ++ bf ->
                     0 <= t /\ is_Some (tablet_unique_ids source !! Z.to_nat t)).
  { intros t Ht. apply elem_of_app in Ht as [Ht|Ht]; [by apply Hr1 | by apply Hr2]. }
  assert (Hfirst : forall t u,
             m2.1 !! t = Some u
             <-> t ∈ used ++ bf
                 /\ tablet_unique_ids source !! Z.to_nat t = Some u).
  { intros t u. rewrite Hf2, Hf1, elem_of_app.
    repeat case_decide; rewrite ?lookup_empty; try tauto.
    split; [discriminate | tauto]. }
  split; [exact Hrange|]. split; [exact Hfirst|]. split; [|split].
  - intros u t Hu. rewrite elem_of_app.
    destruct (Hs2 u t Hu) as [[? ?]|Hold]; [by auto|].
    destruct (Hs1 u t Hold) as [[? ?]|Hempty]; [by auto|].
    by rewrite lookup_empty in Hempty.
  - intros u (t & Ht & Hu). apply Hc2.
    apply elem_of_app in Ht as [Ht|Ht]; [|right; by exists t].
    left. apply Hc1. right. by exists t.
  - intros t u Ht. destruct (Hrange t Ht) as [_ [u' Hu']].
    assert (Hmap : m2.1 !! t = Some u') by (by apply Hfirst).
    assert (Hindex : map_index m2.1 t = u') by exact (f_equal (default 0) Hmap).
    rewrite Hindex, Hu'. split; [by intros -> | by intros [= ->]].
Qed.

(** X18.  After [_set_column_map], the map from tablet columns to unique ids
    holds exactly the columns of [_used_columns] and [_load_bf_columns], each
    with the unique id the tablet schema gives it (so all of them lie inside
    the schema); the map back holds exactly the unique ids of those columns,
    each with a column that has this unique id; and going from such a column
    to its unique id and back yields a column with the same unique id.
    Whatever the maps held before is gone. *)
Theorem X18_set_column_map_tablet_maps source (setup setup' : ReaderSetup)
  opened opened' :
  _set_column_map source setup opened = Done (setup', opened') ->
  (forall t, t ∈ _used_columns setup ++ _load_bf_columns setup ->
     0 <= t < Z.of_nat (List.length (tablet_unique_ids source)))
  /\ (forall t u,
        _tablet_id_to_unique_id_map setup' !! t = Some u
        <-> t ∈ _used_columns setup ++ _load_bf_columns setup
            /\ tablet_unique_ids source !! Z.to_nat t = Some u)
  /\ (forall u t,
        _unique_id_to_tablet_id_map setup' !! u = Some t ->
        t ∈ _used_columns setup ++ _load_bf_columns setup
        /\ tablet_unique_ids source !! Z.to_nat t = Some u)
  /\ (forall u,
        is_Some (_unique_id_to_tablet_id_map setup' !! u)
        <-> tablet_columns_of source
              (_used_columns setup ++ _load_bf_columns setup) u)
  /\ (forall t, t ∈ _used_columns setup ++ _load_bf_columns setup ->
        exists t',
          _unique_id_to_tablet_id_map setup'
          !! map_index (_tablet_id_to_unique_id_map setup') t = Some t'
          /\ tablet_unique_ids source !! Z.to_nat t'
             = tablet_unique_ids source !! Z.to_nat t).
Proof.
  intros Hrun.
  apply _set_column_map_Done in Hrun
    as (m1 & m2 & seg & Hused & Hbf & _ & -> & _).
  destruct (tablet_maps_spec _ _ _ _ _ Hused Hbf)
    as (Hrange & Hfirst & Hsound & Hcomplete & Hindex).
  simpl.
  split; [|split; [|split; [|split]]].
  - intros t Ht. destruct (Hrange t Ht) as [Ht0 [u Hu]].
    apply lookup_lt_Some in Hu. lia.
  - exact Hfirst.
  - exact Hsound.
  - intros u. split; [|by apply Hcomplete].
    intros [t Ht]. destruct (Hsound u t Ht). by exists t.
  - intros t Ht. destruct (Hrange t Ht) as [_ [u Hu]].
    assert (Hu' : map_index m2.1 t = u) by (by apply Hindex).
    destruct (Hcomplete u) as [t' Ht']; [by exists t|].
    exists t'. split; [by rewrite Hu'|]. destruct (Hsound u t' Ht') as [_ ->]. done.
Qed.

(** The loop over the columns of the header. *)
Lemma segment_maps_spec source (unique_to_tablet : gmap ColumnId ColumnId)
  (seg : gmap ColumnId ColumnId * gmap ColumnId ColumnEncodingMessage) :
  foldM (map_segment_column source unique_to_tablet)
    (seqZ 0 (Z.of_nat (List.length (column_unique_ids source)))) (∅, ∅)
  = Done seg ->
  (forall u s,
     seg.1 !! u = Some s
     <-> is_Some (unique_to_tablet !! u) /\ 0 <= s
         /\ column_unique_ids source !! Z.to_nat s = Some u
         /\ forall s', s < s' ->
                       column_unique_ids source !! Z.to_nat s' ≠ Some u)
  /\ (forall u,
        is_Some (seg.1 !! u)
        <-> is_Some (unique_to_tablet !! u) /\ u ∈ column_unique_ids source).
Proof.
  intros Hseg.
  destruct (foldM_map_segment_column _ _ _ _ Hseg) as [Hmap _].
  assert (Hsegment : forall u s,
             seg.1 !! u = Some s
             <-> is_Some (unique_to_tablet !! u) /\ 0 <= s
                 /\ column_unique_ids source !! Z.to_nat s = Some u
                 /\ forall s', s < s' ->
                      column_unique_ids source !! Z.to_nat s' ≠ Some u).
  { intros u s. rewrite Hmap. rewrite <- not_eq_None_Some. split.
    - intros (Hk & Hs & Hcol & Hlast). split; [done|]. split; [lia|].
      split; [done|]. intros s' Hs'.
      destruct (decide (s' < Z.of_nat (List.length (column_unique_ids source))))
        as [Hlt|Hge]; [apply Hlast; lia|].
      rewrite lookup_ge_None_2 by lia. done.
    - intros (Hk & Hs & Hcol & Hlast). split; [done|].
      apply lookup_lt_Some in Hcol as Hlen. split; [lia|]. split; [done|].
      intros s' Hs'. apply Hlast. lia. }
  split; [exact Hsegment|]. intros u. split.
  - intros [s Hs]. apply Hsegment in Hs as (Hk & _ & Hcol & _).
    split; [done|]. by eapply list_elem_of_lookup_2.
  - intros [Hk Hin].
    assert (Hlast : exists s, 0 <= s
              /\ column_unique_ids source !! Z.to_nat s = Some u
              /\ forall s', s < s' ->
                   column_unique_ids source !! Z.to_nat s' ≠ Some u).
    { clear -Hin. induction (column_unique_ids source) as [|c l IH];
        [by apply elem_of_nil in Hin|].
      destruct (decide (u ∈ l)) as [Hl|Hl].
      - destruct (IH Hl) as (s & Hs0 & Hs & Hlast). exists (s + 1).
        split; [lia|]. replace (Z.to_nat (s + 1)) with (S (Z.to_nat s)) by lia.
        split; [done|]. intros s' Hs'.
        replace (Z.to_nat s') with (S (Z.to_nat (s' - 1))) by lia.
        simpl. apply Hlast. lia.
      - apply elem_of_cons in Hin as [->|Hin]; [|done]. exists 0.
        split; [lia|]. split; [done|]. intros s' Hs'.
        replace (Z.to_nat s') with (S (Z.to_nat (s' - 1))) by lia. simpl.
        intros Hx. apply Hl. by eapply list_elem_of_lookup_2. }
    destruct Hlast as (s & Hs0 & Hs & Hlast). exists s. by apply Hsegment.
Qed.

(** X19.  After [_set_column_map], a unique id is mapped to a segment column
    exactly when it is the unique id of a used or bloom-filter column and the
    header lists it; it is then mapped to the last column of the header with
    this unique id, and [_encodings_map] holds the encoding the header gives
    for that very column. *)
Theorem X19_set_column_map_segment_map source (setup setup' : ReaderSetup)
  opened opened' :
  _set_column_map source setup opened = Done (setup', opened') ->
  (forall u s,
     _unique_id_to_segment_id_map setup' !! u = Some s
     <-> is_Some (_unique_id_to_tablet_id_map setup' !! u) /\ 0 <= s
         /\ column_unique_ids source !! Z.to_nat s = Some u
         /\ forall s', s < s' ->
                       column_unique_ids source !! Z.to_nat s' ≠ Some u)
  /\ (forall u,
        is_Some (_unique_id_to_segment_id_map setup' !! u)
        <-> is_Some (_unique_id_to_tablet_id_map setup' !! u)
            /\ u ∈ column_unique_ids source)
  /\ (forall u e,
        _encodings_map opened' !! u = Some e
        <-> exists s, _unique_id_to_segment_id_map setup' !! u = Some s
                      /\ column_encodings source !! Z.to_nat s = Some e)
  /\ (forall u, is_Some (_unique_id_to_segment_id_map setup' !! u) ->
                is_Some (_encodings_map opened' !! u)).
Proof.
  intros Hrun.
  apply _set_column_map_Done in Hrun
    as (m1 & m2 & seg & _ & _ & Hseg & -> & ->).
  assert (Hall : forall s u, 0 <= s ->
            column_unique_ids source !! Z.to_nat s = Some u ->
            m2.2 !! u ≠ None ->
            is_Some (column_encodings source !! Z.to_nat s)).
  { intros s u Hs0 Hcol Hknown. apply lookup_lt_Some in Hcol as Hlen.
    assert (Hin : s ∈ seqZ 0 (Z.of_nat (List.length (column_unique_ids source))))
      by (apply elem_of_seqZ; lia).
    apply list_elem_of_split in Hin as (l1 & l2 & Hsplit).
    rewrite Hsplit, foldM_app in Hseg. run_inv Hseg. simpl in Hseg.
    run_inv Hseg. unfold map_segment_column in Hm0. run_inv Hm0.
    apply at_index_Done in Hm1 as [_ Hu]. rewrite Hu in Hcol.
    injection Hcol as ->. rewrite decide_True in Hm0 by done. run_inv Hm0.
    apply at_index_Done in Hm1 as [_ He]. by eexists. }
  destruct (foldM_map_segment_column _ _ _ _ Hseg) as [_ Henc].
  destruct (segment_maps_spec _ _ _ Hseg) as [Hsegment Hdomain]. simpl.
  split; [exact Hsegment|]. split; [exact Hdomain|]. split; [exact Henc|].
  intros u [s Hs]. pose proof Hs as Hs'.
  apply Hsegment in Hs' as (Hk & Hs0 & Hcol & _).
  destruct (Hall s u Hs0 Hcol) as [e He]; [by apply not_eq_None_Some|].
  exists e. apply Henc. by exists s.
Qed.

Lemma foldl_insert_elem_of (f : ColumnId -> ColumnId) (l : list ColumnId) :
  forall (acc : gset ColumnId) u,
    u ∈ foldl (fun acc i => {[ f i ]} ∪ acc) acc l
    <-> u ∈ acc \/ exists i, i ∈ l /\ f i = u.
Proof.
  induction l as [|i l IH]; intros acc u; simpl.
  - split; [by left|]. intros [Hu|(i & Hi & _)]; [done|].
    by apply elem_of_nil in Hi.
  - rewrite IH, elem_of_union, elem_of_singleton. split.
    + intros [[->|Hu]|(j & Hj & Hf)].
      * right. exists i. split; [by left | done].
      * by left.
      * right. exists j. split; [by right | done].
    + intros [Hu|(j & Hj & Hf)]; [by left; right|].
      apply elem_of_cons in Hj as [->|Hj]; [by left; left|].
      right. by exists j.
Qed.

(** What [_pick_columns] adds, on any setup. *)
Lemma _pick_columns_include (setup : ReaderSetup) (u : ColumnId) :
  (u ∈ _include_columns (_pick_columns setup).2
   <-> u ∈ _include_columns setup
       \/ exists t, t ∈ _used_columns setup
                    /\ map_index (_tablet_id_to_unique_id_map setup) t = u)
  /\ (u ∈ _include_bf_columns (_pick_columns setup).2
      <-> u ∈ _include_bf_columns setup
          \/ exists t, t ∈ _load_bf_columns setup
                       /\ map_index (_tablet_id_to_unique_id_map setup) t = u).
Proof. unfold _pick_columns. simpl. split; apply foldl_insert_elem_of. Qed.

(** X20.  [_pick_columns] after [_set_column_map]: it returns [OLAP_SUCCESS],
    changes the column maps no more, and adds to [_include_columns] exactly
    the unique ids of the columns of [_used_columns] and to
    [_include_bf_columns] exactly the unique ids of the columns of
    [_load_bf_columns]; what the sets held before stays. *)
Theorem X20_pick_columns_after_column_map source (setup s1 : ReaderSetup)
  opened opened1 :
  _set_column_map source setup opened = Done (s1, opened1) ->
  (_pick_columns s1).1 = OLAP_SUCCESS
  /\ (forall u,
        u ∈ _include_columns (_pick_columns s1).2
        <-> u ∈ _include_columns setup
            \/ tablet_columns_of source (_used_columns setup) u)
  /\ (forall u,
        u ∈ _include_bf_columns (_pick_columns s1).2
        <-> u ∈ _include_bf_columns setup
            \/ tablet_columns_of source (_load_bf_columns setup) u)
  /\ _tablet_id_to_unique_id_map (_pick_columns s1).2
     = _tablet_id_to_unique_id_map s1
  /\ _unique_id_to_tablet_id_map (_pick_columns s1).2
     = _unique_id_to_tablet_id_map s1
  /\ _unique_id_to_segment_id_map (_pick_columns s1).2
     = _unique_id_to_segment_id_map s1.
Proof.
  intros Hrun.
  apply _set_column_map_Done in Hrun
    as (m1 & m2 & seg & Hused & Hbf & _ & -> & _).
  destruct (tablet_maps_spec _ _ _ _ _ Hused Hbf) as (_ & _ & _ & _ & Hid).
  split; [done|]. split; [|split; [|done]].
  - intros u.
    destruct (_pick_columns_include
                (set_column_maps m2.1 m2.2 seg.1 setup) u) as [-> _].
    simpl. unfold tablet_columns_of.
    split; (intros [Hu|(t & Ht & Hx)]; [by left|]); right; exists t;
      (split; [done|]); apply Hid; try done; apply elem_of_app; by left.
  - intros u.
    destruct (_pick_columns_include
                (set_column_maps m2.1 m2.2 seg.1 setup) u) as [_ ->].
    simpl. unfold tablet_columns_of.
    split; (intros [Hu|(t & Ht & Hx)]; [by left|]); right; exists t;
      (split; [done|]); apply Hid; try done; apply elem_of_app; by right.
Qed.

End OpeningResults.

Section InitResults.
Context {collab : Collaborators}.
Context {ColumnEncodingMessage : Type}.
Implicit Types source : SegmentSource (ColumnEncodingMessage := ColumnEncodingMessage).
Implicit Types opened : OpenedSegment (ColumnEncodingMessage := ColumnEncodingMessage).

(** ** The streams a reader asks for *)

(** [_load_index] passes over a descriptor exactly when it is not needed. *)
Lemma _load_index_fetch_Skipped_iff (setup : ReaderSetup) (stream_offset : Z)
  (message : StreamInfoMessage.t) (s : load_index_locals * SegmentReader) :
  _load_index_fetch setup stream_offset message s = Done (Skipped s)
  <-> index_stream_needed setup message = false.
Proof.
  assert (Hparse : forall type buf l t,
             _load_index_parse setup message type buf l t ≠ Skipped s).
  { intros type buf l t. unfold _load_index_parse. case_decide.
    - destruct (negb _); [discriminate|].
      destruct (StreamIndexReader_init _ _ _ _) as [r entries].
      by case_decide.
    - destruct (negb _); [discriminate|].
      destruct (BloomFilterIndexReader_init _ _ _ _) as [r entries].
      by case_decide. }
  unfold _load_index_fetch, index_stream_needed. destruct s as [loc st].
  case_decide as Hseg.
  { rewrite bool_decide_eq_false_2 by (intros Hx; by apply Hx). done. }
  rewrite (bool_decide_eq_true_2 (_ !! _ ≠ None)) by done. simpl.
  destruct (_ || _); simpl; [|by split]. split; [|done].
  intros Hrun. run_inv Hrun.
  destruct (Cache_lookup _ _) as [handle|].
  - injection Hrun as Hrun. by apply Hparse in Hrun.
  - destruct (negb _); [discriminate|].
    destruct (read_all _ _) as [res stream_buffer].
    case_decide; [discriminate|].
    destruct (is_using_cache loc).
    + destruct (Cache_insert _ _ _ _) as [inserted cache].
      run_inv Hrun. destruct inserted; [|discriminate].
      injection Hrun as Hrun. by apply Hparse in Hrun.
    + injection Hrun as Hrun. by apply Hparse in Hrun.
Qed.

(** X21.  Which streams a reader asks for is fixed by the schemas alone.  On
    a reader whose inclusion sets start empty, after [_set_column_map] and
    [_pick_columns]: [_load_index] passes over a stream descriptor unless its
    column is listed in the header and it is the zone map of a column of
    [_used_columns] or the bloom filter of a column of [_load_bf_columns]
    (columns matched through their unique id in the tablet schema); and
    [_read_all_data_streams] turns a descriptor into a stream exactly when it
    is neither zone map nor bloom filter and its column is listed in the
    header and is a used or a bloom-filter column. *)
Theorem X21_streams_needed_by_schema source (setup s1 : ReaderSetup)
  opened opened1 (m : StreamInfoMessage.t) :
  _include_columns setup = ∅ -> _include_bf_columns setup = ∅ ->
  _set_column_map source setup opened = Done (s1, opened1) ->
  (forall stream_offset s,
     _load_index_fetch (_pick_columns s1).2 stream_offset m s = Done (Skipped s)
     <-> ~ (StreamInfoMessage.column_unique_id m ∈ column_unique_ids source
            /\ ((StreamInfoMessage.kind m = ROW_INDEX
                 /\ tablet_columns_of source (_used_columns setup)
                      (StreamInfoMessage.column_unique_id m))
                \/ (StreamInfoMessage.kind m = BLOOM_FILTER
                    /\ tablet_columns_of source (_load_bf_columns setup)
                         (StreamInfoMessage.column_unique_id m)))))
  /\ (data_stream_needed (_pick_columns s1).2 m = true
      <-> StreamInfoMessage.column_unique_id m ∈ column_unique_ids source
          /\ StreamInfoMessage.kind m ≠ ROW_INDEX
          /\ StreamInfoMessage.kind m ≠ BLOOM_FILTER
          /\ tablet_columns_of source
               (_used_columns setup ++ _load_bf_columns setup)
               (StreamInfoMessage.column_unique_id m)).
Proof.
  intros Hinc Hbf Hrun.
  apply _set_column_map_Done in Hrun
    as (m1 & m2 & seg & Hused & Hbfs & Hseg & -> & _).
  destruct (tablet_maps_spec _ _ _ _ _ Hused Hbfs)
    as (_ & _ & Hsound & Hcomplete & Hid).
  destruct (segment_maps_spec _ _ _ Hseg) as [_ Hdomain].
  set (s1 := set_column_maps m2.1 m2.2 seg.1 setup).
  set (u := StreamInfoMessage.column_unique_id m).
  assert (Hknown : is_Some (m2.2 !! u)
                   <-> tablet_columns_of source
                         (_used_columns setup ++ _load_bf_columns setup) u).
  { split; [|by apply Hcomplete].
    intros [t Ht]. destruct (Hsound u t Ht). by exists t. }
  assert (Hsegment : _unique_id_to_segment_id_map (_pick_columns s1).2 !! u ≠ None
                     <-> tablet_columns_of source
                           (_used_columns setup ++ _load_bf_columns setup) u
                         /\ u ∈ column_unique_ids source).
  { simpl. rewrite not_eq_None_Some, Hdomain, Hknown. done. }
  assert (Hused_in : u ∈ _include_columns (_pick_columns s1).2
                     <-> tablet_columns_of source (_used_columns setup) u).
  { destruct (_pick_columns_include s1 u) as [-> _]. simpl. rewrite Hinc.
    unfold tablet_columns_of. split.
    - intros [Hu|(t & Ht & Hx)]; [by apply elem_of_empty in Hu|].
      exists t. split; [done|]. apply Hid; [apply elem_of_app; by left | done].
    - intros (t & Ht & Hx). right. exists t. split; [done|].
      apply Hid; [apply elem_of_app; by left | done]. }
  assert (Hbf_in : u ∈ _include_bf_columns (_pick_columns s1).2
                   <-> tablet_columns_of source (_load_bf_columns setup) u).
  { destruct (_pick_columns_include s1 u) as [_ ->]. simpl. rewrite Hbf.
    unfold tablet_columns_of. split.
    - intros [Hu|(t & Ht & Hx)]; [by apply elem_of_empty in Hu|].
      exists t. split; [done|]. apply Hid; [apply elem_of_app; by right | done].
    - intros (t & Ht & Hx). right. exists t. split; [done|].
      apply Hid; [apply elem_of_app; by right | done]. }
  assert (Hsplit : tablet_columns_of source
                     (_used_columns setup ++ _load_bf_columns setup) u
                   <-> tablet_columns_of source (_used_columns setup) u
                       \/ tablet_columns_of source (_load_bf_columns setup) u).
  { unfold tablet_columns_of. split.
    - intros (t & Ht & Hx). apply elem_of_app in Ht as [Ht|Ht];
        [left | right]; by exists t.
    - intros [(t & Ht & Hx)|(t & Ht & Hx)]; exists t;
        (split; [apply elem_of_app; by auto | done]). }
  split.
  - intros stream_offset s. rewrite _load_index_fetch_Skipped_iff.
    unfold index_stream_needed, _is_column_included, _is_bf_column_included.
    fold u. rewrite andb_false_iff, orb_false_iff, !andb_false_iff,
      !bool_decide_eq_false, Hsegment, Hused_in, Hbf_in, Hsplit.
    destruct (decide (u ∈ column_unique_ids source));
      destruct (decide (StreamInfoMessage.kind m = ROW_INDEX)) as [Hk|Hk];
      destruct (decide (StreamInfoMessage.kind m = BLOOM_FILTER)) as [Hk'|Hk'];
      try congruence; tauto.
  - unfold data_stream_needed. fold u.
    rewrite !andb_true_iff, negb_true_iff, orb_false_iff, orb_true_iff,
      !bool_decide_eq_true, !bool_decide_eq_false, Hsegment, Hused_in, Hbf_in,
      Hsplit. tauto.
Qed.

(** ** [init] *)

Lemma _load_segment_file_outcome (build : Build) source (setup setup1 : ReaderSetup)
  opened opened1 (res : OLAPStatus) :
  _load_segment_file build source setup opened = (res, setup1, opened1) ->
  (open_with_cache source ≠ OLAP_SUCCESS ->
   res = open_with_cache source /\ setup1 = setup /\ opened1 = opened)
  /\ (open_with_cache source = OLAP_SUCCESS ->
      setup1 = set_segment_file (get_seg_pb source) (get_null_supported source)
                 (file_header_size source) setup
      /\ (magic_string source ≠ "COLUMN DATA" -> res = OLAP_ERR_FILE_FORMAT_ERROR)
      /\ (res = OLAP_SUCCESS ->
          magic_string source = "COLUMN DATA"
          /\ _encodings_map opened1 = _encodings_map opened
          /\ (_is_using_mmap opened = true -> _mmap_buffer opened1 = true))).
Proof.
  unfold _load_segment_file, _check_file_version.
  case_decide as Hopen.
  { intros [= <- <- <-]. split; [done|]. intros Heq. by rewrite Heq in Hopen. }
  assert (Hok : open_with_cache source = OLAP_SUCCESS)
    by (destruct (decide (OLAP_SUCCESS = open_with_cache source)); [done | tauto]).
  destruct (String.eqb (magic_string source) "COLUMN DATA") eqn:Hmagic;
    cbn [negb].
  - apply String.eqb_eq in Hmagic.
    assert (Hversion : (if decide (version source > CURRENT_COLUMN_DATA_VERSION build)
                        then OLAP_SUCCESS else OLAP_SUCCESS) = OLAP_SUCCESS)
      by (by case_decide).
    rewrite Hversion. rewrite decide_False by (intros Hx; by apply Hx).
    destruct (_is_using_mmap opened) eqn:Hmmap.
    + destruct (mmap_created source) eqn:Hcreated; simpl; intros [= <- <- <-];
        (split; [intros Hx; by rewrite Hok in Hx|]); intros _;
        (split; [done|]); (split; [done|]); [done | discriminate].
    + intros [= <- <- <-]. split; [intros Hx; by rewrite Hok in Hx|]. intros _.
      do 2 (split; [done|]). done.
  - apply String.eqb_neq in Hmagic. rewrite decide_True by done.
    intros [= <- <- <-]. split; [intros Hx; by rewrite Hok in Hx|]. intros _.
    split; [done|]. split; [done | discriminate].
Qed.

Lemma _set_decompressor_outcome (build : Build) source opened opened1
  (res : OLAPStatus) :
  OLAP_ERR_PARSE_PROTOBUF_ERROR build ≠ OLAP_SUCCESS ->
  _set_decompressor build source opened = (res, opened1) ->
  _encodings_map opened1 = _encodings_map opened
  /\ _mmap_buffer opened1 = _mmap_buffer opened
  /\ (res = OLAP_SUCCESS ->
      _decompressor opened1
      = match compress_kind source with
        | COMPRESS_LZO => Some lzo_decompress
        | COMPRESS_LZ4 => Some lz4_decompress
        | _ => None
        end
      /\ (forall tag, compress_kind source ≠ COMPRESS_OTHER tag)
      /\ (compress_kind source = COMPRESS_LZO -> DORIS_WITH_LZO build = true))
  /\ (res ≠ OLAP_SUCCESS ->
      res = OLAP_ERR_PARSE_PROTOBUF_ERROR build /\ opened1 = opened).
Proof.
  intros Herr. unfold _set_decompressor.
  destruct (compress_kind source) as [| | |tag] eqn:Hkind.
  - intros [= <- <-]. by repeat split.
  - destruct (DORIS_WITH_LZO build) eqn:Hlzo; intros [= <- <-].
    + by repeat split.
    + do 2 (split; [done|]). split; [by intros Hx|]. done.
  - intros [= <- <-]. by repeat split.
  - intros [= <- <-]. do 2 (split; [done|]). split; [by intros Hx|]. done.
Qed.

(** X22.  [init] touches the reader's index state only through
    [_load_index], its last step: when the file cannot be opened it returns
    the handler's status and has changed nothing at all; a magic string other
    than COLUMN DATA gives [OLAP_ERR_FILE_FORMAT_ERROR], whatever the
    version.  When it returns [OLAP_SUCCESS], the header is the segment
    group's, the magic string is COLUMN DATA, the rows per block are the
    header's or, when that is 0, the segment group's, the compression kind is
    a known one and [_decompressor] is the function for it (none for
    [COMPRESS_NONE]), the shared buffer exists, the column maps are those of
    [_set_column_map] extended by [_pick_columns], and the index is what
    [_load_index] loaded for this setup. *)
Theorem X22_init_outcome (build : Build) source (using_cache : bool)
  (setup setup' : ReaderSetup) opened opened' (st st' : SegmentReader)
  (res : OLAPStatus) :
  OLAP_ERR_PARSE_PROTOBUF_ERROR build ≠ OLAP_SUCCESS ->
  init build source using_cache setup opened st = Done (res, setup', opened', st') ->
  (open_with_cache source ≠ OLAP_SUCCESS ->
   res = open_with_cache source /\ setup' = setup /\ opened' = opened /\ st' = st)
  /\ (open_with_cache source = OLAP_SUCCESS ->
      magic_string source ≠ "COLUMN DATA" ->
      res = OLAP_ERR_FILE_FORMAT_ERROR /\ st' = st)
  /\ (st' = st \/ _load_index setup' using_cache st = Done (res, st'))
  /\ (res = OLAP_SUCCESS ->
      open_with_cache source = OLAP_SUCCESS
      /\ magic_string source = "COLUMN DATA"
      /\ _file_header setup' = get_seg_pb source
      /\ _header_length setup' = file_header_size source
      /\ _null_supported setup' = get_null_supported source
      /\ _num_rows_in_block setup'
         = (if decide (num_rows_per_block (get_seg_pb source) = 0)
            then get_num_rows_per_row_block source
            else num_rows_per_block (get_seg_pb source))
      /\ _decompressor opened'
         = match compress_kind source with
           | COMPRESS_LZO => Some lzo_decompress
           | COMPRESS_LZ4 => Some lz4_decompress
           | _ => None
           end
      /\ (forall tag, compress_kind source ≠ COMPRESS_OTHER tag)
      /\ (compress_kind source = COMPRESS_LZO -> DORIS_WITH_LZO build = true)
      /\ _shared_buffer opened' = true
      /\ (exists s0 s1 opened0 opened1,
            _set_column_map source s0 opened0 = Done (s1, opened1)
            /\ _used_columns s0 = _used_columns setup
            /\ _load_bf_columns s0 = _load_bf_columns setup
            /\ _include_columns s0 = _include_columns setup
            /\ _include_bf_columns s0 = _include_bf_columns setup
            /\ setup' = (_pick_columns s1).2
            /\ _encodings_map opened' = _encodings_map opened1)
      /\ _load_index setup' using_cache st = Done (OLAP_SUCCESS, st')).
Proof.
  intros Herr. unfold init.
  destruct (_load_segment_file build source setup opened)
    as [[res1 setup1] opened1] eqn:Hload.
  apply _load_segment_file_outcome in Hload as [Hclosed Hopened].
  case_decide as Hres1.
  { intros [= <- <- <- <-].
    split.
    { intros Hopen. destruct (Hclosed Hopen) as (-> & -> & ->). done. }
    split.
    { intros Hopen Hmagic. destruct (Hopened Hopen) as (_ & Hformat & _).
      by rewrite (Hformat Hmagic). }
    split; [by left|]. intros ->. done. }
  assert (res1 = OLAP_SUCCESS) as ->
    by (destruct (decide (OLAP_SUCCESS = res1)); [done | tauto]).
  assert (Hopen : open_with_cache source = OLAP_SUCCESS).
  { destruct (decide (open_with_cache source = OLAP_SUCCESS)) as [|Hne]; [done|].
    by destruct (Hclosed Hne) as [Hx _]. }
  destruct (Hopened Hopen) as (-> & Hformat & Hsuccess).
  destruct (Hsuccess eq_refl) as (Hmagic & Henc1 & Hmmap). clear Hsuccess Hclosed.
  intros Hrun. run_inv Hrun. destruct a as [[res2 setup2] opened2].
  unfold _set_segment_info in Hm. run_inv Hm. destruct a as [setup3 opened3].
  destruct (_set_decompressor build source opened3) as [res3 opened4] eqn:Hdec.
  apply (_set_decompressor_outcome build source opened3 opened4 res3 Herr) in Hdec
    as (Henc4 & Hmmap4 & Hdec_ok & Hdec_err).
  pose proof Hm0 as Hmaps.
  apply _set_column_map_Done in Hmaps
    as (m1 & m2 & seg & _ & _ & _ & Hsetup3 & Hopened3).
  assert (Hsetup2 : setup2 = setup3 /\ opened2 = opened4 /\ res2 = res3).
  { destruct (decide (OLAP_SUCCESS ≠ res3)) as [Hres3|Hres3];
      injection Hm as <- <- <-; [done|].
    split; [done|]. split; [done|].
    destruct (decide (OLAP_SUCCESS = res3)); [done | tauto]. }
  destruct Hsetup2 as (-> & -> & ->). clear Hm.
  split; [intros Hx; by rewrite Hopen in Hx|].
  split; [intros _ Hx; by destruct Hx|].
  destruct (decide (OLAP_SUCCESS ≠ res3)) as [Hres3|Hres3].
  { injection Hrun as <- <- <- <-. split; [by left|]. intros ->. done. }
  assert (res3 = OLAP_SUCCESS) as ->
    by (destruct (decide (OLAP_SUCCESS = res3)); [done | tauto]).
  destruct (Hdec_ok eq_refl) as (Hdecompressor & Hknown & Hlzo).
  destruct (shared_buffer_created source) eqn:Hshared; simpl in Hrun.
  2:{ injection Hrun as <- <- <- <-. split; [by left|]. discriminate. }
  run_inv Hrun. destruct a as [res4 st1].
  split.
  { right. destruct (decide (OLAP_SUCCESS ≠ res4)) as [Hres4|Hres4];
      injection Hrun as <- <- <- <-; [done|]. rewrite Hm.
    destruct (decide (OLAP_SUCCESS = res4)) as [<-|]; [done | tauto]. }
  intros Hres. assert (res4 = OLAP_SUCCESS /\ res = OLAP_SUCCESS
                       /\ setup' = (_pick_columns setup3).2
                       /\ opened' = set_shared_buffer true opened4
                       /\ st' = st1) as (-> & _ & -> & -> & ->).
  { destruct (decide (OLAP_SUCCESS ≠ res4)) as [Hres4|Hres4];
      injection Hrun as <- <- <- <-; [congruence|].
    split; [|done]. destruct (decide (OLAP_SUCCESS = res4)); [done | tauto]. }
  assert (Hfields :
            _file_header (_pick_columns setup3).2 = get_seg_pb source
            /\ _header_length (_pick_columns setup3).2 = file_header_size source
            /\ _null_supported (_pick_columns setup3).2 = get_null_supported source
            /\ _num_rows_in_block (_pick_columns setup3).2
               = (if decide (num_rows_per_block (get_seg_pb source) = 0)
                  then get_num_rows_per_row_block source
                  else num_rows_per_block (get_seg_pb source)))
    by (rewrite Hsetup3; done).
  destruct Hfields as (Hheader & Hlength & Hnull & Hrows).
  do 6 (split; [done|]). do 3 (split; [done|]). split; [done|].
  split; [|done].
  eexists _, setup3, opened1, opened3. split; [exact Hm0|]. simpl.
  by repeat split.
Qed.

End InitResults.

(** * The further properties on the sample segment *)

Lemma X1_seek_to_block_witness :
  exists b st',
    _seek_to_block scenario_sought.2 2 false = Done st'
    /\ _next_block_id st' = b
    /\ 2 <= b
    /\ (forall j, 2 <= j < b ->
                  j <= _end_block scenario_sought.2
                  /\ [1; 1; 0; 2] !! Z.to_nat j = Some Excluded)
    /\ (if decide (b <= _end_block scenario_sought.2)
        then (exists v, [1; 1; 0; 2] !! Z.to_nat b = Some v /\ v ≠ Excluded)
             /\ _eof st' = _eof scenario_sought.2
        else b = Z.max 2 (_end_block scenario_sought.2 + 1) /\ _eof st' = true).
Proof.
  apply (X1_seek_to_block_first_remaining scenario_sought.2 [1; 1; 0; 2] 2).
  - vm_compute. reflexivity.
  - lia.
  - vm_compute. reflexivity.
Defined.

Lemma X2_seek_to_block_directly_witness :
  _seek_to_block_directly healthy_directly.2 0 [0; 1]
  = Done (OLAP_SUCCESS, healthy_directly.2).
Proof.
  apply (X2_seek_to_block_directly_repeat healthy_scan_reader healthy_directly.2
           0 [0] [0; 1]).
  apply returned_with; [vm_compute; exact I | vm_compute; reflexivity].
Defined.

Lemma X3_seek_to_block_directly_witness :
  failing_directly.1 = OLAP_ERR_COLUMN_SEEK_ERROR
  /\ _current_block_id failing_directly.2 = _current_block_id failing_scan_reader
  /\ _need_to_seek_block failing_directly.2
     = _need_to_seek_block failing_scan_reader.
Proof.
  assert (Hstatus : failing_directly.1 = OLAP_ERR_COLUMN_SEEK_ERROR)
    by (vm_compute; reflexivity).
  destruct (X3_seek_to_block_directly_status failing_scan_reader
              failing_directly.2 0 [0] OLAP_ERR_COLUMN_SEEK_ERROR)
    as (_ & _ & Hkept).
  - apply returned_with; [vm_compute; exact I | exact Hstatus].
  - split; [exact Hstatus|]. apply Hkept. discriminate.
Defined.

Lemma X4_pick_row_groups_witness :
  scenario_picked.2
  = set_stats (_stats scenario_picked.2)
      (set_remain_block (_remain_block scenario_picked.2)
         (set_include_blocks (_include_blocks scenario_picked.2) four_blocks))
  /\ _indices scenario_picked.2 = _indices four_blocks.
Proof.
  destruct (X4_pick_row_groups_frame scenario_setup four_blocks scenario_picked.2
              0 3 ReturnNoConditions)
    as (Hframe & _ & _ & _ & _ & _ & Hindices & _).
  - apply returned_with; [vm_compute; exact I | vm_compute; reflexivity].
  - split; [exact Hframe | exact Hindices].
Defined.

Lemma X5_filtered_scan_witness :
  filtered_scan scenario_setup four_blocks 0 3 (sample_batch 1024)
  ≠ Done VisitOutOfFuel
  /\ scenario_visits
     = [(0, 1024, Include); (1, 1024, Include); (3, 1024, RequiresRowFilter)].
Proof.
  destruct (X5_filtered_scan_reads_remaining_blocks scenario_setup four_blocks
              0 3 (sample_batch 1024)) as [Hfuel _].
  - intros r p. reflexivity.
  - lia.
  - lia.
  - vm_compute. reflexivity.
  - lia.
  - split; [exact Hfuel | vm_compute; reflexivity].
Defined.

Lemma X6_delete_phase_witness :
  (forall k v,
     block_disposition scenario_initialised k = Some v ->
     exists v',
       block_disposition scenario_deleted.2 k = Some v'
       /\ disposition_rank v'
          = (if delete_phase_active scenario_setup && bool_decide (0 <= k <= 3)
             then Z.max (disposition_rank v)
                    (delete_phase_outcome scenario_setup scenario_initialised k)
             else disposition_rank v)
       /\ (delete_phase_active scenario_setup && bool_decide (0 <= k <= 3) = false ->
           v' = v)
       /\ (valid_disposition v -> valid_disposition v'))
  /\ delete_phase_outcome scenario_setup scenario_initialised 2 = 2
  /\ delete_phase_outcome scenario_setup scenario_initialised 3 = 1
  /\ block_disposition scenario_deleted.2 2 = Some Excluded
  /\ block_disposition scenario_deleted.2 3 = Some RequiresRowFilter.
Proof.
  destruct (X6_delete_phase_takes_the_maximum scenario_setup
              scenario_initialised scenario_deleted.2 0 3 OLAP_SUCCESS)
    as [_ Hall].
  - apply returned_with; [vm_compute; exact I | vm_compute; reflexivity].
  - split; [exact Hall|]. repeat split; vm_compute; reflexivity.
Defined.

Lemma X7_dispositions_only_rise_witness :
  exists v',
    block_disposition scenario_block_2 2 = Some v'
    /\ disposition_rank Include <= disposition_rank v'
    /\ (valid_disposition Include -> valid_disposition v').
Proof.
  apply (X7_dispositions_only_rise scenario_setup scenario_initialised
           scenario_block_2 2 Include).
  - eapply reached_step; [apply reached_start|].
    apply (delete_evaluation scenario_setup (delete_between 5 20 35)).
    apply done_or_returned. vm_compute. exact I.
  - vm_compute. reflexivity.
Defined.

Lemma X8_zone_map_phase_witness :
  block_disposition equals_5_zoned 3
  = Some (if bool_decide (0 <= 3 <= 11)
             && zone_map_rejects equals_5_setup twelve_initialised equals_5 3
          then Excluded else Include)
  /\ zone_map_rejects equals_5_setup twelve_initialised equals_5 3 = false.
Proof.
  split; [|vm_compute; reflexivity].
  apply (X8_zone_map_phase_result equals_5_setup equals_5 0 11
           twelve_initialised equals_5_zoned).
  - apply done_or_returned. vm_compute. exact I.
  - vm_compute. reflexivity.
Defined.

Lemma X9_bloom_filter_phase_witness :
  (forall k v,
     block_disposition equals_5_zoned k = Some v ->
     block_disposition equals_5_bloomed k
     = Some (if bool_decide (0 <= k <= 11)
                && bloom_filter_rejects equals_5_setup equals_5_zoned equals_5 k
             then Excluded else v))
  /\ bloom_filter_rejects equals_5_setup equals_5_zoned equals_5 1 = true
  /\ bloom_filter_rejects equals_5_setup equals_5_zoned equals_5 2 = false.
Proof.
  split; [|split; vm_compute; reflexivity].
  apply (X9_bloom_filter_phase_result equals_5_setup equals_5 0 11
           equals_5_zoned equals_5_bloomed).
  apply done_or_returned. vm_compute. exact I.
Defined.

Lemma X10_filtered_rows_witness :
  rows_filtered scenario_picked.2 + rows_remaining scenario_setup scenario_picked.2
  = rows_filtered four_blocks
    + rows_in (rows_of_block scenario_setup four_blocks)
        (initial_blocks (_block_count four_blocks) 0 3) 0
  /\ rows_del_filtered (_stats four_blocks)
     <= rows_del_filtered (_stats scenario_picked.2)
  /\ rows_stats_filtered (_stats four_blocks)
     <= rows_stats_filtered (_stats scenario_picked.2).
Proof.
  assert (Hcount : _block_count four_blocks = 4) by (vm_compute; reflexivity).
  assert (Hrows : _num_rows_in_block scenario_setup = 1024)
    by (vm_compute; reflexivity).
  assert (Htotal : number_of_rows (_file_header scenario_setup) = 4096)
    by (vm_compute; reflexivity).
  apply (X10_filtered_rows_are_accounted scenario_setup four_blocks
           scenario_picked.2 0 3 ReturnNoConditions).
  - lia.
  - lia.
  - rewrite Hcount. lia.
  - vm_compute. reflexivity.
  - vm_compute. reflexivity.
  - intros j Hj. unfold rows_of_block. rewrite Hcount, Hrows, Htotal in *.
    case_decide; lia.
  - vm_compute. discriminate.
  - vm_compute. discriminate.
  - vm_compute. reflexivity.
  - apply returned_with; [vm_compute; exact I | vm_compute; reflexivity].
Defined.


Lemma X12_load_index_witness :
  _lru_cache uncached_loaded.2 = _lru_cache unloaded
  /\ Forall (fun h => h = None) (_cache_handle uncached_loaded.2)
  /\ indexes_own_buffers uncached_loaded.2.
Proof.
  apply (X12_load_index_without_cache two_index_setup unloaded uncached_loaded.2
           OLAP_SUCCESS).
  - intros u k. reflexivity.
  - apply Forall_nil_2.
  - split; intros u r Hr; vm_compute in Hr; discriminate Hr.
  - apply returned_with; [vm_compute; exact I | vm_compute; reflexivity].
Defined.

Lemma X13_load_index_witness :
  _lru_cache unloaded ⊆ _lru_cache cache_loaded.2
  /\ indexes_in_cache two_index_setup cache_loaded.2.
Proof.
  apply (X13_load_index_with_cache two_index_setup unloaded cache_loaded.2
           OLAP_SUCCESS).
  - split; intros u r Hr; vm_compute in Hr; discriminate Hr.
  - apply returned_with; [vm_compute; exact I | vm_compute; reflexivity].
Defined.

Lemma X14_read_all_data_streams_witness :
  (forall name,
     is_Some (_streams example_data_loaded.2 !! name)
     <-> is_Some (_streams (sample_reader (collab := example_collaborators) 0 ∅ ∅)
                  !! name)
         \/ exists m,
              m ∈ stream_info (_file_header (example_setup example_collaborators))
              /\ data_stream_needed (example_setup example_collaborators) m = true
              /\ stream_name m = name)
  /\ _streams example_data_loaded.2 !! (0, DATA_KIND 2)
     = Some {| rs_offset := 800; rs_length := 150 |}.
Proof.
  destruct (X14_read_all_data_streams_result
              (example_setup example_collaborators)
              (sample_reader 0 ∅ ∅) example_data_loaded.2) as [Hnames _].
  - apply returned_with; [vm_compute; exact I | vm_compute; reflexivity].
  - split; [exact Hnames | vm_compute; reflexivity].
Defined.

Lemma X15_create_reader_witness :
  Z.of_nat (List.length (_column_readers readers_created.2))
  = num_columns (scan_setup healthy)
  /\ _column_indices readers_created.2 !! Z.to_nat 0
     = Some (_indices indexed_reader
             !! map_index (_tablet_id_to_unique_id_map (scan_setup healthy)) 0)
  /\ _column_indices readers_created.2 !! Z.to_nat 1 = Some None.
Proof.
  destruct (X15_create_reader_result (scan_setup healthy) indexed_reader
              readers_created.2) as (Hlength & _ & _ & _ & Hindex).
  - vm_compute. discriminate.
  - reflexivity.
  - apply returned_with; [vm_compute; exact I | vm_compute; reflexivity].
  - split; [exact Hlength|]. split; [|vm_compute; reflexivity].
    apply Hindex. vm_compute. left.
Defined.

Lemma X16_seek_to_block_witness :
  scenario_sought.1.2
  = OutNextEof (wrap32 (_next_block_id scenario_sought.2)) (_eof scenario_sought.2)
  /\ _is_data_loaded scenario_sought.2 = true
  /\ _need_to_seek_block scenario_sought.2 = true
  /\ _end_block scenario_sought.2 = scan_end four_blocks 3
  /\ _block_count scenario_sought.2 = _block_count four_blocks.
Proof.
  destruct (X16_seek_to_block_outcome scenario_setup four_blocks
              scenario_sought.2 0 3 false OLAP_SUCCESS
              (OutNextEof 0 false))
    as ((_ & _ & Hcount & _) & _ & _ & Hsuccess).
  - apply (returned_with _ _ (OLAP_SUCCESS, OutNextEof 0 false));
      [vm_compute; exact I | vm_compute; reflexivity].
  - destruct (Hsuccess eq_refl) as (_ & Hloaded & Hneed & _ & Hend & _).
    split; [vm_compute; reflexivity|]. by repeat split.
Defined.

(** A run of [init] that returns with status [a]. *)
Lemma init_returned_with {B C D : Type} (run : exec (OLAPStatus * B * C * D))
  (otherwise : OLAPStatus * B * C * D) (a : OLAPStatus) :
  returned run -> (done_or run otherwise).1.1.1 = a ->
  run = Done (a, (done_or run otherwise).1.1.2, (done_or run otherwise).1.2,
              (done_or run otherwise).2).
Proof.
  destruct run as [[[[r b] c] d]|f]; simpl; [|done]. by intros _ ->.
Qed.


Lemma X18_set_column_map_witness :
  (forall u,
     is_Some (_unique_id_to_tablet_id_map sample_column_maps.1 !! u)
     <-> tablet_columns_of sample_source
           (_used_columns fresh_setup ++ _load_bf_columns fresh_setup) u)
  /\ _tablet_id_to_unique_id_map sample_column_maps.1 !! 2 = Some 12
  /\ _unique_id_to_tablet_id_map sample_column_maps.1 !! 11 = Some 1.
Proof.
  destruct (X18_set_column_map_tablet_maps sample_source fresh_setup
              sample_column_maps.1 fresh_opened sample_column_maps.2)
    as (_ & _ & _ & Hdomain & _).
  - apply (returned_with _ _ sample_column_maps.1);
      [vm_compute; exact I | reflexivity].
  - split; [exact Hdomain|]. split; vm_compute; reflexivity.
Defined.

Lemma X19_set_column_map_witness :
  (forall u,
     is_Some (_unique_id_to_segment_id_map sample_column_maps.1 !! u)
     <-> is_Some (_unique_id_to_tablet_id_map sample_column_maps.1 !! u)
         /\ u ∈ column_unique_ids sample_source)
  /\ _unique_id_to_segment_id_map sample_column_maps.1 !! 10 = Some 1
  /\ _unique_id_to_segment_id_map sample_column_maps.1 !! 12 = None
  /\ _encodings_map sample_column_maps.2 !! 10 = Some 8.
Proof.
  destruct (X19_set_column_map_segment_map sample_source fresh_setup
              sample_column_maps.1 fresh_opened sample_column_maps.2)
    as (_ & Hdomain & _).
  - apply (returned_with _ _ sample_column_maps.1);
      [vm_compute; exact I | reflexivity].
  - split; [exact Hdomain|]. repeat split; vm_compute; reflexivity.
Defined.

Lemma X20_pick_columns_witness :
  (forall u,
     u ∈ _include_columns (_pick_columns sample_column_maps.1).2
     <-> u ∈ _include_columns fresh_setup
         \/ tablet_columns_of sample_source (_used_columns fresh_setup) u)
  /\ _include_columns (_pick_columns sample_column_maps.1).2 = {[10; 11]}
  /\ _include_bf_columns (_pick_columns sample_column_maps.1).2 = {[12]}.
Proof.
  destruct (X20_pick_columns_after_column_map sample_source fresh_setup
              sample_column_maps.1 fresh_opened sample_column_maps.2)
    as (_ & Hinclude & _).
  - apply (returned_with _ _ sample_column_maps.1);
      [vm_compute; exact I | reflexivity].
  - split; [exact Hinclude|]. split; vm_compute; reflexivity.
Defined.

Lemma X21_streams_needed_witness :
  data_stream_needed (_pick_columns sample_column_maps.1).2
    (stream (DATA_KIND 2) 10 8) = true
  <-> StreamInfoMessage.column_unique_id (stream (DATA_KIND 2) 10 8)
      ∈ column_unique_ids sample_source
      /\ StreamInfoMessage.kind (stream (DATA_KIND 2) 10 8) ≠ ROW_INDEX
      /\ StreamInfoMessage.kind (stream (DATA_KIND 2) 10 8) ≠ BLOOM_FILTER
      /\ tablet_columns_of sample_source
           (_used_columns fresh_setup ++ _load_bf_columns fresh_setup)
           (StreamInfoMessage.column_unique_id (stream (DATA_KIND 2) 10 8)).
Proof.
  destruct (X21_streams_needed_by_schema sample_source fresh_setup
              sample_column_maps.1 fresh_opened sample_column_maps.2
              (stream (DATA_KIND 2) 10 8)) as [_ Hdata].
  - reflexivity.
  - reflexivity.
  - apply (returned_with _ _ sample_column_maps.1);
      [vm_compute; exact I | reflexivity].
  - exact Hdata.
Defined.

Lemma X22_init_witness :
  _num_rows_in_block sample_initialised.1.1.2 = 1
  /\ _decompressor sample_initialised.1.2 = Some lz4_decompress
  /\ _load_index sample_initialised.1.1.2 false unloaded
     = Done (OLAP_SUCCESS, sample_initialised.2)
  /\ _block_count sample_initialised.2 = 2
  /\ corrupt_initialised.1.1.1 = OLAP_ERR_FILE_FORMAT_ERROR
  /\ corrupt_initialised.2 = unloaded.
Proof.
  destruct (X22_init_outcome sample_build sample_source false fresh_setup
              sample_initialised.1.1.2 fresh_opened sample_initialised.1.2
              unloaded sample_initialised.2 OLAP_SUCCESS)
    as (_ & _ & _ & Hsuccess).
  - discriminate.
  - apply (init_returned_with
             (init sample_build sample_source false fresh_setup fresh_opened
                unloaded)
             (OLAP_ERR_OTHER 0, fresh_setup, fresh_opened, unloaded)
             OLAP_SUCCESS);
      [vm_compute; exact I | vm_compute; reflexivity].
  - destruct (Hsuccess eq_refl)
      as (_ & _ & _ & _ & _ & Hrows & Hdecompressor & _ & _ & _ & _ & Hindex).
    destruct (X22_init_outcome sample_build corrupt_source false fresh_setup
                corrupt_initialised.1.1.2 fresh_opened corrupt_initialised.1.2
                unloaded corrupt_initialised.2 corrupt_initialised.1.1.1)
      as (_ & Hformat & _).
    + discriminate.
    + apply (init_returned_with
               (init sample_build corrupt_source false fresh_setup fresh_opened
                  unloaded)
               (OLAP_SUCCESS, fresh_setup, fresh_opened, unloaded)
               corrupt_initialised.1.1.1);
        [vm_compute; exact I | reflexivity].
    + destruct Hformat as [Hstatus Hstate]; [reflexivity | discriminate |].
      split; [exact Hrows|]. split; [exact Hdecompressor|].
      split; [exact Hindex|]. split; [vm_compute; reflexivity|].
      split; [exact Hstatus | exact Hstate].
Defined.
